(** * Funland ETL pipeline: extract, transform, load

    A shallow embedding of the three lambda handlers
    ([src/lambda_handler/extract.py], [transform.py], [load.py]) and the
    properties of the watermark protocol, the builders and the loader.

    The handlers are Python scripts that talk to AWS (SSM parameter store,
    Secrets Manager, S3) and to PostgreSQL through pg8000.  They are embedded
    as computations in a state-and-exception monad over a [world] that holds
    the state of those services, a fault oracle that lets any service call
    raise, the log, and the trace of service calls. *)

From Stdlib Require Import ZArith QArith Ascii.
From stdpp Require Import gmap strings list sorting pretty.

Local Open Scope Z_scope.
Local Open Scope string_scope.
Local Open Scope stdpp_scope.

(** ** Python exceptions *)

(** The exception classes the handlers raise, catch or let through, all
    derived from [Exception].  [ParameterNotFound] and
    [ResourceNotFoundException] are the botocore service exceptions; both
    derive from [ClientError].  pg8000's [DatabaseError] and
    [InterfaceError] derive from [Exception]. *)
Inductive exn_class :=
  | Exception
  | ClientError
  | ParameterNotFound
  | ResourceNotFoundException
  | DatabaseError
  | InterfaceError
  | KeyError
  | ValueError
  | TypeError.

Global Instance exn_class_eq_dec : EqDecision exn_class.
Proof. solve_decision. Defined.

(** Method resolution order: the class itself followed by its bases. *)
Definition mro (c : exn_class) : list exn_class :=
  match c with
  | Exception => [Exception]
  | ClientError => [ClientError; Exception]
  | ParameterNotFound => [ParameterNotFound; ClientError; Exception]
  | ResourceNotFoundException => [ResourceNotFoundException; ClientError; Exception]
  | DatabaseError => [DatabaseError; Exception]
  | InterfaceError => [InterfaceError; Exception]
  | KeyError => [KeyError; Exception]
  | ValueError => [ValueError; Exception]
  | TypeError => [TypeError; Exception]
  end.

(** An exception object: its class, the botocore error code
    ([e.response["Error"]["Code"], empty for other classes) and [str(e)]. *)
Record exn := mk_exn {
  exn_cls : exn_class;
  exn_code : string;
  exn_msg : string;
}.

Definition isinstance (e : exn) (c : exn_class) : bool :=
  bool_decide (c ∈ mro (exn_cls e)).

Definition str_exn (e : exn) : string := exn_msg e.

(** The result of running a Python statement or call. *)
Inductive outcome (A : Type) :=
  | Return (a : A)
  | Raise (e : exn).
Arguments Return {A} a.
Arguments Raise {A} e.

(** ** Python values *)

(** Calendar date and time stamp ([datetime.datetime] / [pd.Timestamp]):
    the date, the time of day in microseconds and the UTC offset in minutes
    ([None] for a naive time stamp). *)
Record date := mk_date { d_year : Z; d_month : Z; d_day : Z }.
Global Instance date_eq_dec : EqDecision date.
Proof. solve_decision. Defined.

Record datetime := mk_datetime {
  dt_date : date;
  dt_micros : Z;
  dt_tz : option Z;
}.

(** A cell of a result set or of a data frame. *)
Inductive value :=
  | VNone
  | VNaN
  | VNaT
  | VBool (b : bool)
  | VInt (z : Z)
  | VFloat (q : Q)
  | VStr (s : string)
  | VDate (d : date)
  | VTime (micros : Z)
  | VTimestamp (t : datetime).

(** [pd.notnull] on one cell. *)
Definition notnull (v : value) : bool :=
  match v with
  | VNone | VNaN | VNaT => false
  | _ => true
  end.

(** A [pd.DataFrame] with the default index: column labels and rows. *)
Record DataFrame := mk_df {
  columns : list string;
  rows : list (list value);
}.

(** [len(df)]. *)
Definition df_len (df : DataFrame) : nat := length (rows df).

(** [df.empty]: some axis has length zero. *)
Definition df_empty (df : DataFrame) : bool :=
  bool_decide (rows df = []) || bool_decide (columns df = []).

(** JSON-like values of events, handler results and secrets. *)
Inductive pyval :=
  | PNone
  | PBool (b : bool)
  | PInt (z : Z)
  | PStr (s : string)
  | PStrList (l : list string).

(** Truth value of an optional Python value ([not x] is its negation);
    [None] stands for a missing key read with [dict.get]. *)
Definition truthy (v : option pyval) : bool :=
  match v with
  | None | Some PNone => false
  | Some (PBool b) => b
  | Some (PInt z) => negb (z =? 0)%Z
  | Some (PStr s) => negb (bool_decide (s = ""))
  | Some (PStrList l) => negb (bool_decide (l = []))
  end.

(** [a or b] on optional values. *)
Definition py_or (a b : option pyval) : option pyval :=
  if truthy a then a else b.

(** ** The libraries the handlers call *)

(** pg8000.native: quoting of identifiers and literals. *)
Class Pg8000 := {
  identifier : string → string;
  literal : value → string;
}.

(** [datetime.fromisoformat]; [None] stands for its [ValueError]. *)
Class PyDatetime := {
  fromisoformat : string → option datetime;
}.

(** ** SQL statements *)

(** The three statement shapes the handlers build. *)
Inductive sql :=
  | SqlSelect (table : string) (since : option datetime)
  | SqlTruncate (table : string)
  | SqlInsert (table : string) (cols : list string) (vals : list value).

Definition newline : string := String "010"%char EmptyString.

(** [", ".join(l)]. *)
Fixpoint join (sep : string) (l : list string) : string :=
  match l with
  | [] => ""
  | [x] => x
  | x :: l' => x +:+ sep +:+ join sep l'
  end.

(** The statement text, as the f-strings of extract.py and load.py. *)
Definition render `{Pg8000} (s : sql) : string :=
  match s with
  | SqlSelect table None =>
      newline +:+ "    SELECT * FROM " +:+ identifier table +:+ newline +:+ "    "
  | SqlSelect table (Some t) =>
      newline +:+ "    SELECT * FROM " +:+ identifier table
        +:+ " WHERE last_updated > " +:+ literal (VTimestamp t) +:+ newline +:+ "    "
  | SqlTruncate table => "TRUNCATE TABLE " +:+ identifier table +:+ ";"
  | SqlInsert table cols vals =>
      "INSERT INTO " +:+ identifier table +:+ " (" +:+ join ", " (identifier <$> cols)
        +:+ ") VALUES (" +:+ join ", " (literal <$> vals) +:+ ");"
  end.

(** ** The world *)

(** A call to an external service.  A database call carries the statement
    and the text sent for it. *)
Inductive call :=
  | SsmGet (name : string)
  | SsmPut (name value : string)
  | SmGet (secret_id : string)
  | DbConnect
  | DbRun (statement : sql) (text : string)
  | DbClose
  | S3Head (bucket key : string)
  | S3Get (path : string)
  | S3Put (path : string)
  | S3List (bucket prefix : string).

Inductive level := INFO | WARNING | ERROR.

Global Instance level_eq_dec : EqDecision level.
Proof. solve_decision. Defined.

Record s3_object := mk_obj {
  body : DataFrame;
  last_modified : nat;
}.

Record world := mk_world {
  (** [os.environ] *)
  environ : gmap string string;
  (** SSM parameter store *)
  ssm_params : gmap string string;
  (** Secrets Manager: the parsed [SecretString]; [None] when it is not a
      JSON object *)
  sm_secrets : gmap string (option (gmap string pyval));
  (** Object store, by [s3://bucket/key] path, and its clock *)
  s3 : gmap string s3_object;
  s3_clock : nat;
  (** Reply of the source database to a SELECT, by statement text *)
  db_select : string → list string * list (list value);
  (** Tables of the warehouse *)
  db_tables : gmap string (list (list string * list value));
  db_closed : bool;
  (** Wall clock: the successive readings of [datetime.now] *)
  clock : nat → string;
  ticks : nat;
  (** Fault oracle: the exception a service call raises, if any *)
  fault : call → option exn;
  (** Log records and service calls, oldest first *)
  log : list (level * string);
  trace : list call;
}.

(** Field updates. *)
Definition set_ssm_params (f : gmap string string → gmap string string) (w : world) : world :=
  mk_world (environ w) (f (ssm_params w)) (sm_secrets w) (s3 w) (s3_clock w)
    (db_select w) (db_tables w) (db_closed w) (clock w) (ticks w) (fault w)
    (log w) (trace w).

Definition set_s3 (f : gmap string s3_object → gmap string s3_object) (w : world) : world :=
  mk_world (environ w) (ssm_params w) (sm_secrets w) (f (s3 w)) (S (s3_clock w))
    (db_select w) (db_tables w) (db_closed w) (clock w) (ticks w) (fault w)
    (log w) (trace w).

Definition set_db_tables
    (f : gmap string (list (list string * list value)) →
         gmap string (list (list string * list value)))
    (w : world) : world :=
  mk_world (environ w) (ssm_params w) (sm_secrets w) (s3 w) (s3_clock w)
    (db_select w) (f (db_tables w)) (db_closed w) (clock w) (ticks w) (fault w)
    (log w) (trace w).

Definition set_db_closed (b : bool) (w : world) : world :=
  mk_world (environ w) (ssm_params w) (sm_secrets w) (s3 w) (s3_clock w)
    (db_select w) (db_tables w) b (clock w) (ticks w) (fault w)
    (log w) (trace w).

Definition set_ticks (n : nat) (w : world) : world :=
  mk_world (environ w) (ssm_params w) (sm_secrets w) (s3 w) (s3_clock w)
    (db_select w) (db_tables w) (db_closed w) (clock w) n (fault w)
    (log w) (trace w).

Definition add_log (r : level * string) (w : world) : world :=
  mk_world (environ w) (ssm_params w) (sm_secrets w) (s3 w) (s3_clock w)
    (db_select w) (db_tables w) (db_closed w) (clock w) (ticks w) (fault w)
    (log w ++ [r]) (trace w).

Definition add_trace (c : call) (w : world) : world :=
  mk_world (environ w) (ssm_params w) (sm_secrets w) (s3 w) (s3_clock w)
    (db_select w) (db_tables w) (db_closed w) (clock w) (ticks w) (fault w)
    (log w) (trace w ++ [c]).

(** ** The monad of handler code *)

Definition M (A : Type) : Type := world → outcome A * world.

Global Instance M_ret : MRet M := λ A a w, (Return a, w).

Global Instance M_bind : MBind M := λ A B f m w,
  match m w with
  | (Return a, w') => f a w'
  | (Raise e, w') => (Raise e, w')
  end.

(** [raise e]. *)
Definition raise {A} (e : exn) : M A := λ w, (Raise e, w).

(** The [except] clauses of a [try], in order: the first clause whose class
    the exception is an instance of handles it; with none, it propagates. *)
Fixpoint dispatch {A} (hs : list (exn_class * (exn → M A))) (e : exn) : M A :=
  match hs with
  | [] => raise e
  | (c, h) :: hs' => if isinstance e c then h e else dispatch hs' e
  end.

(** [try: m except ...: ...]. *)
Definition try_except {A} (m : M A) (hs : list (exn_class * (exn → M A))) : M A :=
  λ w, match m w with
       | (Return a, w') => (Return a, w')
       | (Raise e, w') => dispatch hs e w'
       end.

(** [try: m finally: fin]: [fin] runs on both exits; an exception of [fin]
    replaces the outcome of [m]. *)
Definition try_finally {A} (m : M A) (fin : M unit) : M A :=
  λ w, let '(r, w') := m w in
       match fin w' with
       | (Return _, w'') => (r, w'')
       | (Raise e, w'') => (Raise e, w'')
       end.

(** [for x in l: s = body x s]. *)
Fixpoint for_in {A S} (l : list A) (body : A → S → M S) (s : S) : M S :=
  match l with
  | [] => mret s
  | x :: l' => s' ← body x s; for_in l' body s'
  end.

(** [d[k]] on a dict. *)
Definition getitem {V} (d : gmap string V) (k : string) : M V :=
  match d !! k with
  | Some v => mret v
  | None => raise (mk_exn KeyError "" k)
  end.

(** ** logging *)

Definition logger_info (msg : string) : M unit := λ w, (Return (), add_log (INFO, msg) w).
Definition logger_warning (msg : string) : M unit := λ w, (Return (), add_log (WARNING, msg) w).
Definition logger_error (msg : string) : M unit := λ w, (Return (), add_log (ERROR, msg) w).

(** ** Service calls *)

(** Every service call is recorded in the trace, then raises what the fault
    oracle says, if anything, and otherwise acts on the world. *)
Definition service {A} (c : call) (act : M A) : M A :=
  λ w, let w1 := add_trace c w in
       match fault w1 c with
       | Some e => (Raise e, w1)
       | None => act w1
       end.

(** [os.environ.get(name)]. *)
Definition environ_get (name : string) : M (option string) :=
  λ w, (Return (environ w !! name), w).

(** [datetime.now(timezone.utc).isoformat()]. *)
Definition now_isoformat : M string :=
  λ w, (Return (clock w (ticks w)), set_ticks (S (ticks w)) w).

(** [ssm_client.get_parameter(Name=name, WithDecryption=True)["Parameter"]["Value"]]. *)
Definition ssm_get_parameter (name : string) : M string :=
  service (SsmGet name) (λ w,
    match ssm_params w !! name with
    | Some v => (Return v, w)
    | None => (Raise (mk_exn ParameterNotFound "ParameterNotFound" "Parameter not found"), w)
    end).

(** [ssm_client.put_parameter(Name=name, Value=value, ..., Overwrite=True)]. *)
Definition ssm_put_parameter (name value : string) : M unit :=
  service (SsmPut name value) (λ w, (Return (), set_ssm_params <[name:=value]> w)).

(** [json.loads(sm_client.get_secret_value(SecretId=id)["SecretString"])]. *)
Definition sm_get_secret_json (secret_id : string) : M (gmap string pyval) :=
  service (SmGet secret_id) (λ w,
    match sm_secrets w !! secret_id with
    | Some (Some d) => (Return d, w)
    | Some None => (Raise (mk_exn ValueError "" "Expecting value"), w)
    | None =>
        (Raise (mk_exn ResourceNotFoundException "ResourceNotFoundException"
                  "Secrets Manager can't find the specified secret"), w)
    end).

(** [pg8000.native.Connection(...)]. *)
Definition pg_connect : M unit :=
  service DbConnect (λ w, (Return (), set_db_closed false w)).

(** [conn.run(sql)] followed by [conn.columns]: the column names and rows.
    A SELECT is answered by the source database; TRUNCATE and INSERT act on
    the warehouse tables and fail on a table that does not exist. *)
Definition conn_run `{Pg8000} (s : sql) : M (list string * list (list value)) :=
  service (DbRun s (render s)) (λ w,
    match s with
    | SqlSelect _ _ => (Return (db_select w (render s)), w)
    | SqlTruncate t =>
        match db_tables w !! t with
        | Some _ => (Return ([], []), set_db_tables <[t:=[]]> w)
        | None => (Raise (mk_exn DatabaseError "" "relation does not exist"), w)
        end
    | SqlInsert t cols vals =>
        match db_tables w !! t with
        | Some rs => (Return ([], []), set_db_tables <[t:=(rs ++ [(cols, vals)])%list]> w)
        | None => (Raise (mk_exn DatabaseError "" "relation does not exist"), w)
        end
    end).

(** [conn.close()]. *)
Definition conn_close : M unit :=
  service DbClose (λ w, (Return (), set_db_closed true w)).

(** The path of an object. *)
Definition s3_url (bucket key : string) : string := "s3://" +:+ bucket +:+ "/" +:+ key.

(** [s3.head_object(Bucket=bucket, Key=key)]. *)
Definition s3_head_object (bucket key : string) : M unit :=
  service (S3Head bucket key) (λ w,
    match s3 w !! s3_url bucket key with
    | Some _ => (Return (), w)
    | None => (Raise (mk_exn ClientError "404" "Not Found"), w)
    end).

(** Text of [s] after the prefix [p], if [s] starts with [p]. *)
Fixpoint strip_prefix (p s : string) : option string :=
  match p, s with
  | EmptyString, _ => Some s
  | String a p', String b s' => if bool_decide (a = b) then strip_prefix p' s' else None
  | _, _ => None
  end.

(** [s.startswith(p)]. *)
Definition startswith (s p : string) : bool :=
  match strip_prefix p s with Some _ => true | None => false end.

(** [p in s]: the text [p] occurs in [s]. *)
Fixpoint occurs (p s : string) : bool :=
  startswith s p
  || match s with
     | EmptyString => false
     | String _ s' => occurs p s'
     end.

(** [c in s] for one character. *)
Fixpoint has_char (c : ascii) (s : string) : bool :=
  match s with
  | EmptyString => false
  | String a s' => bool_decide (a = c) || has_char c s'
  end.

(** [wr.s3.read_csv(path)] and [wr.s3.read_parquet(path)]: an object of the
    store stands for the frame a reader gets from it. *)
Definition s3_read (path : string) : M DataFrame :=
  if startswith path "s3://"
  then
    service (S3Get path) (λ w,
      match s3 w !! path with
      | Some o => (Return (body o), w)
      | None => (Raise (mk_exn Exception "" "NoFilesFound"), w)
      end)
  else raise (mk_exn Exception "" "InvalidArgumentValue").

(** [wr.s3.to_csv(df, path, index=False)] and [wr.s3.to_parquet(df, path)]:
    the object at the path is created or overwritten; it is recorded as the
    frame that was written.  The serialisation is not modelled: a frame
    written as CSV is read back with its types inferred again, so nothing
    below reads back what was written and takes it for the frame that was
    passed. *)
Definition s3_write (df : DataFrame) (path : string) : M unit :=
  if startswith path "s3://"
  then
    service (S3Put path) (λ w,
      (Return (), set_s3 <[path:=mk_obj df (s3_clock w)]> w))
  else raise (mk_exn Exception "" "InvalidArgumentValue").

(** Listing order of the object store: by key. *)
Definition key_le (x y : string * nat) : Prop := String.leb x.1 y.1 = true.

Global Instance key_le_dec : RelDecision key_le.
Proof. intros x y. unfold key_le. apply _. Defined.

(** [s3_client.list_objects_v2(Bucket=bucket, Prefix=prefix)]: key and
    modification time of the objects under the prefix, in key order; the
    response has no [Contents] entry ([None]) when there is none. *)
Definition s3_list_objects_v2 (bucket prefix : string) : M (option (list (string * nat))) :=
  service (S3List bucket prefix) (λ w,
    let found :=
      omap (λ '(path, o),
              match strip_prefix (s3_url bucket "") path with
              | Some key => if startswith key prefix then Some (key, last_modified o) else None
              | None => None
              end)
           (map_to_list (s3 w)) in
    let sorted := merge_sort key_le found in
    (Return (if bool_decide (sorted = []) then None else Some sorted), w)).

(** ** Small pieces of Python and pandas *)

(** [s.replace(old, new)] for one-character [old] and [new]. *)
Fixpoint replace_char (old new : ascii) (s : string) : string :=
  match s with
  | EmptyString => EmptyString
  | String a s' =>
      String (if bool_decide (a = old) then new else a) (replace_char old new s')
  end.

(** Truth value of an optional string. *)
Definition str_truthy (s : option string) : bool :=
  match s with
  | None => false
  | Some s => negb (bool_decide (s = ""))
  end.

(** [a, b = r]: unpacking a pair; [None] cannot be unpacked. *)
Definition unpack {A B} (r : option (A * B)) : M (A * B) :=
  match r with
  | Some p => mret p
  | None => raise (mk_exn TypeError "" "cannot unpack non-iterable NoneType object")
  end.

(** [pd.DataFrame(data, columns=cols)] on a list of rows: the rows must be
    as wide as the column list. *)
Definition pd_DataFrame (data : list (list value)) (cols : list string) : M DataFrame :=
  if forallb (λ r, bool_decide (length r = length cols)) data
  then mret (mk_df cols data)
  else raise (mk_exn ValueError "" "columns passed, passed data had a different width").

(** * extract.py *)

Module Extract.
Section extract.
Context `{Pg8000, PyDatetime}.

Definition DEFAULT_LAST_CHECKED : string := "1970-01-01T00:00:00+00:00".

Definition _utc_now_iso : M string := now_isoformat.

Definition get_last_checked : M (gmap string string) :=
  try_except
    (response ← ssm_get_parameter "last_checked";
     let result : gmap string string := {[ "last_checked" := response ]} in
     mret result)
    [ (ParameterNotFound, λ par_not_found_error,
        logger_info "SSM parameter 'last_checked' not found. Using default start time.";;
        mret {[ "last_checked" := DEFAULT_LAST_CHECKED ]});
      (ClientError, λ error,
        logger_error ("get_last_checked: There has been an AWS ClientError: "
                        +:+ str_exn error);;
        raise error) ].

Definition get_db_credentials : M (gmap string pyval) :=
  secret_name ← environ_get "DB_SECRET_NAME";
  if negb (str_truthy secret_name)
  then raise (mk_exn ValueError "" "Missing environment variable DB_SECRET_NAME")
  else
    try_except
      (sm_get_secret_json (default "" secret_name))
      [ (ResourceNotFoundException, λ par_not_found_error,
          logger_error ("get_last_checked: The parameter was not found: "
                          +:+ str_exn par_not_found_error);;
          raise par_not_found_error);
        (ClientError, λ error,
          logger_error ("get_last_checked: There has been an error: " +:+ str_exn error);;
          raise error) ].

Definition create_db_connection (db_credentials : gmap string pyval) : M unit :=
  try_except
    (user ← getitem db_credentials "user";
     password ← getitem db_credentials "password";
     database ← getitem db_credentials "database";
     host ← getitem db_credentials "host";
     port ← getitem db_credentials "port";
     pg_connect)
    [ (KeyError, λ e,
        raise (mk_exn KeyError ""
                 ("Missing key in db_credentials secret JSON: " +:+ str_exn e)));
      (InterfaceError, λ interface_error,
        logger_error ("create_db_connection: cannot connect to database: "
                        +:+ str_exn interface_error);;
        raise interface_error);
      (Exception, λ error,
        logger_error ("create_db_connection: there has been an error: " +:+ str_exn error);;
        raise error) ].

(** The statement [extract_new_rows] builds for a table. *)
Definition query_for (table_name : string) (last_checked_dt_obj : datetime) : sql :=
  if bool_decide (table_name ∈ ["department"])
  then SqlSelect table_name None
  else SqlSelect table_name (Some last_checked_dt_obj).

(** Returns [None] (the function falls off its end) after a logged error. *)
Definition extract_new_rows (table_name last_checked : string)
    : M (option (list string * list (list value))) :=
  last_checked_dt_obj ←
    match fromisoformat last_checked with
    | Some t => mret t
    | None => raise (mk_exn ValueError "" ("Invalid isoformat string: " +:+ last_checked))
    end;
  let query := query_for table_name last_checked_dt_obj in
  try_except
    ('(column_names, new_rows) ← conn_run query;
     mret (Some (column_names, new_rows)))
    [ (DatabaseError, λ db_error,
        logger_error ("There has been a database error: " +:+ str_exn db_error);;
        mret None);
      (Exception, λ error,
        logger_error ("There has been an error: " +:+ str_exn error);;
        mret None) ].

Definition convert_new_rows_to_df_and_upload_to_s3_as_csv
    (ingestion_bucket table : string) (column_names : list string)
    (new_rows : list (list value)) (batch_id : string) : M unit :=
  df ← pd_DataFrame new_rows column_names;
  logger_info ("dataframe for " +:+ table +:+ " has been created");;
  let s3_path := "s3://" +:+ ingestion_bucket +:+ "/" +:+ table +:+ "/" +:+ batch_id +:+ ".csv" in
  try_except
    (s3_write df s3_path;;
     logger_info (table +:+ " has been saved to " +:+ s3_path))
    [ (Exception, λ error,
        logger_error
          ("convert_new_rows_to_df_and_upload_to_s3_as_csv: There has been a dataframe error: "
             +:+ str_exn error);;
        raise error) ].

Definition update_last_checked (new_value : string) : M string :=
  try_except
    (ssm_put_parameter "last_checked" new_value;;
     mret new_value)
    [ (ClientError, λ error,
        logger_error ("update_last_checked: AWS ClientError: " +:+ str_exn error);;
        raise error) ].

Definition get_bucket_name : M string :=
  bucket_name ← environ_get "S3_INGESTION_BUCKET";
  if negb (str_truthy bucket_name)
  then raise (mk_exn ValueError "" "Missing environment variable S3_INGESTION_BUCKET")
  else mret (default "" bucket_name).

Definition tables_to_import : list string :=
  ["transaction"; "sales_order";
   "payment"; "counterparty";
   "currency"; "department";
   "design"; "staff";
   "address"; "purchase_order";
   "payment_type"].

(** One turn of the loop over [tables_to_import]. *)
Definition extract_table (ingestion_bucket last_checked batch_id : string)
    (table : string) (uploaded_tables : list string) : M (list string) :=
  r ← extract_new_rows table last_checked;
  '(column_names, new_rows) ← unpack r;
  if negb (bool_decide (new_rows = []))
  then
    convert_new_rows_to_df_and_upload_to_s3_as_csv
      ingestion_bucket table column_names new_rows batch_id;;
    mret (uploaded_tables ++ [table])%list
  else
    logger_info ("No new rows for table=" +:+ table);;
    mret uploaded_tables.

(** The [finally] clause of the handler. *)
Definition close_connection : M unit :=
  try_except
    (conn_close;;
     logger_info "Database connection closed")
    [ (Exception, λ _, logger_warning "Failed to close DB connection cleanly") ].

Definition lambda_handler (event : gmap string pyval) (context : unit)
    : M (gmap string pyval) :=
  logger_info "created s3 clients";;
  d ← get_last_checked;
  last_checked ← getitem d "last_checked";
  logger_info ("obtained last checked: " +:+ last_checked);;
  db_credentials ← get_db_credentials;
  logger_info "Database credentials fetched successfully";;
  create_db_connection db_credentials;;
  logger_info "created db connection";;
  ingestion_bucket ← get_bucket_name;
  logger_info ("obtained ingestion bucket name: " +:+ ingestion_bucket);;
  now ← _utc_now_iso;
  let batch_id := replace_char ":" "-" now in
  try_finally
    (uploaded_tables ←
       for_in tables_to_import (extract_table ingestion_bucket last_checked batch_id) [];
     new_last_checked ← _utc_now_iso;
     update_last_checked new_last_checked;;
     logger_info ("Updated last_checked to: " +:+ new_last_checked);;
     mret ({[ "message" := PStr "success";
              "timestamp_to_transform" := PStr last_checked;
              "batch_id" := PStr batch_id;
              "uploaded_tables" := PStrList uploaded_tables ]} : gmap string pyval))
    close_connection.

End extract.
End Extract.

(** * The calendar of [pd.date_range] and the [.dt] accessors *)

Definition is_leap (y : Z) : bool :=
  (y mod 4 =? 0)%Z && (negb (y mod 100 =? 0)%Z || (y mod 400 =? 0)%Z).

Definition days_in_month (y m : Z) : Z :=
  if (m =? 2)%Z then (if is_leap y then 29 else 28)
  else if (m =? 4)%Z || (m =? 6)%Z || (m =? 9)%Z || (m =? 11)%Z then 30
  else 31.

Definition valid_date (d : date) : bool :=
  (1 <=? d_month d)%Z && (d_month d <=? 12)%Z && (1 <=? d_day d)%Z
  && (d_day d <=? days_in_month (d_year d) (d_month d))%Z.

(** Days from 1970-01-01 to a date of the proleptic Gregorian calendar. *)
Definition days_from_civil (d : date) : Z :=
  let y := if (d_month d <=? 2)%Z then d_year d - 1 else d_year d in
  let era := y / 400 in
  let yoe := y - era * 400 in
  let mp := (d_month d + 9) mod 12 in
  let doy := (153 * mp + 2) / 5 + d_day d - 1 in
  let doe := yoe * 365 + yoe / 4 - yoe / 100 + doy in
  era * 146097 + doe - 719468.

(** The date a number of days after 1970-01-01. *)
Definition civil_from_days (z : Z) : date :=
  let z := z + 719468 in
  let era := z / 146097 in
  let doe := z - era * 146097 in
  let yoe := (doe - doe / 1460 + doe / 36524 - doe / 146096) / 365 in
  let doy := doe - (365 * yoe + yoe / 4 - yoe / 100) in
  let mp := (5 * doy + 2) / 153 in
  let d := doy - (153 * mp + 2) / 5 + 1 in
  let m := if (mp <? 10)%Z then mp + 3 else mp - 9 in
  let y := yoe + era * 400 in
  mk_date (if (m <=? 2)%Z then y + 1 else y) m d.


(** [.dt.dayofweek]: Monday is 0; 1970-01-01 was a Thursday. *)
Definition dayofweek (d : date) : Z := (days_from_civil d + 3) mod 7.

(** [.dt.day_name()]. *)
Definition day_name (d : date) : string :=
  match dayofweek d with
  | 0%Z => "Monday" | 1%Z => "Tuesday" | 2%Z => "Wednesday" | 3%Z => "Thursday"
  | 4%Z => "Friday" | 5%Z => "Saturday" | _ => "Sunday"
  end.

(** [.dt.month_name()]. *)
Definition month_name (d : date) : string :=
  match d_month d with
  | 1%Z => "January" | 2%Z => "February" | 3%Z => "March" | 4%Z => "April"
  | 5%Z => "May" | 6%Z => "June" | 7%Z => "July" | 8%Z => "August"
  | 9%Z => "September" | 10%Z => "October" | 11%Z => "November" | _ => "December"
  end.

(** [.dt.quarter]. *)
Definition quarter (d : date) : Z := (d_month d - 1) / 3 + 1.

(** Value of a string of decimal digits. *)
Fixpoint digits_to_Z (acc : Z) (s : string) : option Z :=
  match s with
  | EmptyString => Some acc
  | String a s' =>
      let n := Z.of_nat (nat_of_ascii a) - 48 in
      if (0 <=? n)%Z && (n <=? 9)%Z then digits_to_Z (10 * acc + n) s' else None
  end.

(** The first [n] characters of [s] and the rest. *)
Fixpoint take_chars (n : nat) (s : string) : option (string * string) :=
  match n, s with
  | O, _ => Some ("", s)
  | S n', String a s' =>
      match take_chars n' s' with
      | Some (p, r) => Some (String a p, r)
      | None => None
      end
  | S _, EmptyString => None
  end.

(** A number of [n] digits followed by the text [sep]. *)
Definition field (n : nat) (sep : string) (s : string) : option (Z * string) :=
  '(p, r) ← take_chars n s;
  z ← digits_to_Z 0 p;
  r' ← strip_prefix sep r;
  Some (z, r').

(** A date written [YYYY-MM-DD], the form of the bounds the transformer
    passes to [pd.date_range]. *)
Definition parse_date (s : string) : option date :=
  '(y, s) ← field 4 "-" s;
  '(m, s) ← field 2 "-" s;
  '(d, s) ← field 2 "" s;
  let r := mk_date y m d in
  if bool_decide (s = "") && valid_date r then Some r else None.

Definition midnight (d : date) : datetime := mk_datetime d 0 None.

(** [pd.date_range(start, end)]: one time stamp per day, both bounds
    included; empty when [end] is before [start]. *)
Definition date_range (start end_ : string) : M (list datetime) :=
  match parse_date start, parse_date end_ with
  | Some s, Some e =>
      mret ((λ i, midnight (civil_from_days i))
              <$> seqZ (days_from_civil s) (days_from_civil e - days_from_civil s + 1))
  | _, _ => raise (mk_exn ValueError "" "could not convert string to Timestamp")
  end.

(** * Data frame operations *)

(** The pandas operations whose result depends on dtype inference or on
    the join algorithm: [left.merge(right, on=key, how="left")],
    [pd.to_datetime] on a column, and [str] of a cell. *)
Class Pandas := {
  merge_left : DataFrame → DataFrame → string → outcome DataFrame;
  to_datetime : list value → outcome (list value);
  str_of_cell : value → string;
}.

(** [df.where(pd.notnull(df), None)]: what stands in the place of a null
    cell depends on the dtype of its column, which a frame does not record
    (a float column keeps its NaN, an object column takes [None]); the
    labels, the number of rows and the cells that are not null are kept. *)
Class PandasWhere := {
  where_notnull : DataFrame → DataFrame;
  where_notnull_columns df : columns (where_notnull df) = columns df;
  where_notnull_cells df :
    Forall2 (Forall2 (λ v v' : value, notnull v = true → v' = v))
            (rows df) (rows (where_notnull df));
}.

Definition lift {A} (r : outcome A) : M A := λ w, (r, w).

(** The elements of [l] whose flag is set. *)
Fixpoint select {A} (keep : list bool) (l : list A) : list A :=
  match keep, l with
  | true :: keep', x :: l' => x :: select keep' l'
  | false :: keep', _ :: l' => select keep' l'
  | _, _ => []
  end.

(** [df.drop(columns=cs, errors="ignore")]. *)
Definition df_drop (cs : list string) (df : DataFrame) : DataFrame :=
  let keep := (λ c, negb (bool_decide (c ∈ cs))) <$> columns df in
  mk_df (select keep (columns df)) (select keep <$> rows df).

(** [df.rename(columns=m)]. *)
Definition df_rename (m : list (string * string)) (df : DataFrame) : DataFrame :=
  mk_df ((λ c, default c ((λ x, x.2.2) <$> list_find (λ p, p.1 = c) m)) <$> columns df) (rows df).

(** Position of a column label. *)
Definition col_index (name : string) (df : DataFrame) : option nat :=
  fst <$> list_find (λ c, c = name) (columns df).

(** [df[name]]: the cells of a column. *)
Definition df_col (name : string) (df : DataFrame) : M (list value) :=
  match col_index name df with
  | Some i => mret ((λ r, default VNone (r !! i)) <$> rows df)
  | None => raise (mk_exn KeyError "" name)
  end.

(** [df[name] = cells]: replaces the column or appends it. *)
Definition df_set_col (name : string) (cells : list value) (df : DataFrame) : DataFrame :=
  match col_index name df with
  | Some i => mk_df (columns df) (zip_with (λ r v, <[i:=v]> r) (rows df) cells)
  | None => mk_df (columns df ++ [name])%list (zip_with (λ r v, r ++ [v])%list (rows df) cells)
  end.

(** [df[names]]: the listed columns, in that order. *)
Definition df_project (names : list string) (df : DataFrame) : M DataFrame :=
  match mapM (M:=option) (λ n, col_index n df) names with
  | Some idx => mret (mk_df names ((λ r, (λ i, default VNone (r !! i)) <$> idx) <$> rows df))
  | None => raise (mk_exn KeyError "" "not in index")
  end.

(** [column + suffix] on a column of strings. *)
Definition str_add (cells : list value) (suffix : string) : M (list value) :=
  match mapM (M:=option) (λ v, match v with
                   | VStr s => Some (VStr (s +:+ suffix))
                   | VNone | VNaN => Some VNaN
                   | _ => None
                   end) cells with
  | Some r => mret r
  | None => raise (mk_exn TypeError "" "unsupported operand type(s) for +")
  end.

(** [column.astype("string")]. *)
Definition astype_string `{Pandas} (cells : list value) : list value :=
  (λ v, if notnull v then VStr (str_of_cell v) else VNone) <$> cells.

(** [column.dt.date] and [column.dt.time]. *)
Definition dt_date_of (v : value) : value :=
  match v with VTimestamp t => VDate (dt_date t) | _ => VNaT end.
Definition dt_time_of (v : value) : value :=
  match v with VTimestamp t => VTime (dt_micros t) | _ => VNaT end.

(** The calendar attributes of the [.dt] accessor on one cell. *)
Definition dt_attr (f : date → value) (v : value) : value :=
  match v with VTimestamp t => f (dt_date t) | _ => VNaN end.

(** [max(l, key=f)] on a list with natural-number keys: the first element
    with the greatest key. *)
Fixpoint max_by {A} (f : A → nat) (l : list A) : option A :=
  match l with
  | [] => None
  | x :: l' =>
      match max_by f l' with
      | Some y => if bool_decide (f x < f y)%nat then Some y else Some x
      | None => Some x
      end
  end.

(** [str(v)] in an f-string. *)
Definition py_str (v : pyval) : string :=
  match v with
  | PNone => "None"
  | PBool b => if b then "True" else "False"
  | PInt z => pretty z
  | PStr s => s
  | PStrList l => "[" +:+ join ", " ((λ s, "'" +:+ s +:+ "'") <$> l) +:+ "]"
  end.

(** * transform.py *)

Module Transform.
Section transform.
Context `{Pandas}.

Definition check_file_exists (bucket key : string) : M bool :=
  try_except
    (s3_head_object bucket key;;
     mret true)
    [ (ClientError, λ e,
        if bool_decide (exn_code e = "404") then mret false else raise e) ].

Definition dim_currency (last_checked ingestion_bucket processed_bucket : string) : M unit :=
  let key := "currency/" +:+ last_checked +:+ ".csv" in
  found ← check_file_exists ingestion_bucket key;
  if negb found then logger_info "No currency file found"
  else
    df ← s3_read ("s3://" +:+ ingestion_bucket +:+ "/" +:+ key);
    let df := df_drop ["Unnamed: 0"; "created_at"; "last_updated"] df in
    currency_code ← df_col "currency_code" df;
    currency_name ← str_add currency_code "_Name";
    let df := df_set_col "currency_name" currency_name df in
    s3_write df ("s3://" +:+ processed_bucket +:+ "/dim_currency/" +:+ last_checked +:+ ".parquet").

Definition dim_location (last_checked ingestion_bucket processed_bucket : string) : M unit :=
  let key := "address/" +:+ last_checked +:+ ".csv" in
  found ← check_file_exists ingestion_bucket key;
  if negb found then logger_info "No address file found"
  else
    df ← s3_read ("s3://" +:+ ingestion_bucket +:+ "/" +:+ key);
    let df := df_rename [("address_id", "location_id")] df in
    let df := df_drop ["Unnamed: 0"; "created_at"; "last_updated"] df in
    df ← (if bool_decide ("postal_code" ∈ columns df)
          then postal_code ← df_col "postal_code" df;
               mret (df_set_col "postal_code" (astype_string postal_code) df)
          else mret df);
    let final_columns :=
      ["location_id"; "address_line_1"; "address_line_2"; "district";
       "city"; "postal_code"; "country"; "phone"] in
    df ← df_project final_columns df;
    s3_write df ("s3://" +:+ processed_bucket +:+ "/dim_location/" +:+ last_checked +:+ ".parquet").

Definition dim_staff (last_checked ingestion_bucket processed_bucket : string) : M unit :=
  let staff_key := "staff/" +:+ last_checked +:+ ".csv" in
  let dept_key := "department/" +:+ last_checked +:+ ".csv" in
  found ← check_file_exists ingestion_bucket staff_key;
  if negb found then logger_info "No staff file found"
  else
    staff_df ← s3_read ("s3://" +:+ ingestion_bucket +:+ "/" +:+ staff_key);
    dept_found ← check_file_exists ingestion_bucket dept_key;
    df ← (if dept_found : bool
          then dept_df ← s3_read ("s3://" +:+ ingestion_bucket +:+ "/" +:+ dept_key);
               lift (merge_left staff_df dept_df "department_id")
          else mret staff_df);
    let df :=
      df_drop ["Unnamed: 0_x"; "Unnamed: 0_y";
               "department_id"; "manager";
               "created_at_x"; "created_at_y";
               "last_updated_x"; "last_updated_y"] df in
    s3_write df ("s3://" +:+ processed_bucket +:+ "/dim_staff/" +:+ last_checked +:+ ".parquet").

Definition dim_counterparty (last_checked ingestion_bucket processed_bucket : string)
    : M unit :=
  let cp_key := "counterparty/" +:+ last_checked +:+ ".csv" in
  found ← check_file_exists ingestion_bucket cp_key;
  if negb found then logger_info "No counterparty file found"
  else
    response ← s3_list_objects_v2 ingestion_bucket "address/";
    contents ←
      match response with
      | Some l => mret l
      | None => raise (mk_exn KeyError "" "Contents")
      end;
    address_key ←
      match max_by snd contents with
      | Some x => mret x.1
      | None => raise (mk_exn ValueError "" "max() arg is an empty sequence")
      end;
    cp_df ← s3_read ("s3://" +:+ ingestion_bucket +:+ "/" +:+ cp_key);
    addr_df ← s3_read ("s3://" +:+ ingestion_bucket +:+ "/" +:+ address_key);
    let cp_df := df_rename [("legal_address_id", "address_id")] cp_df in
    df ← lift (merge_left cp_df addr_df "address_id");
    let df :=
      df_drop ["Unnamed: 0_x"; "Unnamed: 0_y";
               "created_at_x"; "created_at_y";
               "last_updated_x"; "last_updated_y";
               "commercial_contact"; "delivery_contact"] df in
    let df :=
      df_rename [("address_line_1", "counterparty_legal_address_line_1");
                 ("address_line_2", "counterparty_legal_address_line_2");
                 ("city", "counterparty_legal_city");
                 ("country", "counterparty_legal_country");
                 ("district", "counterparty_legal_district");
                 ("phone", "counterparty_legal_phone_number");
                 ("postal_code", "counterparty_legal_postal_code")] df in
    s3_write df
      ("s3://" +:+ processed_bucket +:+ "/dim_counterparty/" +:+ last_checked +:+ ".parquet").

Definition dim_design (last_checked ingestion_bucket processed_bucket : string) : M unit :=
  let key := "design/" +:+ last_checked +:+ ".csv" in
  found ← check_file_exists ingestion_bucket key;
  if negb found then logger_info "No design file found"
  else
    df ← s3_read ("s3://" +:+ ingestion_bucket +:+ "/" +:+ key);
    let df := df_drop ["Unnamed: 0"; "created_at"; "last_updated"] df in
    s3_write df ("s3://" +:+ processed_bucket +:+ "/dim_design/" +:+ last_checked +:+ ".parquet").

(** The frame [dim_date] builds from the time stamps of the range. *)
Definition dim_date_frame (range : list datetime) : M DataFrame :=
  let df := mk_df ["date_id"] ((λ t, [VTimestamp t]) <$> range) in
  date_id ← df_col "date_id" df;
  let df := df_set_col "year" (dt_attr (λ d, VInt (d_year d)) <$> date_id) df in
  date_id ← df_col "date_id" df;
  let df := df_set_col "month" (dt_attr (λ d, VInt (d_month d)) <$> date_id) df in
  date_id ← df_col "date_id" df;
  let df := df_set_col "day" (dt_attr (λ d, VInt (d_day d)) <$> date_id) df in
  date_id ← df_col "date_id" df;
  let df := df_set_col "day_of_week" (dt_attr (λ d, VInt (dayofweek d)) <$> date_id) df in
  date_id ← df_col "date_id" df;
  let df := df_set_col "day_name" (dt_attr (λ d, VStr (day_name d)) <$> date_id) df in
  date_id ← df_col "date_id" df;
  let df := df_set_col "month_name" (dt_attr (λ d, VStr (month_name d)) <$> date_id) df in
  date_id ← df_col "date_id" df;
  let df := df_set_col "quarter" (dt_attr (λ d, VInt (quarter d)) <$> date_id) df in
  mret df.

Definition dim_date (processed_bucket start end_ : string) : M unit :=
  range ← date_range start end_;
  df ← dim_date_frame range;
  s3_write df ("s3://" +:+ processed_bucket +:+ "/dim_date/dim_date.parquet").

Definition fact_sales_order (last_checked ingestion_bucket processed_bucket : string)
    : M unit :=
  let key := "sales_order/" +:+ last_checked +:+ ".csv" in
  found ← check_file_exists ingestion_bucket key;
  if negb found then logger_info "No sales_order file found"
  else
    df ← s3_read ("s3://" +:+ ingestion_bucket +:+ "/" +:+ key);
    let df := df_drop ["Unnamed: 0"] df in
    c ← df_col "sales_order_id" df;
    let df := df_set_col "sales_record_id" c df in
    c ← df_col "created_at" df;
    c ← lift (to_datetime c);
    let df := df_set_col "created_at" c df in
    c ← df_col "created_at" df;
    let df := df_set_col "created_date" (dt_date_of <$> c) df in
    c ← df_col "created_at" df;
    let df := df_set_col "created_time" (dt_time_of <$> c) df in
    c ← df_col "last_updated" df;
    c ← lift (to_datetime c);
    let df := df_set_col "last_updated" c df in
    c ← df_col "last_updated" df;
    let df := df_set_col "last_updated_date" (dt_date_of <$> c) df in
    c ← df_col "last_updated" df;
    let df := df_set_col "last_updated_time" (dt_time_of <$> c) df in
    c ← df_col "staff_id" df;
    let df := df_set_col "sales_staff_id" c df in
    c ← df_col "agreed_delivery_date" df;
    c ← lift (to_datetime c);
    let df := df_set_col "agreed_delivery_date" (dt_date_of <$> c) df in
    c ← df_col "agreed_payment_date" df;
    c ← lift (to_datetime c);
    let df := df_set_col "agreed_payment_date" (dt_date_of <$> c) df in
    let final_columns :=
      ["sales_record_id"; "sales_order_id";
       "created_date"; "created_time";
       "last_updated_date"; "last_updated_time";
       "sales_staff_id"; "counterparty_id";
       "units_sold"; "unit_price";
       "currency_id"; "design_id";
       "agreed_payment_date"; "agreed_delivery_date";
       "agreed_delivery_location_id"] in
    df ← df_project final_columns df;
    s3_write df
      ("s3://" +:+ processed_bucket +:+ "/fact_sales_order/" +:+ last_checked +:+ ".parquet").

Definition lambda_handler (event : gmap string pyval) (context : unit)
    : M (gmap string pyval) :=
  let last_checked := event !! "timestamp_to_transform" in
  if negb (truthy last_checked)
  then raise (mk_exn ValueError "" "Missing timestamp_to_transform in event")
  else
    let last_checked_val := default PNone last_checked in
    let last_checked := py_str last_checked_val in
    ingestion_bucket ← environ_get "S3_INGESTION_BUCKET";
    processed_bucket ← environ_get "S3_PROCESSED_BUCKET";
    if negb (str_truthy ingestion_bucket) || negb (str_truthy processed_bucket)
    then raise (mk_exn ValueError "" "Missing required S3 bucket environment variables")
    else
      let ingestion_bucket := default "" ingestion_bucket in
      let processed_bucket := default "" processed_bucket in
      fact_sales_order last_checked ingestion_bucket processed_bucket;;
      dim_currency last_checked ingestion_bucket processed_bucket;;
      dim_location last_checked ingestion_bucket processed_bucket;;
      dim_design last_checked ingestion_bucket processed_bucket;;
      dim_staff last_checked ingestion_bucket processed_bucket;;
      dim_counterparty last_checked ingestion_bucket processed_bucket;;
      dim_date processed_bucket "2020-01-01" "2030-12-31";;
      mret ({[ "message" := PStr "transform_success";
               "timestamp" := last_checked_val ]} : gmap string pyval).

End transform.
End Transform.

(** * load.py *)

Module Load.
Section load.
Context `{Pg8000, PandasWhere}.

Definition TABLE_CONFIG : list (string * string) :=
  [ ("dim_currency", "dim_currency");
    ("dim_location", "dim_location");
    ("dim_design", "dim_design");
    ("dim_staff", "dim_staff");
    ("dim_counterparty", "dim_counterparty");
    ("fact_sales_order", "fact_sales_order") ].

Definition DIM_DATE_KEY : string := "dim_date/dim_date.parquet".

Definition get_db_credentials : M (gmap string pyval) :=
  secret_name ← environ_get "DB_SECRET_NAME";
  if negb (str_truthy secret_name)
  then raise (mk_exn ValueError "" "Missing environment variable DB_SECRET_NAME")
  else
    let secret_name := default "" secret_name in
    try_except
      (sm_get_secret_json secret_name)
      [ (ResourceNotFoundException, λ e,
          logger_error ("Secret not found: " +:+ secret_name);;
          raise e);
        (ClientError, λ e,
          logger_error ("Secrets Manager ClientError: " +:+ str_exn e);;
          raise e) ].

(** [int(v)] on a JSON value. *)
Definition py_int (v : pyval) : M Z :=
  match v with
  | PInt z => mret z
  | PBool b => mret (if b then 1 else 0)%Z
  | PStr s =>
      match digits_to_Z 0 s with
      | Some z => if bool_decide (s = "") then
                    raise (mk_exn ValueError "" "invalid literal for int()")
                  else mret z
      | None => raise (mk_exn ValueError "" "invalid literal for int()")
      end
  | _ => raise (mk_exn TypeError "" "int() argument must be a string or a number")
  end.

Definition create_db_connection (db_credentials : gmap string pyval) : M unit :=
  try_except
    (host ← getitem db_credentials "host";
     port ← getitem db_credentials "port";
     port ← py_int port;
     database ← getitem db_credentials "database";
     user ← getitem db_credentials "user";
     password ← getitem db_credentials "password";
     pg_connect)
    [ (KeyError, λ e,
        raise (mk_exn KeyError "" ("Missing key in DB secret JSON: " +:+ str_exn e)));
      (InterfaceError, λ e,
        logger_error ("Cannot connect to DB (InterfaceError): " +:+ str_exn e);;
        raise e);
      (Exception, λ e,
        logger_error ("Unexpected DB connection error: " +:+ str_exn e);;
        raise e) ].

Definition s3_object_exists (bucket key : string) : M bool :=
  try_except
    (s3_head_object bucket key;;
     mret true)
    [ (ClientError, λ e,
        if bool_decide (exn_code e ∈ ["404"; "NoSuchKey"; "NotFound"])
        then mret false else raise e) ].

Definition truncate_table (table_name : string) : M unit :=
  try_except
    (conn_run (SqlTruncate table_name);;
     logger_info ("Truncated table: " +:+ table_name))
    [ (DatabaseError, λ e,
        logger_error ("DatabaseError truncating " +:+ table_name +:+ ": " +:+ str_exn e);;
        raise e) ].

Definition insert_dataframe (table_name : string) (df : option DataFrame) : M unit :=
  match df with
  | None => logger_info ("No rows to insert for table=" +:+ table_name)
  | Some df =>
      if df_empty df then logger_info ("No rows to insert for table=" +:+ table_name)
      else
        let df := where_notnull df in
        let cols := columns df in
        try_except
          (row_count ←
             for_in (rows df) (λ row row_count,
               conn_run (SqlInsert table_name cols row);;
               mret (row_count + 1)%nat) 0%nat;
           logger_info ("Inserted " +:+ pretty row_count +:+ " rows into " +:+ table_name))
          [ (DatabaseError, λ e,
              logger_error ("DatabaseError inserting into " +:+ table_name +:+ ": "
                              +:+ str_exn e);;
              raise e);
            (Exception, λ e,
              logger_error ("Unexpected error inserting into " +:+ table_name +:+ ": "
                              +:+ str_exn e);;
              raise e) ]
  end.

(** One turn of the loop over [TABLE_CONFIG]. *)
Definition load_table (processed_bucket last_checked : string)
    (entry : string * string) (loaded : list string) : M (list string) :=
  let '(prefix, target_table) := entry in
  let parquet_key := prefix +:+ "/" +:+ last_checked +:+ ".parquet" in
  let s3_path := "s3://" +:+ processed_bucket +:+ "/" +:+ parquet_key in
  found ← s3_object_exists processed_bucket parquet_key;
  if negb found
  then
    logger_info ("Skipping " +:+ target_table +:+ " (no file found): " +:+ s3_path);;
    mret loaded
  else
    df ← s3_read s3_path;
    logger_info ("Read " +:+ pretty (df_len df) +:+ " rows from " +:+ s3_path);;
    truncate_table target_table;;
    insert_dataframe target_table (Some df);;
    mret (loaded ++ [target_table])%list.

(** The load of the date dimension, after the loop. *)
Definition load_dim_date (processed_bucket : string) (loaded : list string)
    : M (list string) :=
  let dim_date_s3_path := "s3://" +:+ processed_bucket +:+ "/" +:+ DIM_DATE_KEY in
  found ← s3_object_exists processed_bucket DIM_DATE_KEY;
  if found : bool
  then
    df_date ← s3_read dim_date_s3_path;
    logger_info ("Read " +:+ pretty (df_len df_date) +:+ " rows from " +:+ dim_date_s3_path);;
    truncate_table "dim_date";;
    insert_dataframe "dim_date" (Some df_date);;
    mret (loaded ++ ["dim_date"])%list
  else
    logger_info ("Skipping dim_date (no file found): " +:+ dim_date_s3_path);;
    mret loaded.

(** The [finally] clause of the handler. *)
Definition close_connection : M unit :=
  try_except
    (conn_close;;
     logger_info "Warehouse connection closed")
    [ (Exception, λ _, logger_warning "Failed to close warehouse connection cleanly") ].

Definition lambda_handler (event : gmap string pyval) (context : unit)
    : M (gmap string pyval) :=
  processed_bucket ← environ_get "S3_PROCESSED_BUCKET";
  if negb (str_truthy processed_bucket)
  then raise (mk_exn ValueError "" "Missing environment variable S3_PROCESSED_BUCKET")
  else
    let processed_bucket := default "" processed_bucket in
    let last_checked := py_or (event !! "timestamp") (event !! "timestamp_to_transform") in
    if negb (truthy last_checked)
    then raise (mk_exn ValueError ""
                  "Missing timestamp in event (expected 'timestamp' or 'timestamp_to_transform')")
    else
      let last_checked_val := default PNone last_checked in
      let last_checked := py_str last_checked_val in
      db_credentials ← get_db_credentials;
      create_db_connection db_credentials;;
      try_finally
        (loaded ← for_in TABLE_CONFIG (load_table processed_bucket last_checked) [];
         loaded ← load_dim_date processed_bucket loaded;
         mret ({[ "message" := PStr "load_success";
                  "timestamp_loaded" := last_checked_val;
                  "tables_loaded" := PStrList loaded ]} : gmap string pyval))
        close_connection.

End load.
End Load.

(** ** Reading a trace *)

(** The tables queried with a SELECT, in order. *)
Definition queried_tables (t : list call) : list string :=
  omap (λ c, match c with DbRun (SqlSelect table _) _ => Some table | _ => None end) t.

(** The paths written to the object store, in order. *)
Definition s3_puts (t : list call) : list string :=
  omap (λ c, match c with S3Put path => Some path | _ => None end) t.

(** The objects whose existence was checked, in order. *)
Definition s3_heads (t : list call) : list string :=
  omap (λ c, match c with S3Head b k => Some (s3_url b k) | _ => None end) t.

(** The values put in the parameter store, in order. *)
Definition ssm_puts (t : list call) : list (string * string) :=
  omap (λ c, match c with SsmPut n v => Some (n, v) | _ => None end) t.

(** The statements sent to the database about one table, in order. *)
Definition statements_on (table : string) (t : list call) : list sql :=
  omap (λ c, match c with
             | DbRun s _ =>
                 match s with
                 | SqlSelect t' _ | SqlTruncate t' | SqlInsert t' _ _ =>
                     if bool_decide (t' = table) then Some s else None
                 end
             | _ => None
             end) t.

(** ** Runs that leave the stores alone *)

(** [steady w w']: the configuration, the watermark, the source database,
    the clock and its reading, and the fault oracle are the same in [w']
    as in [w]. *)
Record steady (w w' : world) : Prop := mk_steady {
  steady_environ : environ w' = environ w;
  steady_ssm : ssm_params w' = ssm_params w;
  steady_secrets : sm_secrets w' = sm_secrets w;
  steady_select : db_select w' = db_select w;
  steady_clock : clock w' = clock w;
  steady_ticks : ticks w' = ticks w;
  steady_fault : fault w' = fault w;
}.

(** [silent w w']: from [w] to [w'] nothing was put in the parameter store
    or in the object store, the clock was not read, and the configuration,
    the source database and the fault oracle are the same; the trace has
    grown. *)
Record silent (w w' : world) : Prop := mk_silent {
  silent_environ : environ w' = environ w;
  silent_ssm : ssm_params w' = ssm_params w;
  silent_secrets : sm_secrets w' = sm_secrets w;
  silent_s3 : s3 w' = s3 w;
  silent_select : db_select w' = db_select w;
  silent_clock : clock w' = clock w;
  silent_ticks : ticks w' = ticks w;
  silent_fault : fault w' = fault w;
  silent_trace :
    ∃ new, trace w' = (trace w ++ new)%list ∧ ssm_puts new = [] ∧ s3_puts new = [];
}.

(** [beside table w w']: from [w] to [w'] no statement was sent to the
    database about [table], and the warehouse holds the same rows for it. *)
Record beside (table : string) (w w' : world) : Prop := mk_beside {
  beside_rows : db_tables w' !! table = db_tables w !! table;
  beside_trace : ∃ new, trace w' = (trace w ++ new)%list ∧ statements_on table new = [];
}.

(** A frame: a relation between the worlds before and after a run that
    holds across logging, across opening and closing the connection, and
    across the calls that satisfy [ok]. *)
Class Frame (R : world → world → Prop) (ok : call → Prop) : Prop := {
  frame_refl w : R w w;
  frame_trans w1 w2 w3 : R w1 w2 → R w2 w3 → R w1 w3;
  frame_log r w : R w (add_log r w);
  frame_closed b w : R w (set_db_closed b w);
  frame_call c w : ok c → R w (add_trace c w);
}.
Global Hint Mode Frame + - : typeclass_instances.

(** A computation all of whose runs are in the relation. *)
Definition keeps (R : world → world → Prop) {A} (m : M A) : Prop := ∀ w, R w (m w).2.

(** The calls that put nothing in a store. *)
Definition no_put (c : call) : Prop := ssm_puts [c] = [] ∧ s3_puts [c] = [].

(** The calls that are not a statement about a table. *)
Definition off_table (table : string) (c : call) : Prop := statements_on table [c] = [].

(** A computation all of whose runs are silent. *)
Abbreviation silent_m := (keeps silent).

(** ** Vocabulary of the extraction cycle *)

(** The rows the source database returns for a table, given the watermark. *)
Definition new_rows_of `{Pg8000, PyDatetime} (w : world) (last_checked table : string)
    : list (list value) :=
  match fromisoformat last_checked with
  | Some dt => (db_select w (render (Extract.query_for table dt))).2
  | None => []
  end.

(** The tables of a list that have new rows. *)
Definition changed_tables `{Pg8000, PyDatetime} (w : world) (last_checked : string)
    (tables : list string) : list string :=
  filter (λ t, new_rows_of w last_checked t ≠ []) tables.

(** The path of the raw artifact of a table in a batch. *)
Definition artifact_path (ingestion_bucket table batch_id : string) : string :=
  "s3://" +:+ ingestion_bucket +:+ "/" +:+ table +:+ "/" +:+ batch_id +:+ ".csv".

(** [guarded w r w']: in a run from [w] to [w'] with outcome [r], the
    trace splits in a part without a put of the watermark and a later part
    without a write to the object store; a write that the object store
    refused is the exception the run raised; and a run that raised left the
    parameter store as it was. *)
Definition guarded {A} (w : world) (r : outcome A) (w' : world) : Prop :=
  ∃ before after,
    trace w' = (trace w ++ before ++ after)%list
    ∧ ssm_puts before = []
    ∧ s3_puts after = []
    ∧ (∀ p e, p ∈ s3_puts before → fault w (S3Put p) = Some e → r = Raise e)
    ∧ (∀ e, r = Raise e → ssm_params w' = ssm_params w).

Definition guarded_m {A} (m : M A) : Prop := ∀ w, guarded w (m w).1 (m w).2.

(** [after m w Q]: the outcome and the final world of [m] run from [w]
    satisfy [Q]. *)
Definition after {A} (m : M A) (w : world) (Q : outcome A → world → Prop) : Prop :=
  Q (m w).1 (m w).2.

(** ** Vocabulary of the date dimension *)

(** The columns of the date dimension. *)
Definition calendar_columns : list string :=
  ["date_id"; "year"; "month"; "day"; "day_of_week"; "day_name"; "month_name"; "quarter"].

(** The row of the date dimension for the day [i] days after 1970-01-01. *)
Definition calendar_row (i : Z) : list value :=
  let d := civil_from_days i in
  [VTimestamp (midnight d); VInt (d_year d); VInt (d_month d); VInt (d_day d);
   VInt (dayofweek d); VStr (day_name d); VStr (month_name d); VInt (quarter d)].

(** The date dimension between two dates, both included: one row per day. *)
Definition calendar (first last : date) : DataFrame :=
  mk_df calendar_columns
    (calendar_row <$> seqZ (days_from_civil first)
                           (days_from_civil last - days_from_civil first + 1)).



(** The bounds the transformer is configured with. *)
Definition calendar_start : date := mk_date 2020 1 1.
Definition calendar_end : date := mk_date 2030 12 31.


(** ** Vocabulary of the loader *)

(** The batch key the loader takes from its event. *)
Definition load_key (event : gmap string pyval) : string :=
  py_str (default PNone (py_or (event !! "timestamp") (event !! "timestamp_to_transform"))).

(** The key and the path of the columnar artifact of a dimension in a batch. *)
Definition parquet_key (prefix ts : string) : string := prefix +:+ "/" +:+ ts +:+ ".parquet".

Definition parquet_path (bucket prefix ts : string) : string :=
  s3_url bucket (parquet_key prefix ts).

(** The statements that insert the rows of a frame, as
    [df.where(pd.notnull(df), None)] gives them, and the rows the warehouse
    holds after them. *)
Definition insert_statements `{PandasWhere} (table : string) (df : DataFrame) : list sql :=
  (λ row, SqlInsert table (columns (where_notnull df)) row) <$> rows (where_notnull df).

Definition inserted_rows `{PandasWhere} (df : DataFrame) : list (list string * list value) :=
  (λ row, (columns (where_notnull df), row)) <$> rows (where_notnull df).

(** [replaced table df w w']: from [w] to [w'] the statements sent about
    [table] are one truncation followed by the insertion of the rows of
    [df] (none when the frame is empty), and the warehouse holds exactly
    those rows for it. *)
Definition replaced `{PandasWhere} (table : string) (df : DataFrame) (w w' : world)
    : Prop :=
  ∃ new,
    trace w' = (trace w ++ new)%list
    ∧ statements_on table new
      = SqlTruncate table :: (if df_empty df then [] else insert_statements table df)
    ∧ db_tables w' !! table = Some (if df_empty df then [] else inserted_rows df).

(** ** Footprints *)

(** [traced P w w']: the service calls made from [w] to [w'] all satisfy
    [P], and the environment and the fault oracle are the same. *)
Record traced (P : call → Prop) (w w' : world) : Prop := mk_traced {
  traced_environ : environ w' = environ w;
  traced_fault : fault w' = fault w;
  traced_calls : ∃ new, trace w' = (trace w ++ new)%list ∧ Forall P new;
}.

(** A computation whose runs from a world with the environment [env] make
    only calls that satisfy [P]. *)
Definition runs (env : gmap string string) (P : call → Prop) {A} (m : M A) : Prop :=
  ∀ w, environ w = env → traced P w (m w).2.

(** The calls of the extractor. *)
Definition extract_call (env : gmap string string) (c : call) : Prop :=
  match c with
  | SsmGet name | SsmPut name _ => name = "last_checked"
  | SmGet secret_id => env !! "DB_SECRET_NAME" = Some secret_id
  | DbConnect | DbClose => True
  | DbRun (SqlSelect table _) _ => table ∈ Extract.tables_to_import
  | S3Put path =>
      ∃ bucket table batch_id,
        env !! "S3_INGESTION_BUCKET" = Some bucket
        ∧ table ∈ Extract.tables_to_import
        ∧ has_char ":" batch_id = false
        ∧ path = artifact_path bucket table batch_id
  | _ => False
  end.

(** The raw tables whose artifacts the transformer looks for. *)
Definition raw_tables : list string :=
  ["sales_order"; "currency"; "address"; "design"; "staff"; "department"; "counterparty"].

(** The calls of the transformer for the batch key [ts]. *)
Definition transform_call (ts : string) (env : gmap string string) (c : call) : Prop :=
  match c with
  | S3Head bucket key =>
      env !! "S3_INGESTION_BUCKET" = Some bucket
      ∧ ∃ table, table ∈ raw_tables ∧ key = table +:+ "/" +:+ ts +:+ ".csv"
  | S3List bucket prefix =>
      env !! "S3_INGESTION_BUCKET" = Some bucket ∧ prefix = "address/"
  | S3Get path =>
      ∃ bucket key, env !! "S3_INGESTION_BUCKET" = Some bucket ∧ path = s3_url bucket key
  | S3Put path =>
      ∃ bucket,
        env !! "S3_PROCESSED_BUCKET" = Some bucket
        ∧ (path = s3_url bucket Load.DIM_DATE_KEY
           ∨ ∃ prefix target,
               (prefix, target) ∈ Load.TABLE_CONFIG ∧ path = parquet_path bucket prefix ts)
  | _ => False
  end.

(** The calls of the loader for the batch key [ts]. *)
Definition load_call (ts : string) (env : gmap string string) (c : call) : Prop :=
  match c with
  | SmGet secret_id => env !! "DB_SECRET_NAME" = Some secret_id
  | DbConnect | DbClose => True
  | S3Head bucket key =>
      env !! "S3_PROCESSED_BUCKET" = Some bucket
      ∧ (key = Load.DIM_DATE_KEY
         ∨ ∃ prefix target, (prefix, target) ∈ Load.TABLE_CONFIG ∧ key = parquet_key prefix ts)
  | S3Get path =>
      ∃ bucket,
        env !! "S3_PROCESSED_BUCKET" = Some bucket
        ∧ (path = s3_url bucket Load.DIM_DATE_KEY
           ∨ ∃ prefix target,
               (prefix, target) ∈ Load.TABLE_CONFIG ∧ path = parquet_path bucket prefix ts)
  | DbRun (SqlTruncate table) _ | DbRun (SqlInsert table _ _) _ =>
      table = "dim_date" ∨ ∃ prefix, (prefix, table) ∈ Load.TABLE_CONFIG
  | _ => False
  end.

(** Calls that need no database connection, and calls other than the
    opening and the closing of one. *)
Definition off_connection (c : call) : Prop :=
  match c with
  | DbConnect | DbClose | DbRun _ _ => False
  | _ => True
  end.

Definition on_connection (c : call) : Prop :=
  match c with
  | DbConnect | DbClose => False
  | _ => True
  end.

(** A call that is not a query. *)
Definition no_query (c : call) : Prop := queried_tables [c] = [].

(** [in_order tables m]: the tables a run of [m] queries are the first
    tables of the list, in that order; all of them when the run returns. *)
Definition in_order (tables : list string) {A} (m : M A) : Prop :=
  ∀ w, ∃ new,
    trace (m w).2 = (trace w ++ new)%list
    ∧ queried_tables new `prefix_of` tables
    ∧ ∀ a, (m w).1 = Return a → queried_tables new = tables.

(** * Test doubles

    Concrete libraries and worlds on which the handlers are run, in the
    manner of the fakes of the repository's tests. *)

Module Fake.

(** Time stamps of the shape [YYYY-MM-DDTHH:MM:SS+00:00]. *)
Definition parse_iso (s : string) : option datetime :=
  '(y, s) ← field 4 "-" s;
  '(m, s) ← field 2 "-" s;
  '(d, s) ← field 2 "T" s;
  '(hh, s) ← field 2 ":" s;
  '(mm, s) ← field 2 ":" s;
  '(ss, s) ← field 2 "+00:00" s;
  if bool_decide (s = "")
  then Some (mk_datetime (mk_date y m d) (((hh * 60 + mm) * 60 + ss) * 1000000) (Some 0))
  else None.

Definition show_date (d : date) : string :=
  pretty (d_year d) +:+ "-" +:+ pretty (d_month d) +:+ "-" +:+ pretty (d_day d).

(** Identifiers are left as they are; literals are quoted. *)
Definition show_value (v : value) : string :=
  match v with
  | VNone => "NULL"
  | VNaN => "'NaN'"
  | VNaT => "'NaT'"
  | VBool b => if b then "TRUE" else "FALSE"
  | VInt z => pretty z
  | VFloat q => pretty (Qnum q) +:+ "/" +:+ pretty (Z.pos (Qden q))
  | VStr s => "'" +:+ s +:+ "'"
  | VDate d => "'" +:+ show_date d +:+ "'::date"
  | VTime t => "'" +:+ pretty t +:+ "'::time"
  | VTimestamp t =>
      "'" +:+ show_date (dt_date t) +:+ " " +:+ pretty (dt_micros t) +:+ "'::timestamp"
  end.

Definition pg8000 : Pg8000 := {| identifier := id; literal := show_value |}.
Definition py_datetime : PyDatetime := {| fromisoformat := parse_iso |}.

(** The empty world: nothing stored, no faults, a clock that always reads
    the same instant. *)
Definition world0 : world :=
  {| environ := ∅; ssm_params := ∅; sm_secrets := ∅; s3 := ∅; s3_clock := 0;
     db_select := λ _, ([], []); db_tables := ∅; db_closed := true;
     clock := λ _, "2025-06-01T12:00:00+00:00"; ticks := 0;
     fault := λ _, None; log := []; trace := [] |}.

(** World builders. *)
Definition with_environ (e : gmap string string) (w : world) : world :=
  mk_world e (ssm_params w) (sm_secrets w) (s3 w) (s3_clock w)
    (db_select w) (db_tables w) (db_closed w) (clock w) (ticks w) (fault w)
    (log w) (trace w).

Definition with_secrets (m : gmap string (option (gmap string pyval))) (w : world) : world :=
  mk_world (environ w) (ssm_params w) m (s3 w) (s3_clock w)
    (db_select w) (db_tables w) (db_closed w) (clock w) (ticks w) (fault w)
    (log w) (trace w).

Definition with_db_select (f : string → list string * list (list value)) (w : world) : world :=
  mk_world (environ w) (ssm_params w) (sm_secrets w) (s3 w) (s3_clock w)
    f (db_tables w) (db_closed w) (clock w) (ticks w) (fault w)
    (log w) (trace w).

Definition with_clock (f : nat → string) (w : world) : world :=
  mk_world (environ w) (ssm_params w) (sm_secrets w) (s3 w) (s3_clock w)
    (db_select w) (db_tables w) (db_closed w) f (ticks w) (fault w)
    (log w) (trace w).

Definition with_fault (f : call → option exn) (w : world) : world :=
  mk_world (environ w) (ssm_params w) (sm_secrets w) (s3 w) (s3_clock w)
    (db_select w) (db_tables w) (db_closed w) (clock w) (ticks w) f
    (log w) (trace w).

(** A watermark left by an earlier run. *)
Definition watermark : string := "2025-01-01T00:00:00+00:00".

Definition world_marked : world := set_ssm_params <["last_checked":=watermark]> world0.

(** The parameter store answers with an access error. *)
Definition access_denied : exn := mk_exn ClientError "AccessDeniedException" "not authorized".

Definition world_denied : world :=
  with_fault (λ c, match c with SsmGet _ => Some access_denied | _ => None end) world_marked.

(** The configuration of a deployed pipeline: environment and secret. *)
Definition env : gmap string string :=
  {[ "DB_SECRET_NAME" := "totesys";
     "S3_INGESTION_BUCKET" := "ingest";
     "S3_PROCESSED_BUCKET" := "processed" ]}.

Definition creds : gmap string pyval :=
  {[ "user" := PStr "u"; "password" := PStr "p"; "database" := PStr "d";
     "host" := PStr "h"; "port" := PInt 5432 ]}.

Definition world_ready : world :=
  with_environ env (with_secrets {[ "totesys" := Some creds ]} world_marked).

(** The run starts at noon and ends five seconds later. *)
Definition two_readings (n : nat) : string :=
  match n with
  | O => "2025-06-01T12:00:00+00:00"
  | _ => "2025-06-01T12:00:05+00:00"
  end.

(** One address row changed since the watermark; nothing else did. *)
Definition select_address (q : string) : list string * list (list value) :=
  if occurs "FROM address " q
  then (["address_id"; "city"], [[VInt 1; VStr "Leeds"]])
  else ([], []).

Definition world_one_address : world :=
  with_clock two_readings (with_db_select select_address world_ready).

(** The query on currency fails in the database. *)
Definition db_down : exn := mk_exn DatabaseError "" "relation is locked".

Definition world_currency_down : world :=
  with_fault (λ c, match c with
                   | DbRun (SqlSelect t _) _ =>
                       if bool_decide (t = "currency") then Some db_down else None
                   | _ => None
                   end) world_one_address.

(** What the extractor returns on [world_one_address], and the event of the
    transformer that follows it. *)
Definition handoff : gmap string pyval :=
  {[ "message" := PStr "success";
     "timestamp_to_transform" := PStr "2025-01-01T00:00:00+00:00";
     "batch_id" := PStr "2025-06-01T12-00-00+00-00";
     "uploaded_tables" := PStrList ["address"] ]}.

Definition with_s3 (m : gmap string s3_object) (w : world) : world :=
  mk_world (environ w) (ssm_params w) (sm_secrets w) m (s3_clock w)
    (db_select w) (db_tables w) (db_closed w) (clock w) (ticks w) (fault w)
    (log w) (trace w).

Definition with_db_tables (m : gmap string (list (list string * list value))) (w : world)
    : world :=
  mk_world (environ w) (ssm_params w) (sm_secrets w) (s3 w) (s3_clock w)
    (db_select w) m (db_closed w) (clock w) (ticks w) (fault w)
    (log w) (trace w).

(** The event of a transformer that follows a run with the watermark. *)
Definition transform_event : gmap string pyval :=
  {[ "timestamp_to_transform" := PStr watermark ]}.

(** The ingestion bucket holds the counterparty artifact of the batch and
    nothing under the address prefix. *)
Definition counterparty_rows : DataFrame :=
  mk_df ["counterparty_id"; "counterparty_legal_name"; "legal_address_id"]
        [[VInt 1; VStr "Fahey and Sons"; VInt 15]].

Definition world_counterparty_only : world :=
  with_s3 {[ s3_url "ingest" ("counterparty/" +:+ watermark +:+ ".csv")
               := mk_obj counterparty_rows 0 ]} world_ready.

(** The processed bucket of a batch: a currency dimension of two rows, a
    design dimension without rows, and no other artifact; the warehouse has
    all its tables, with rows of an earlier load in two of them. *)
Definition currency_frame : DataFrame :=
  mk_df ["currency_id"; "currency_code"; "currency_name"]
        [[VInt 1; VStr "GBP"; VStr "GBP_Name"]; [VInt 2; VStr "USD"; VStr "USD_Name"]].

Definition design_frame : DataFrame :=
  mk_df ["design_id"; "design_name"; "file_location"; "file_name"] [].

Definition load_event : gmap string pyval := {[ "timestamp" := PStr watermark ]}.

Definition warehouse : gmap string (list (list string * list value)) :=
  {[ "dim_currency" := [(["currency_id"], [VInt 9]); (["currency_id"], [VInt 8])];
     "dim_location" := [(["location_id"], [VInt 3])];
     "dim_design" := [(["design_id"], [VInt 7])];
     "dim_staff" := [];
     "dim_counterparty" := [];
     "fact_sales_order" := [];
     "dim_date" := [] ]}.

Definition world_load : world :=
  with_db_tables warehouse
    (with_s3 {[ parquet_path "processed" "dim_currency" watermark := mk_obj currency_frame 0;
                parquet_path "processed" "dim_design" watermark := mk_obj design_frame 1 ]}
       world_ready).

Definition load_result : gmap string pyval :=
  {[ "message" := PStr "load_success";
     "timestamp_loaded" := PStr watermark;
     "tables_loaded" := PStrList ["dim_currency"; "dim_design"] ]}.


(** A deployment without the name of the ingestion bucket. *)
Definition world_no_bucket : world :=
  with_environ {[ "DB_SECRET_NAME" := "totesys" ]} world_ready.

(** The frames of these worlds have no null cell: [where] has nothing to
    replace. *)
Definition pandas_where : PandasWhere.
Proof.
  refine {| where_notnull := λ df, df |}.
  - reflexivity.
  - intros df. apply Forall_Forall2_diag, Forall_forall. intros r _.
    apply Forall_Forall2_diag, Forall_forall. intros v _ _. reflexivity.
Defined.

(** A pandas that keeps the left frame in a merge, takes the cells of a
    column for time stamps already, and prints cells as literals. *)
Definition pandas : Pandas :=
  {| merge_left := λ l _ _, Return l;
     to_datetime := λ c, Return c;
     str_of_cell := show_value |}.

End Fake.

(** * Properties *)

(** ** Exceptions and the monad *)

Lemma isinstance_Exception (e : exn) : isinstance e Exception = true.
Proof. destruct e as [[] ? ?]; reflexivity. Qed.

Lemma bind_unfold {A B} (m : M A) (f : A → M B) (w : world) :
  (m ≫= f) w =
  match m w with
  | (Return a, w') => f a w'
  | (Raise e, w') => (Raise e, w')
  end.
Proof. reflexivity. Qed.

Lemma bind_Return {A B} (m : M A) (f : A → M B) (w w' : world) (a : A) :
  m w = (Return a, w') → (m ≫= f) w = f a w'.
Proof. intros E. rewrite bind_unfold, E. reflexivity. Qed.

Lemma bind_Raise {A B} (m : M A) (f : A → M B) (w w' : world) (e : exn) :
  m w = (Raise e, w') → (m ≫= f) w = (Raise e, w').
Proof. intros E. rewrite bind_unfold, E. reflexivity. Qed.

(** A bind returns only if both of its parts do. *)
Lemma bind_inv_Return {A B} (m : M A) (f : A → M B) (w w'' : world) (b : B) :
  (m ≫= f) w = (Return b, w'') →
  ∃ a w', m w = (Return a, w') ∧ f a w' = (Return b, w'').
Proof.
  rewrite bind_unfold. destruct (m w) as [[a|e] w'].
  - intros E. exists a, w'. split; [reflexivity | exact E].
  - intros E. discriminate E.
Qed.

(** ** The watermark read *)

Section get_last_checked.
Import Extract.

(** C6: [get_last_checked] returns the persisted watermark when the
    parameter exists, the epoch sentinel (without raising) when it does
    not, and raises any other client error of the retrieval. *)
Theorem get_last_checked_cases (w : world) :
  (∀ v, fault w (SsmGet "last_checked") = None →
        ssm_params w !! "last_checked" = Some v →
        (get_last_checked w).1 = Return {[ "last_checked" := v ]})
  ∧ (fault w (SsmGet "last_checked") = None →
     ssm_params w !! "last_checked" = None →
     (get_last_checked w).1 = Return {[ "last_checked" := "1970-01-01T00:00:00+00:00" ]})
  ∧ (∀ e, fault w (SsmGet "last_checked") = Some e →
          isinstance e ClientError = true →
          isinstance e ParameterNotFound = false →
          (get_last_checked w).1 = Raise e).
Proof.
  unfold get_last_checked, try_except, ssm_get_parameter, service.
  rewrite bind_unfold. cbn [fault add_trace ssm_params].
  split; [|split].
  - intros v Hf Hv. rewrite Hf, Hv. reflexivity.
  - intros Hf Hv. rewrite Hf, Hv. reflexivity.
  - intros e Hf Hc Hp. rewrite Hf. cbn [dispatch].
    rewrite Hp, Hc. reflexivity.
Qed.

End get_last_checked.

(** Witness of C6: a stored watermark, no watermark, and a denied read. *)
Lemma get_last_checked_cases_witness :
  (Extract.get_last_checked Fake.world_marked).1
    = Return {[ "last_checked" := Fake.watermark ]}
  ∧ (Extract.get_last_checked Fake.world0).1
    = Return {[ "last_checked" := "1970-01-01T00:00:00+00:00" ]}
  ∧ (Extract.get_last_checked Fake.world_denied).1 = Raise Fake.access_denied.
Proof.
  split; [|split].
  - apply (proj1 (get_last_checked_cases Fake.world_marked)); reflexivity.
  - apply (proj1 (proj2 (get_last_checked_cases Fake.world0))); reflexivity.
  - apply (proj2 (proj2 (get_last_checked_cases Fake.world_denied))); reflexivity.
Defined.

(** ** Text of the extraction query *)

Lemma append_nil_l (s : string) : "" +:+ s = s.
Proof. reflexivity. Qed.

Lemma append_cons (c : ascii) (a s : string) : String c a +:+ s = String c (a +:+ s).
Proof. reflexivity. Qed.

Lemma strip_prefix_app (p s : string) : strip_prefix p (p +:+ s) = Some s.
Proof.
  induction p as [|a p IH]; simpl; [reflexivity|].
  rewrite bool_decide_eq_true_2 by reflexivity. exact IH.
Qed.

Lemma startswith_app (p s : string) : startswith (p +:+ s) p = true.
Proof. unfold startswith. rewrite strip_prefix_app. reflexivity. Qed.

Lemma occurs_unfold (p s : string) :
  occurs p s =
  startswith s p || match s with EmptyString => false | String _ s' => occurs p s' end.
Proof. destruct s; reflexivity. Qed.

(** A text occurs in whatever is put around it. *)
Lemma occurs_app_mid (a p b : string) : occurs p (a +:+ p +:+ b) = true.
Proof.
  induction a as [|c a IH].
  - rewrite append_nil_l, occurs_unfold, startswith_app. reflexivity.
  - rewrite append_cons, occurs_unfold, IH. apply orb_true_r.
Qed.

(** A prefix of characters other than the first one of [p] does not matter. *)
Lemma occurs_app_l (c : ascii) (p a s : string) :
  has_char c a = false → occurs (String c p) (a +:+ s) = occurs (String c p) s.
Proof.
  induction a as [|b a IH]; simpl has_char; [reflexivity|].
  intros Hc. apply orb_false_elim in Hc as [Hb Ha].
  rewrite append_cons, occurs_unfold, (IH Ha).
  unfold startswith. simpl strip_prefix.
  destruct (bool_decide (c = b)) eqn:E; [|reflexivity].
  apply bool_decide_eq_true_1 in E. subst b.
  rewrite bool_decide_eq_true_2 in Hb by reflexivity. discriminate Hb.
Qed.

Lemma startswith_app_r (p x : string) (c : ascii) (s : string) :
  has_char c p = false → startswith (x +:+ String c s) p = startswith x p.
Proof.
  unfold startswith. revert x.
  induction p as [|a p IH]; intros x Hc; [destruct x; reflexivity|].
  simpl in Hc. apply orb_false_elim in Hc as [Ha Hp].
  destruct x as [|b x]; simpl.
  - rewrite Ha. reflexivity.
  - destruct (bool_decide (a = b)); [apply IH, Hp | reflexivity].
Qed.

(** A suffix that starts with a character foreign to [p] adds only its own
    occurrences. *)
Lemma occurs_app_r (a : ascii) (p x : string) (c : ascii) (s : string) :
  has_char c (String a p) = false →
  occurs (String a p) (x +:+ String c s) = occurs (String a p) x || occurs (String a p) (String c s).
Proof.
  intros Hc. induction x as [|b x IH].
  - reflexivity.
  - rewrite append_cons, (occurs_unfold _ (String b _)), IH.
    rewrite (occurs_unfold _ (String b x)), <- append_cons.
    rewrite (startswith_app_r _ _ _ _ Hc), orb_assoc. reflexivity.
Qed.

Section extract_query.
Context `{Pg8000, PyDatetime}.
Import Extract.

(** What [extract_new_rows] does to the trace: one statement is sent. *)
Lemma extract_new_rows_trace (table_name last_checked : string) (dt : datetime) (w : world) :
  fromisoformat last_checked = Some dt →
  trace (extract_new_rows table_name last_checked w).2
  = (trace w ++ [DbRun (query_for table_name dt) (render (query_for table_name dt))])%list.
Proof.
  intros Hdt. unfold extract_new_rows. rewrite Hdt.
  rewrite bind_unfold. cbn [mret M_ret].
  unfold try_except, conn_run, service. rewrite bind_unfold.
  cbn [fault add_trace].
  destruct (fault w _) as [e|].
  - cbn [dispatch]. destruct (isinstance e DatabaseError); [reflexivity|].
    rewrite isinstance_Exception. reflexivity.
  - unfold query_for. case_bool_decide; cbn [db_select add_trace];
      destruct (db_select w _) as [cols new_rows]; reflexivity.
Qed.

(** C4: for a table other than department the text sent to the database
    selects the rows whose [last_updated] is strictly greater than the
    watermark; for department it is the bare [SELECT * FROM] of the table,
    with no predicate. *)
Theorem extract_query_predicate (table_name last_checked : string) (dt : datetime)
    (w : world) :
  fromisoformat last_checked = Some dt →
  ∃ q text,
    trace (extract_new_rows table_name last_checked w).2 = (trace w ++ [DbRun q text])%list
    ∧ (table_name ≠ "department" →
       text = newline +:+ "    SELECT * FROM " +:+ identifier table_name
                +:+ " WHERE last_updated > " +:+ literal (VTimestamp dt) +:+ newline +:+ "    "
       ∧ occurs (" WHERE last_updated > " +:+ literal (VTimestamp dt)) text = true)
    ∧ (table_name = "department" →
       text = newline +:+ "    SELECT * FROM " +:+ identifier "department" +:+ newline +:+ "    "
       ∧ occurs "WHERE" text = occurs "WHERE" (identifier "department")).
Proof.
  intros Hdt. eexists _, _. split; [apply extract_new_rows_trace, Hdt|].
  unfold query_for. split.
  - intros Hne. rewrite bool_decide_eq_false_2 by (rewrite list_elem_of_singleton; exact Hne).
    split; [reflexivity|]. cbn [render].
    apply (occurs_app_mid (newline +:+ "    SELECT * FROM " +:+ identifier table_name)
             (" WHERE last_updated > " +:+ literal (VTimestamp dt)) (newline +:+ "    ")).
  - intros ->. rewrite bool_decide_eq_true_2 by (apply list_elem_of_singleton; reflexivity).
    split; [reflexivity|]. cbn [render].
    change (newline +:+ "    SELECT * FROM " +:+ identifier "department" +:+ newline +:+ "    ")
      with ((newline +:+ "    SELECT * FROM ") +:+ (identifier "department" +:+ newline +:+ "    ")).
    rewrite occurs_app_l by reflexivity.
    change (newline +:+ "    ") with (String "010" "    ").
    rewrite occurs_app_r by reflexivity.
    apply orb_false_r.
Qed.

End extract_query.

(** Witness of C4: the queries for address and for department, from the
    epoch watermark. *)
Lemma extract_query_predicate_witness :
  let H := Fake.pg8000 in
  let H0 := Fake.py_datetime in
  let dt := mk_datetime (mk_date 1970 1 1) 0 (Some 0) in
  ∃ q1 text1 q2 text2,
    trace (Extract.extract_new_rows "address" Extract.DEFAULT_LAST_CHECKED Fake.world0).2
      = [DbRun q1 text1]
    ∧ occurs (" WHERE last_updated > " +:+ literal (VTimestamp dt)) text1 = true
    ∧ trace (Extract.extract_new_rows "department" Extract.DEFAULT_LAST_CHECKED Fake.world0).2
      = [DbRun q2 text2]
    ∧ occurs "WHERE" text2 = false.
Proof.
  intros H H0 dt.
  assert (Hdt : fromisoformat Extract.DEFAULT_LAST_CHECKED = Some dt)
    by (vm_compute; reflexivity).
  destruct (extract_query_predicate "address" Extract.DEFAULT_LAST_CHECKED dt Fake.world0
              Hdt) as (q1 & text1 & Htr1 & Hne1 & _).
  destruct (extract_query_predicate "department" Extract.DEFAULT_LAST_CHECKED dt Fake.world0
              Hdt) as (q2 & text2 & Htr2 & _ & Heq2).
  exists q1, text1, q2, text2.
  split; [exact Htr1|]. split; [apply Hne1; discriminate|].
  split; [exact Htr2|]. rewrite (proj2 (Heq2 eq_refl)). reflexivity.
Defined.

(** ** A failed table query *)

Section failed_query.
Context `{Pg8000, PyDatetime}.
Import Extract.

(** Whatever the database raises for the query of a table,
    [extract_new_rows] logs it and returns [None], and the unpacking in the
    loop of the handler raises a [TypeError]. *)
Lemma extract_table_query_fault (bucket last_checked batch_id table : string)
    (uploaded : list string) (dt : datetime) (e : exn) (w : world) :
  fromisoformat last_checked = Some dt →
  fault w (DbRun (query_for table dt) (render (query_for table dt))) = Some e →
  (extract_table bucket last_checked batch_id table uploaded w).1
  = Raise (mk_exn TypeError "" "cannot unpack non-iterable NoneType object").
Proof.
  intros Hdt Hf. unfold extract_table, extract_new_rows. rewrite Hdt.
  rewrite !bind_unfold. cbn [mret M_ret].
  unfold try_except, conn_run, service. rewrite bind_unfold.
  cbn [fault add_trace]. rewrite Hf. cbn [dispatch].
  destruct (isinstance e DatabaseError); [reflexivity|].
  rewrite isinstance_Exception. reflexivity.
Qed.

End failed_query.

Section runs.
#[local] Existing Instance Fake.pg8000.
#[local] Existing Instance Fake.py_datetime.
#[local] Existing Instance Fake.pandas.
#[local] Existing Instance Fake.pandas_where.

(** C2, on the code: when the query on currency fails with a database
    error, the error is logged, but the handler then raises a [TypeError]:
    the tables after currency are not queried, the changed address rows are
    not written, and the watermark is not advanced. *)
Theorem extract_failed_query_aborts :
  let r := Extract.lambda_handler ∅ () Fake.world_currency_down in
  r.1 = Raise (mk_exn TypeError "" "cannot unpack non-iterable NoneType object")
  ∧ ((ERROR, "There has been a database error: relation is locked") ∈ log r.2)
  ∧ queried_tables (trace r.2)
    = ["transaction"; "sales_order"; "payment"; "counterparty"; "currency"]
  ∧ s3_puts (trace r.2) = []
  ∧ ssm_puts (trace r.2) = []
  ∧ ssm_params r.2 !! "last_checked" = Some Fake.watermark.
Proof.
  cbv zeta. repeat split; try (vm_compute; reflexivity).
  apply (bool_decide_unpack _). vm_compute. exact I.
Qed.

(** C1, on the code: the extractor writes the changed address rows under
    its batch id and hands its pre-run watermark to the transformer as
    [timestamp_to_transform]; the transformer looks the table up under that
    watermark, a key the extractor did not write, finds nothing and builds
    no location dimension. *)
Theorem handoff_key_mismatch :
  let r := Extract.lambda_handler ∅ () Fake.world_one_address in
  let t := Transform.lambda_handler Fake.handoff () r.2 in
  r.1 = Return Fake.handoff
  ∧ Fake.handoff !! "uploaded_tables" = Some (PStrList ["address"])
  ∧ Fake.handoff !! "batch_id" = Some (PStr "2025-06-01T12-00-00+00-00")
  ∧ Fake.handoff !! "timestamp_to_transform" = Some (PStr "2025-01-01T00:00:00+00:00")
  ∧ s3_puts (trace r.2) = [s3_url "ingest" "address/2025-06-01T12-00-00+00-00.csv"]
  ∧ (s3_url "ingest" "address/2025-01-01T00:00:00+00:00.csv"
       ∈ s3_heads (drop (length (trace r.2)) (trace t.2)))
  ∧ (s3_url "ingest" "address/2025-01-01T00:00:00+00:00.csv" ∉ s3_puts (trace r.2))
  ∧ ((INFO, "No address file found") ∈ log t.2)
  ∧ s3_puts (drop (length (trace r.2)) (trace t.2))
    = [s3_url "processed" "dim_date/dim_date.parquet"].
Proof.
  cbv zeta.
  split; [vm_compute; reflexivity|].
  split; [vm_compute; reflexivity|].
  split; [vm_compute; reflexivity|].
  split; [vm_compute; reflexivity|].
  split; [vm_compute; reflexivity|].
  split; [apply (bool_decide_unpack _); vm_compute; exact I|].
  split; [apply (bool_decide_unpack _); vm_compute; exact I|].
  split; [apply (bool_decide_unpack _); vm_compute; exact I|].
  vm_compute; reflexivity.
Qed.

(** C8, on the code: with the counterparty artifact of the batch in the
    ingestion bucket and no address artifact at all, [dim_counterparty]
    does not log and return: reading [Contents] of the empty listing raises
    a [KeyError], the transformer raises it, and the date dimension, which
    comes after, is not written. *)
Theorem counterparty_without_address_raises :
  let t := Transform.lambda_handler Fake.transform_event () Fake.world_counterparty_only in
  t.1 = Raise (mk_exn KeyError "" "Contents")
  ∧ s3_heads (trace t.2)
    = (λ table, s3_url "ingest" (table +:+ "/" +:+ Fake.watermark +:+ ".csv"))
        <$> ["sales_order"; "currency"; "address"; "design"; "staff"; "counterparty"]
  ∧ s3_puts (trace t.2) = []
  ∧ log t.2
    = [(INFO, "No sales_order file found"); (INFO, "No currency file found");
       (INFO, "No address file found"); (INFO, "No design file found");
       (INFO, "No staff file found")].
Proof.
  cbv zeta.
  split; [vm_compute; reflexivity|].
  split; [vm_compute; reflexivity|].
  split; vm_compute; reflexivity.
Qed.

End runs.

(** ** Frames *)

Section keeps.
Context {R : world → world → Prop} {ok : call → Prop} `{!Frame R ok}.

Lemma keeps_ret {A} (a : A) : keeps R (mret a).
Proof. intros w. apply frame_refl. Qed.

Lemma keeps_raise {A} (e : exn) : keeps R (raise e : M A).
Proof. intros w. apply frame_refl. Qed.

Lemma keeps_lift {A} (r : outcome A) : keeps R (lift r).
Proof. intros w. apply frame_refl. Qed.

Lemma keeps_bind {A B} (m : M A) (f : A → M B) :
  keeps R m → (∀ a, keeps R (f a)) → keeps R (m ≫= f).
Proof.
  intros Hm Hf w. rewrite bind_unfold. specialize (Hm w).
  destruct (m w) as [[a|e] w1]; [|exact Hm].
  eapply frame_trans; [exact Hm | apply Hf].
Qed.

Lemma keeps_dispatch {A} (hs : list (exn_class * (exn → M A))) (e : exn) :
  Forall (λ h, ∀ e, keeps R (h.2 e)) hs → keeps R (dispatch hs e).
Proof.
  induction 1 as [|[c h] hs Hh _ IH]; cbn [dispatch]; [apply keeps_raise|].
  destruct (isinstance e c); [apply Hh | apply IH].
Qed.

Lemma keeps_try_except {A} (m : M A) (hs : list (exn_class * (exn → M A))) :
  keeps R m → Forall (λ h, ∀ e, keeps R (h.2 e)) hs → keeps R (try_except m hs).
Proof.
  intros Hm Hh w. unfold try_except. specialize (Hm w).
  destruct (m w) as [[a|e] w1]; [exact Hm|].
  eapply frame_trans; [exact Hm | apply keeps_dispatch, Hh].
Qed.

Lemma keeps_try_finally {A} (m : M A) (fin : M unit) :
  keeps R m → keeps R fin → keeps R (try_finally m fin).
Proof.
  intros Hm Hf w. unfold try_finally. specialize (Hm w).
  destruct (m w) as [r w1]. specialize (Hf w1).
  destruct (fin w1) as [[[]|e] w2]; eapply frame_trans; eassumption.
Qed.

Lemma keeps_for_in {A S} (l : list A) (body : A → S → M S) (s : S) :
  (∀ x s, keeps R (body x s)) → keeps R (for_in l body s).
Proof.
  intros Hb. revert s. induction l as [|x l IH]; intros s; cbn [for_in].
  - apply keeps_ret.
  - apply keeps_bind; [apply Hb | intros s'; apply IH].
Qed.

Lemma keeps_logger_info (msg : string) : keeps R (logger_info msg).
Proof. intros w. apply frame_log. Qed.

Lemma keeps_logger_warning (msg : string) : keeps R (logger_warning msg).
Proof. intros w. apply frame_log. Qed.

Lemma keeps_logger_error (msg : string) : keeps R (logger_error msg).
Proof. intros w. apply frame_log. Qed.

Lemma keeps_environ_get (name : string) : keeps R (environ_get name).
Proof. intros w. apply frame_refl. Qed.

Lemma keeps_getitem {V} (d : gmap string V) (k : string) : keeps R (getitem d k).
Proof. unfold getitem. destruct (d !! k); [apply keeps_ret | apply keeps_raise]. Qed.

Lemma keeps_unpack {A B} (r : option (A * B)) : keeps R (unpack r).
Proof. destruct r; [apply keeps_ret | apply keeps_raise]. Qed.

Lemma keeps_pd_DataFrame (data : list (list value)) (cols : list string) :
  keeps R (pd_DataFrame data cols).
Proof. unfold pd_DataFrame. destruct (forallb _ _); [apply keeps_ret | apply keeps_raise]. Qed.

(** A service call that the frame allows keeps it when its action does. *)
Lemma keeps_service {A} (c : call) (act : M A) :
  ok c → keeps R act → keeps R (service c act).
Proof.
  intros Hc Ha w. unfold service.
  pose proof (frame_call (R:=R) c w Hc) as Hs.
  destruct (fault (add_trace c w) c); [exact Hs|].
  eapply frame_trans; [exact Hs | apply Ha].
Qed.

Lemma keeps_ssm_get_parameter (name : string) :
  ok (SsmGet name) → keeps R (ssm_get_parameter name).
Proof.
  intros Hc. apply keeps_service; [exact Hc|]. intros w.
  destruct (ssm_params w !! name); apply frame_refl.
Qed.

Lemma keeps_sm_get_secret_json (secret_id : string) :
  ok (SmGet secret_id) → keeps R (sm_get_secret_json secret_id).
Proof.
  intros Hc. apply keeps_service; [exact Hc|]. intros w.
  destruct (sm_secrets w !! secret_id) as [[?|]|]; apply frame_refl.
Qed.

Lemma keeps_pg_connect : ok DbConnect → keeps R pg_connect.
Proof. intros Hc. apply keeps_service; [exact Hc|]. intros w. apply frame_closed. Qed.

Lemma keeps_conn_close : ok DbClose → keeps R conn_close.
Proof. intros Hc. apply keeps_service; [exact Hc|]. intros w. apply frame_closed. Qed.

Lemma keeps_s3_head_object (bucket key : string) :
  ok (S3Head bucket key) → keeps R (s3_head_object bucket key).
Proof.
  intros Hc. apply keeps_service; [exact Hc|]. intros w.
  destruct (s3 w !! _); apply frame_refl.
Qed.

Lemma keeps_s3_read (path : string) : ok (S3Get path) → keeps R (s3_read path).
Proof.
  intros Hc. unfold s3_read. destruct (startswith path "s3://"); [|apply keeps_raise].
  apply keeps_service; [exact Hc|]. intros w.
  destruct (s3 w !! _); apply frame_refl.
Qed.

End keeps.

(** ** Silent computations *)

Lemma ssm_puts_app (t1 t2 : list call) : ssm_puts (t1 ++ t2) = (ssm_puts t1 ++ ssm_puts t2)%list.
Proof. apply omap_app. Qed.

Lemma s3_puts_app (t1 t2 : list call) : s3_puts (t1 ++ t2) = (s3_puts t1 ++ s3_puts t2)%list.
Proof. apply omap_app. Qed.

Lemma silent_refl (w : world) : silent w w.
Proof.
  split; try reflexivity. exists []. rewrite app_nil_r. repeat split.
Qed.

Lemma silent_trans (w1 w2 w3 : world) : silent w1 w2 → silent w2 w3 → silent w1 w3.
Proof.
  intros [E1 P1 S1 O1 D1 C1 K1 F1 (n1 & T1 & A1 & B1)] [E2 P2 S2 O2 D2 C2 K2 F2 (n2 & T2 & A2 & B2)].
  split; try congruence.
  exists (n1 ++ n2)%list. rewrite T2, T1, ssm_puts_app, s3_puts_app, A1, A2, B1, B2, <- app_assoc.
  repeat split.
Qed.

Global Instance silent_frame : Frame silent no_put.
Proof.
  split.
  - apply silent_refl.
  - apply silent_trans.
  - intros r w. split; try reflexivity. exists []. cbn. rewrite app_nil_r. repeat split.
  - intros b w. split; try reflexivity. exists []. cbn. rewrite app_nil_r. repeat split.
  - intros c w [A B]. split; try reflexivity. exists [c]. repeat split; assumption.
Qed.

Lemma silent_steady (w w' : world) : silent w w' → steady w w'.
Proof. intros []. split; assumption. Qed.

Lemma steady_refl (w : world) : steady w w.
Proof. split; reflexivity. Qed.

Lemma steady_trans (w1 w2 w3 : world) : steady w1 w2 → steady w2 w3 → steady w1 w3.
Proof. intros [] []. split; congruence. Qed.

(** A statement leaves the stores alone, whatever it does to the
    warehouse. *)
Lemma silent_conn_run `{Pg8000} (s : sql) : silent_m (conn_run s).
Proof.
  apply keeps_service; [split; reflexivity|]. intros w.
  assert (Hset : ∀ f, silent w (set_db_tables f w))
    by (intros f; split; try reflexivity; exists []; cbn; rewrite app_nil_r; repeat split).
  destruct s as [t since|t|t cols vals]; [apply silent_refl|..];
    destruct (db_tables w !! t); first [apply Hset | apply silent_refl].
Qed.

(** ** Runs beside a table *)

Lemma statements_on_app (table : string) (t1 t2 : list call) :
  statements_on table (t1 ++ t2) = (statements_on table t1 ++ statements_on table t2)%list.
Proof. apply omap_app. Qed.

Global Instance beside_frame (table : string) : Frame (beside table) (off_table table).
Proof.
  split.
  - intros w. split; [reflexivity|]. exists []. rewrite app_nil_r. split; reflexivity.
  - intros w1 w2 w3 [R1 (n1 & T1 & S1)] [R2 (n2 & T2 & S2)].
    split; [congruence|]. exists (n1 ++ n2)%list.
    rewrite T2, T1, statements_on_app, S1, S2, <- app_assoc. split; reflexivity.
  - intros r w. split; [reflexivity|]. exists []. cbn. rewrite app_nil_r. split; reflexivity.
  - intros b w. split; [reflexivity|]. exists []. cbn. rewrite app_nil_r. split; reflexivity.
  - intros c w Hc. split; [reflexivity|]. exists [c]. split; [reflexivity | exact Hc].
Qed.

(** A statement about another table. *)
Lemma beside_conn_run `{Pg8000} (table : string) (s : sql) :
  statements_on table [DbRun s (render s)] = [] → keeps (beside table) (conn_run s).
Proof.
  intros Hs. apply keeps_service; [exact Hs|]. intros w.
  cbn in Hs.
  destruct s as [t since|t|t cols vals]; [apply frame_refl|..];
    (case_bool_decide as Ht; [discriminate Hs|]);
    (destruct (db_tables w !! t); [|apply frame_refl]);
    (split; [cbn; apply lookup_insert_ne; exact Ht|]);
    exists []; cbn; rewrite app_nil_r; split; reflexivity.
Qed.

Create HintDb keeps discriminated.

#[global] Hint Resolve keeps_ret keeps_raise keeps_lift keeps_logger_info
  keeps_logger_warning keeps_logger_error keeps_environ_get
  keeps_getitem keeps_unpack keeps_pd_DataFrame keeps_ssm_get_parameter
  keeps_sm_get_secret_json keeps_pg_connect keeps_conn_close
  keeps_s3_head_object keeps_s3_read silent_conn_run : keeps.

#[global] Hint Resolve silent_frame beside_frame : keeps.
#[global] Hint Extern 1 (no_put _) => split; reflexivity : keeps.
#[global] Hint Extern 1 (off_table _ _) => reflexivity : keeps.

(** Decomposes a goal [keeps R m] along the structure of [m]. *)
Ltac keeps_step :=
  first
    [ solve [eauto with keeps]
    | apply keeps_bind; [|intros ?]
    | apply keeps_try_except
    | match goal with
      | |- Forall _ [] => apply List.Forall_nil
      | |- Forall _ (_ :: _) => apply List.Forall_cons; [intros ?; cbn [snd]|]
      end
    | apply keeps_try_finally
    | apply keeps_for_in; intros ? ?
    | match goal with
      | |- keeps _ (if ?b then _ else _) => destruct b
      | |- keeps _ (match ?x with _ => _ end) => destruct x
      | |- keeps _ (let '(_, _) := ?x in _) => destruct x
      end ].

Ltac solve_keeps := cbn [snd]; repeat keeps_step.

(** Runs the monad combinators and the field updates of a goal, leaving
    service replies and class tests in place. *)
Ltac run :=
  repeat
    (progress
       (cbv beta iota zeta delta
          [mbind M_bind mret M_ret raise lift logger_info logger_warning logger_error
           service try_except try_finally dispatch add_log add_trace set_s3 set_ticks
           set_db_closed set_db_tables set_ssm_params];
        cbn [environ ssm_params sm_secrets s3 s3_clock db_select db_tables db_closed
             clock ticks fault log trace fst snd])).

(** ** The extraction cycle *)

Section extract_cycle.
Context `{Pg8000, PyDatetime}.
Import Extract.

Lemma silent_get_last_checked : silent_m get_last_checked.
Proof. unfold get_last_checked. solve_keeps. Qed.

Lemma silent_get_db_credentials : silent_m get_db_credentials.
Proof. unfold get_db_credentials. solve_keeps. Qed.

Lemma silent_create_db_connection (creds : gmap string pyval) :
  silent_m (create_db_connection creds).
Proof. unfold create_db_connection. solve_keeps. Qed.

Lemma silent_get_bucket_name : silent_m get_bucket_name.
Proof. unfold get_bucket_name. solve_keeps. Qed.

Lemma silent_extract_new_rows (table_name last_checked : string) :
  silent_m (extract_new_rows table_name last_checked).
Proof. unfold extract_new_rows. solve_keeps. Qed.

Lemma silent_close_connection : silent_m close_connection.
Proof. unfold close_connection. solve_keeps. Qed.

(** The [finally] clause never raises. *)
Lemma close_connection_returns (w : world) : (close_connection w).1 = Return ().
Proof.
  unfold close_connection, try_except, conn_close, service.
  rewrite bind_unfold. cbn [fault add_trace].
  destruct (fault w DbClose) as [e|]; [|reflexivity].
  cbn [dispatch]. rewrite isinstance_Exception. reflexivity.
Qed.

Lemma steady_add_log (r : level * string) (w : world) : steady w (add_log r w).
Proof. split; reflexivity. Qed.

Lemma steady_add_trace (c : call) (w : world) : steady w (add_trace c w).
Proof. split; reflexivity. Qed.

(** The three ways [extract_new_rows] ends. *)
Lemma extract_new_rows_run (table_name last_checked : string) (w : world) :
  match fromisoformat last_checked with
  | None => ∃ e, extract_new_rows table_name last_checked w = (Raise e, w)
  | Some dt =>
      let q := query_for table_name dt in
      let c := DbRun q (render q) in
      match fault w c with
      | Some e =>
          ∃ msg, extract_new_rows table_name last_checked w
                 = (Return None, add_log (ERROR, msg) (add_trace c w))
      | None =>
          extract_new_rows table_name last_checked w
          = (Return (Some (db_select w (render q))), add_trace c w)
      end
  end.
Proof.
  unfold extract_new_rows. destruct (fromisoformat last_checked) as [dt|].
  - cbv zeta. rewrite bind_unfold. cbn [mret M_ret].
    unfold try_except, conn_run, service. rewrite bind_unfold. cbn [fault add_trace].
    destruct (fault w _) as [e|].
    + cbn [dispatch]. destruct (isinstance e DatabaseError); [eexists; reflexivity|].
      rewrite isinstance_Exception. eexists; reflexivity.
    + unfold query_for. case_bool_decide; cbn [db_select add_trace];
        destruct (db_select w _) as [cols new_rows]; reflexivity.
  - eexists. reflexivity.
Qed.

(** The three ways the upload of a table ends. *)
Lemma convert_run (bucket table : string) (cols : list string) (data : list (list value))
    (batch_id : string) (w : world) :
  let path := artifact_path bucket table batch_id in
  let m := convert_new_rows_to_df_and_upload_to_s3_as_csv bucket table cols data batch_id in
  if forallb (λ r, bool_decide (length r = length cols)) data then
    match fault w (S3Put path) with
    | Some e =>
        ∃ w', m w = (Raise e, w') ∧ steady w w' ∧ trace w' = (trace w ++ [S3Put path])%list
    | None =>
        ∃ w', m w = (Return (), w') ∧ steady w w'
              ∧ trace w' = (trace w ++ [S3Put path])%list
              ∧ s3 w' = <[path:=mk_obj (mk_df cols data) (s3_clock w)]> (s3 w)
    end
  else ∃ e, m w = (Raise e, w).
Proof.
  unfold convert_new_rows_to_df_and_upload_to_s3_as_csv, pd_DataFrame, s3_write.
  cbv zeta. fold (artifact_path bucket table batch_id).
  replace (startswith (artifact_path bucket table batch_id) "s3://") with true
    by (symmetry; apply (startswith_app "s3://")).
  destruct (forallb _ data); run.
  - destruct (fault w (S3Put _)) as [e|] eqn:Hf; run.
    + rewrite isinstance_Exception. run.
      eexists. split; [reflexivity|]. split; [split; reflexivity | reflexivity].
    + eexists. split; [reflexivity|]. split; [split; reflexivity|]. split; reflexivity.
  - eexists. reflexivity.
Qed.

(** One turn of the loop, by the replies of the services: the query may
    fail (the turn then raises a [TypeError]), return no rows (nothing is
    written), return rows that do not fit the columns, or return rows that
    are uploaded, which may fail too. *)
Lemma extract_table_run (bucket last_checked batch_id table : string)
    (uploaded : list string) (w : world) :
  let m := extract_table bucket last_checked batch_id table uploaded in
  let path := artifact_path bucket table batch_id in
  steady w (m w).2
  ∧ ∃ new,
      trace (m w).2 = (trace w ++ new)%list
      ∧ ssm_puts new = []
      ∧ match fromisoformat last_checked with
        | None => (∃ e, (m w).1 = Raise e) ∧ s3_puts new = []
        | Some dt =>
            let q := query_for table dt in
            match fault w (DbRun q (render q)) with
            | Some _ => (∃ e, (m w).1 = Raise e) ∧ s3_puts new = []
            | None =>
                let reply := db_select w (render q) in
                if decide (reply.2 = []) then
                  (m w).1 = Return uploaded ∧ s3_puts new = [] ∧ s3 (m w).2 = s3 w
                else if forallb (λ r, bool_decide (length r = length reply.1)) reply.2 then
                  s3_puts new = [path]
                  ∧ match fault w (S3Put path) with
                    | Some e => (m w).1 = Raise e
                    | None =>
                        (m w).1 = Return (uploaded ++ [table])%list
                        ∧ s3 (m w).2
                          = <[path:=mk_obj (mk_df reply.1 reply.2) (s3_clock w)]> (s3 w)
                    end
                else (∃ e, (m w).1 = Raise e) ∧ s3_puts new = []
            end
        end.
Proof.
  cbv zeta. unfold extract_table. rewrite bind_unfold.
  pose proof (extract_new_rows_run table last_checked w) as Hq.
  destruct (fromisoformat last_checked) as [dt|].
  - cbv zeta in Hq.
    destruct (fault w (DbRun (query_for table dt) (render (query_for table dt)))) as [e|] eqn:Hf.
    + destruct Hq as [msg ->]. run.
      split; [split; reflexivity|]. eexists. split; [reflexivity|].
      repeat split. eexists. reflexivity.
    + rewrite Hq. clear Hq. rewrite bind_unfold. cbn [unpack mret M_ret].
      destruct (db_select w (render (query_for table dt))) as [cols data] eqn:Hr.
      cbn [fst snd]. destruct (decide (data = [])) as [->|Hne].
      * rewrite bool_decide_eq_true_2 by reflexivity. run.
        split; [split; reflexivity|]. eexists. split; [reflexivity|]. repeat split.
      * rewrite bool_decide_eq_false_2 by exact Hne. cbn [negb].
        rewrite bind_unfold.
        pose proof (convert_run bucket table cols data batch_id
                      (add_trace (DbRun (query_for table dt) (render (query_for table dt))) w))
          as Hc.
        cbv zeta in Hc. cbn [fault add_trace trace s3 s3_clock] in Hc.
        destruct (forallb _ data).
        -- destruct (fault w (S3Put _)) as [e|].
           ++ destruct Hc as (w2 & -> & Hst & Ht). cbn [fst snd].
              split; [eapply steady_trans; [apply steady_add_trace | exact Hst]|].
              eexists. split; [rewrite Ht, <- app_assoc; reflexivity|].
              repeat split.
           ++ destruct Hc as (w2 & -> & Hst & Ht & Hs). run.
              split; [eapply steady_trans; [apply steady_add_trace | exact Hst]|].
              eexists. split; [rewrite Ht, <- app_assoc; reflexivity|].
              repeat split. exact Hs.
        -- destruct Hc as [e ->]. cbn [fst snd].
           split; [apply steady_add_trace|]. eexists. split; [reflexivity|].
           repeat split. eexists. reflexivity.
  - destruct Hq as [e ->]. split; [apply steady_refl|].
    exists []. rewrite app_nil_r. repeat split. eexists. reflexivity.
Qed.

(** A write that the object store refuses makes the turn raise what the
    store raised. *)
Lemma extract_table_puts (bucket last_checked batch_id table : string)
    (uploaded : list string) (w : world) :
  let m := extract_table bucket last_checked batch_id table uploaded in
  steady w (m w).2
  ∧ ∃ new,
      trace (m w).2 = (trace w ++ new)%list
      ∧ ssm_puts new = []
      ∧ ∀ p e, p ∈ s3_puts new → fault w (S3Put p) = Some e → (m w).1 = Raise e.
Proof.
  cbv zeta.
  destruct (extract_table_run bucket last_checked batch_id table uploaded w)
    as (Hst & new & Ht & Hp & Hcase).
  split; [exact Hst|]. exists new. split; [exact Ht|]. split; [exact Hp|].
  intros p e Hin Hf. cbv zeta in Hcase.
  destruct (fromisoformat last_checked) as [dt|];
    [|destruct Hcase as [_ E]; rewrite E in Hin; inversion Hin].
  destruct (fault w (DbRun _ _));
    [destruct Hcase as [_ E]; rewrite E in Hin; inversion Hin|].
  destruct (decide _);
    [destruct Hcase as (_ & E & _); rewrite E in Hin; inversion Hin|].
  destruct (forallb _ _);
    [|destruct Hcase as [_ E]; rewrite E in Hin; inversion Hin].
  destruct Hcase as [E Hr]. rewrite E in Hin.
  apply list_elem_of_singleton in Hin. subst p. rewrite Hf in Hr. exact Hr.
Qed.

Lemma extract_loop_puts (bucket last_checked batch_id : string) (tables uploaded : list string)
    (w : world) :
  let m := for_in tables (extract_table bucket last_checked batch_id) uploaded in
  steady w (m w).2
  ∧ ∃ new,
      trace (m w).2 = (trace w ++ new)%list
      ∧ ssm_puts new = []
      ∧ ∀ p e, p ∈ s3_puts new → fault w (S3Put p) = Some e → (m w).1 = Raise e.
Proof.
  cbv zeta. revert uploaded w.
  induction tables as [|t tables IH]; intros uploaded w; cbn [for_in].
  - split; [apply steady_refl|]. exists []. rewrite app_nil_r.
    repeat split. intros p e Hin. inversion Hin.
  - rewrite bind_unfold.
    destruct (extract_table_puts bucket last_checked batch_id t uploaded w)
      as (Hst & new1 & Ht1 & Hp1 & Hf1). cbv zeta in *.
    destruct (extract_table bucket last_checked batch_id t uploaded w) as [[up1|e1] w1];
      cbn [fst snd] in *.
    + destruct (IH up1 w1) as (Hst2 & new2 & Ht2 & Hp2 & Hf2).
      split; [eapply steady_trans; eassumption|].
      exists (new1 ++ new2)%list.
      split; [rewrite Ht2, Ht1, app_assoc; reflexivity|].
      split; [rewrite ssm_puts_app, Hp1, Hp2; reflexivity|].
      intros p e Hin Hf. rewrite s3_puts_app in Hin. apply elem_of_app in Hin as [Hin|Hin].
      * specialize (Hf1 p e Hin Hf). discriminate Hf1.
      * apply (Hf2 p e Hin). rewrite (steady_fault _ _ Hst). exact Hf.
    + split; [exact Hst|]. exists new1. repeat split; assumption.
Qed.

(** The two ways the put of the watermark ends. *)
Lemma update_last_checked_run (v : string) (w : world) :
  match fault w (SsmPut "last_checked" v) with
  | Some e =>
      ∃ w', update_last_checked v w = (Raise e, w')
            ∧ ssm_params w' = ssm_params w
            ∧ trace w' = (trace w ++ [SsmPut "last_checked" v])%list
  | None =>
      ∃ w', update_last_checked v w = (Return v, w')
            ∧ ssm_params w' = <["last_checked":=v]> (ssm_params w)
            ∧ trace w' = (trace w ++ [SsmPut "last_checked" v])%list
            ∧ s3 w' = s3 w
  end.
Proof.
  unfold update_last_checked, ssm_put_parameter. run.
  destruct (fault w _) as [e|]; run.
  - destruct (isinstance e ClientError); run; eexists; repeat split.
  - eexists; repeat split.
Qed.

Lemma guarded_bind_silent {A B} (m : M A) (f : A → M B) :
  silent_m m → (∀ a, guarded_m (f a)) → guarded_m (m ≫= f).
Proof.
  intros Hm Hf w. rewrite bind_unfold. specialize (Hm w).
  destruct (m w) as [[a|e] w1]; cbv beta iota; cbn [fst snd] in *.
  - destruct Hm as [_ Hssm _ _ _ _ _ Hfault (n1 & Ht1 & Hp1 & Hs1)].
    destruct (Hf a w1) as (before & after & Ht & Hp & Hs & Hput & Hraise).
    exists (n1 ++ before)%list, after.
    split; [rewrite Ht, Ht1, <- !app_assoc; reflexivity|].
    split; [rewrite ssm_puts_app, Hp1, Hp; reflexivity|].
    split; [exact Hs|]. split.
    + intros p e Hin Hfl. rewrite s3_puts_app, Hs1 in Hin.
      apply (Hput p e Hin). rewrite Hfault. exact Hfl.
    + intros e He. rewrite (Hraise e He). exact Hssm.
  - destruct Hm as [_ Hssm _ _ _ _ _ _ (n1 & Ht1 & Hp1 & Hs1)].
    exists n1, []. rewrite app_nil_r.
    split; [exact Ht1|]. split; [exact Hp1|]. split; [reflexivity|]. split.
    + intros p e' Hin. rewrite Hs1 in Hin. inversion Hin.
    + intros _ _. exact Hssm.
Qed.

Lemma guarded_bind_now {B} (f : string → M B) :
  (∀ a, guarded_m (f a)) → guarded_m (_utc_now_iso ≫= f).
Proof.
  intros Hf w. rewrite bind_unfold. unfold _utc_now_iso, now_isoformat.
  destruct (Hf (clock w (ticks w)) (set_ticks (S (ticks w)) w))
    as (before & after & Ht & Hp & Hs & Hput & Hraise).
  exists before, after. repeat split; assumption.
Qed.

Lemma guarded_try_finally {A} (m : M A) (fin : M unit) :
  guarded_m m → silent_m fin → (∀ w, (fin w).1 = Return ()) → guarded_m (try_finally m fin).
Proof.
  intros Hm Hs Hr w. unfold try_finally.
  destruct (Hm w) as (before & after & Ht & Hp & Hs3 & Hput & Hraise).
  destruct (m w) as [r w1]. cbn [fst snd] in *.
  specialize (Hs w1). specialize (Hr w1).
  destruct (fin w1) as [[[]|e] w2]; cbn [fst snd] in *; [|discriminate Hr].
  destruct Hs as [_ Hssm _ _ _ _ _ _ (n2 & Ht2 & Hp2 & Hs2)].
  exists before, (after ++ n2)%list.
  split; [rewrite Ht2, Ht, <- !app_assoc; reflexivity|].
  split; [exact Hp|]. split; [rewrite s3_puts_app, Hs3, Hs2; reflexivity|].
  split; [exact Hput|]. intros e He. rewrite Hssm. apply (Hraise e He).
Qed.

(** The body of the [try]: the loop over the tables, then the put of the
    watermark. *)
Lemma guarded_cycle {R} (bucket last_checked batch_id : string)
    (result : list string → R) :
  guarded_m
    (uploaded_tables ←
       for_in tables_to_import (extract_table bucket last_checked batch_id) [];
     new_last_checked ← _utc_now_iso;
     update_last_checked new_last_checked;;
     logger_info ("Updated last_checked to: " +:+ new_last_checked);;
     mret (result uploaded_tables)).
Proof.
  intros w. rewrite bind_unfold.
  destruct (extract_loop_puts bucket last_checked batch_id tables_to_import [] w)
    as (Hst & new & Ht & Hp & Hput). cbv zeta in *.
  destruct (for_in tables_to_import _ [] w) as [[up|e] w1]; cbn [fst snd] in *.
  - rewrite bind_unfold. unfold _utc_now_iso, now_isoformat. rewrite bind_unfold.
    pose proof (update_last_checked_run (clock w1 (ticks w1)) (set_ticks (S (ticks w1)) w1))
      as Hu.
    cbn [fault set_ticks ssm_params trace s3] in Hu.
    destruct (fault w1 _) as [e|].
    + destruct Hu as (w2 & -> & Hssm & Ht2). cbn [fst snd].
      exists new, [SsmPut "last_checked" (clock w1 (ticks w1))].
      split; [rewrite Ht2, Ht, <- app_assoc; reflexivity|]. split; [exact Hp|].
      split; [reflexivity|].
      split.
      * intros p e' Hin Hf. specialize (Hput p e' Hin Hf). discriminate Hput.
      * intros _ _. rewrite Hssm. apply (steady_ssm _ _ Hst).
    + destruct Hu as (w2 & -> & Hssm & Ht2 & _). run.
      exists new, [SsmPut "last_checked" (clock w1 (ticks w1))].
      split; [rewrite Ht2, Ht, <- app_assoc; reflexivity|]. split; [exact Hp|].
      split; [reflexivity|].
      split.
      * intros p e' Hin Hf. specialize (Hput p e' Hin Hf). discriminate Hput.
      * intros e He. discriminate He.
  - exists new, []. rewrite app_nil_r.
    split; [exact Ht|]. split; [exact Hp|]. split; [reflexivity|]. split.
    + intros p e' Hin Hf. specialize (Hput p e' Hin Hf). injection Hput as ->. reflexivity.
    + intros _ _. apply (steady_ssm _ _ Hst).
Qed.

#[local] Hint Resolve silent_get_last_checked silent_get_db_credentials
  silent_create_db_connection silent_get_bucket_name silent_extract_new_rows
  silent_close_connection : keeps.

(** The handler is guarded: its calls split in a part without a put of the
    watermark and a later part without a write to the object store. *)
Lemma extract_handler_guarded (event : gmap string pyval) (context : unit) :
  guarded_m (lambda_handler event context).
Proof.
  unfold lambda_handler.
  do 10 (apply guarded_bind_silent; [solve [eauto with keeps]|intros ?]).
  apply guarded_bind_now. intros now. cbv zeta.
  apply guarded_try_finally.
  - apply guarded_cycle.
  - apply silent_close_connection.
  - apply close_connection_returns.
Qed.

(** *** A cycle without faults *)

Lemma append_length (a b : string) :
  String.length (a +:+ b) = (String.length a + String.length b)%nat.
Proof. induction a as [|c a IH]; [reflexivity|]. rewrite append_cons. cbn. rewrite IH. reflexivity. Qed.

Lemma append_inj_r (s1 s2 r : string) : s1 +:+ r = s2 +:+ r → s1 = s2.
Proof.
  revert s2. induction s1 as [|c s1 IH]; intros [|c2 s2] E.
  - reflexivity.
  - apply (f_equal String.length) in E. rewrite append_nil_l, append_cons in E.
    cbn in E. rewrite append_length in E. lia.
  - apply (f_equal String.length) in E. rewrite append_nil_l, append_cons in E.
    cbn in E. rewrite append_length in E. lia.
  - rewrite !append_cons in E. injection E as -> E. f_equal. apply IH, E.
Qed.

(** Distinct tables have distinct artifacts in a batch. *)
Lemma artifact_path_inj (bucket batch_id t1 t2 : string) :
  artifact_path bucket t1 batch_id = artifact_path bucket t2 batch_id → t1 = t2.
Proof.
  unfold artifact_path. intros E.
  apply (String.app_inj "s3://"), (String.app_inj bucket), (String.app_inj "/") in E.
  apply (append_inj_r _ _ _ E).
Qed.

Lemma new_rows_of_steady (w w' : world) (last_checked table : string) :
  steady w w' → new_rows_of w' last_checked table = new_rows_of w last_checked table.
Proof. intros Hst. unfold new_rows_of. rewrite (steady_select _ _ Hst). reflexivity. Qed.

Lemma changed_tables_steady (w w' : world) (last_checked : string) (tables : list string) :
  steady w w' → changed_tables w' last_checked tables = changed_tables w last_checked tables.
Proof.
  intros Hst. unfold changed_tables.
  induction tables as [|t tables IH]; [reflexivity|].
  rewrite !filter_cons, IH, (new_rows_of_steady _ _ _ _ Hst). reflexivity.
Qed.

(** With no fault and replies whose rows fit their columns, the loop
    returns the changed tables, having written one artifact for each of
    them and touched nothing else in the object store. *)
Lemma extract_loop_ok (bucket last_checked batch_id : string) (dt : datetime)
    (tables uploaded : list string) (w : world) :
  fromisoformat last_checked = Some dt →
  (∀ c, fault w c = None) →
  (∀ t, t ∈ tables →
        let reply := db_select w (render (query_for t dt)) in
        forallb (λ r, bool_decide (length r = length reply.1)) reply.2 = true) →
  let m := for_in tables (extract_table bucket last_checked batch_id) uploaded in
  (m w).1 = Return (uploaded ++ changed_tables w last_checked tables)%list
  ∧ steady w (m w).2
  ∧ ∃ new,
      trace (m w).2 = (trace w ++ new)%list
      ∧ ssm_puts new = []
      ∧ s3_puts new
        = (λ t, artifact_path bucket t batch_id) <$> changed_tables w last_checked tables
      ∧ ∀ p, p ∉ s3_puts new → s3 (m w).2 !! p = s3 w !! p.
Proof.
  intros Hdt. cbv zeta. revert uploaded w.
  induction tables as [|t tables IH]; intros uploaded w Hf Hwf; cbn [for_in].
  - cbn. rewrite app_nil_r. split; [reflexivity|]. split; [apply steady_refl|].
    exists []. rewrite app_nil_r. repeat split.
  - rewrite bind_unfold.
    destruct (extract_table_run bucket last_checked batch_id t uploaded w)
      as (Hst & new1 & Ht1 & Hp1 & Hcase).
    cbv zeta in Hcase. rewrite Hdt, Hf in Hcase.
    assert (Hrows : new_rows_of w last_checked t = (db_select w (render (query_for t dt))).2)
      by (unfold new_rows_of; rewrite Hdt; reflexivity).
    unfold changed_tables. rewrite filter_cons. fold (changed_tables w last_checked tables).
    rewrite Hrows.
    specialize (Hwf t (list_elem_of_here _ _)) as Hwt. cbv zeta in Hwt.
    assert (Hwf' : ∀ t', t' ∈ tables →
              let reply := db_select w (render (query_for t' dt)) in
              forallb (λ r, bool_decide (length r = length reply.1)) reply.2 = true)
      by (intros t' Hin; apply Hwf; right; exact Hin).
    clear Hwf.
    destruct (extract_table bucket last_checked batch_id t uploaded w) as [r1 w1];
      cbn [fst snd] in *.
    assert (Hf1 : ∀ c, fault w1 c = None)
      by (intros c; rewrite (steady_fault _ _ Hst); apply Hf).
    assert (Hwf1 : ∀ t', t' ∈ tables →
              let reply := db_select w1 (render (query_for t' dt)) in
              forallb (λ r, bool_decide (length r = length reply.1)) reply.2 = true)
      by (intros t' Hin; rewrite (steady_select _ _ Hst); apply Hwf', Hin).
    destruct (decide ((db_select w (render (query_for t dt))).2 = [])) as [Hnil|Hne].
    + destruct Hcase as (-> & Hs1 & Hs3).
      rewrite decide_False by (intros Hc; apply Hc, Hnil).
      destruct (IH uploaded w1 Hf1 Hwf1) as (Hr & Hst2 & new2 & Ht2 & Hp2 & Hs2 & Hkeep).
      rewrite (changed_tables_steady _ _ _ _ Hst) in Hr, Hs2.
      split; [exact Hr|]. split; [eapply steady_trans; eassumption|].
      exists (new1 ++ new2)%list.
      split; [rewrite Ht2, Ht1, app_assoc; reflexivity|].
      split; [rewrite ssm_puts_app, Hp1, Hp2; reflexivity|].
      split; [rewrite s3_puts_app, Hs1, Hs2; reflexivity|].
      intros p Hp. rewrite s3_puts_app, Hs1 in Hp. rewrite (Hkeep p Hp), Hs3. reflexivity.
    + rewrite Hwt, Hf in Hcase. destruct Hcase as (Hs1 & -> & Hs3).
      rewrite decide_True by exact Hne.
      destruct (IH (uploaded ++ [t])%list w1 Hf1 Hwf1)
        as (Hr & Hst2 & new2 & Ht2 & Hp2 & Hs2 & Hkeep).
      rewrite (changed_tables_steady _ _ _ _ Hst) in Hr, Hs2.
      split; [rewrite Hr, <- app_assoc; reflexivity|].
      split; [eapply steady_trans; eassumption|].
      exists (new1 ++ new2)%list.
      split; [rewrite Ht2, Ht1, app_assoc; reflexivity|].
      split; [rewrite ssm_puts_app, Hp1, Hp2; reflexivity|].
      split; [rewrite s3_puts_app, Hs1, Hs2; reflexivity|].
      intros p Hp. rewrite s3_puts_app, Hs1 in Hp.
      rewrite (Hkeep p) by (intros Hin; apply Hp, elem_of_app; right; exact Hin).
      rewrite Hs3. apply lookup_insert_ne. intros <-. apply Hp, elem_of_app. left. left.
Qed.

Lemma after_bind_silent {A B} (m : M A) (f : A → M B) (w : world) (a : A)
    (Q : outcome B → world → Prop) :
  silent_m m → (m w).1 = Return a → (∀ w1, silent w w1 → after (f a) w1 Q) →
  after (m ≫= f) w Q.
Proof.
  intros Hs Hr Hk. unfold after. rewrite bind_unfold. specialize (Hs w).
  destruct (m w) as [r w1]. cbn [fst snd] in *. subst r. apply Hk, Hs.
Qed.

Lemma after_bind {A B} (m : M A) (f : A → M B) (w : world) (r1 : outcome A) (w1 : world)
    (Q : outcome B → world → Prop) :
  m w = (r1, w1) →
  match r1 with
  | Return a => after (f a) w1 Q
  | Raise e => Q (Raise e) w1
  end →
  after (m ≫= f) w Q.
Proof. intros E HQ. unfold after. rewrite bind_unfold, E. destruct r1; exact HQ. Qed.

Lemma after_bind_now {B} (f : string → M B) (w : world) (Q : outcome B → world → Prop) :
  after (f (clock w (ticks w))) (set_ticks (S (ticks w)) w) Q →
  after (_utc_now_iso ≫= f) w Q.
Proof. intros HQ. exact HQ. Qed.

Lemma after_ret {A} (a : A) (w : world) (Q : outcome A → world → Prop) :
  Q (Return a) w → after (mret a) w Q.
Proof. intros HQ. exact HQ. Qed.

Lemma after_try_finally_silent {A} (m : M A) (fin : M unit) (w : world)
    (Q : outcome A → world → Prop) :
  silent_m fin → (∀ w1, (fin w1).1 = Return ()) →
  after m w (λ r w1, ∀ w2, silent w1 w2 → Q r w2) →
  after (try_finally m fin) w Q.
Proof.
  intros Hs Hr HQ. unfold after, try_finally in *.
  destruct (m w) as [r w1]. cbn [fst snd] in HQ.
  specialize (Hs w1). specialize (Hr w1).
  destruct (fin w1) as [[[]|e] w2]; cbn [fst snd] in *; [|discriminate Hr].
  apply HQ, Hs.
Qed.

Lemma get_last_checked_returns (w : world) :
  fault w (SsmGet "last_checked") = None →
  (get_last_checked w).1
  = Return {[ "last_checked" := default DEFAULT_LAST_CHECKED (ssm_params w !! "last_checked") ]}.
Proof.
  intros Hf. unfold get_last_checked, ssm_get_parameter. run. rewrite Hf.
  destruct (ssm_params w !! "last_checked"); reflexivity.
Qed.

Lemma get_db_credentials_returns (w : world) (secret_name : string)
    (creds : gmap string pyval) :
  environ w !! "DB_SECRET_NAME" = Some secret_name → secret_name ≠ "" →
  fault w (SmGet secret_name) = None →
  sm_secrets w !! secret_name = Some (Some creds) →
  (get_db_credentials w).1 = Return creds.
Proof.
  intros He Hne Hf Hs. unfold get_db_credentials, environ_get, sm_get_secret_json.
  rewrite bind_unfold. rewrite He. cbn [str_truthy default].
  rewrite bool_decide_eq_false_2 by exact Hne. cbn [negb]. run.
  change (id secret_name) with secret_name. rewrite Hf, Hs. reflexivity.
Qed.

Lemma create_db_connection_returns (w : world) (creds : gmap string pyval) :
  (∀ k, k ∈ ["user"; "password"; "database"; "host"; "port"] → is_Some (creds !! k)) →
  fault w DbConnect = None →
  (create_db_connection creds w).1 = Return ().
Proof.
  intros Hk Hf. unfold create_db_connection, getitem, pg_connect.
  destruct (Hk "user") as [? ->]; [set_solver|].
  destruct (Hk "password") as [? ->]; [set_solver|].
  destruct (Hk "database") as [? ->]; [set_solver|].
  destruct (Hk "host") as [? ->]; [set_solver|].
  destruct (Hk "port") as [? ->]; [set_solver|].
  run. rewrite Hf. reflexivity.
Qed.

Lemma get_bucket_name_returns (w : world) (bucket : string) :
  environ w !! "S3_INGESTION_BUCKET" = Some bucket → bucket ≠ "" →
  (get_bucket_name w).1 = Return bucket.
Proof.
  intros He Hne. unfold get_bucket_name, environ_get.
  rewrite bind_unfold. rewrite He. cbn [str_truthy default].
  rewrite bool_decide_eq_false_2 by exact Hne. reflexivity.
Qed.

(** C5: in a cycle without faults, a table whose query returns no rows is
    not among the uploaded tables and no artifact is written for it, while
    the handler returns its success result and the watermark is advanced to
    the reading of the clock taken after the loop. *)
Theorem zero_rows_no_artifact (event : gmap string pyval) (context : unit) (w : world)
    (secret_name bucket : string) (creds : gmap string pyval) (dt : datetime) :
  let last_checked := default DEFAULT_LAST_CHECKED (ssm_params w !! "last_checked") in
  let batch_id := replace_char ":" "-" (clock w (ticks w)) in
  let r := lambda_handler event context w in
  (∀ c, fault w c = None) →
  environ w !! "DB_SECRET_NAME" = Some secret_name → secret_name ≠ "" →
  sm_secrets w !! secret_name = Some (Some creds) →
  (∀ k, k ∈ ["user"; "password"; "database"; "host"; "port"] → is_Some (creds !! k)) →
  environ w !! "S3_INGESTION_BUCKET" = Some bucket → bucket ≠ "" →
  fromisoformat last_checked = Some dt →
  (∀ t, t ∈ tables_to_import →
        let reply := db_select w (render (query_for t dt)) in
        forallb (λ r, bool_decide (length r = length reply.1)) reply.2 = true) →
  r.1 = Return {[ "message" := PStr "success";
                  "timestamp_to_transform" := PStr last_checked;
                  "batch_id" := PStr batch_id;
                  "uploaded_tables" :=
                    PStrList (changed_tables w last_checked tables_to_import) ]}
  ∧ ssm_params r.2 = <["last_checked":=clock w (S (ticks w))]> (ssm_params w)
  ∧ ∀ t, t ∈ tables_to_import → new_rows_of w last_checked t = [] →
         (t ∉ changed_tables w last_checked tables_to_import)
         ∧ (artifact_path bucket t batch_id ∉ s3_puts (drop (length (trace w)) (trace r.2)))
         ∧ s3 r.2 !! artifact_path bucket t batch_id = s3 w !! artifact_path bucket t batch_id.
Proof.
  intros last_checked batch_id r Hf Hsn Hsne Hsec Hkeys Hb Hbne Hdt Hwf.
  subst r.
  change (after (lambda_handler event context) w (λ r w',
    r = Return {[ "message" := PStr "success";
                  "timestamp_to_transform" := PStr last_checked;
                  "batch_id" := PStr batch_id;
                  "uploaded_tables" :=
                    PStrList (changed_tables w last_checked tables_to_import) ]}
    ∧ ssm_params w' = <["last_checked":=clock w (S (ticks w))]> (ssm_params w)
    ∧ ∀ t, t ∈ tables_to_import → new_rows_of w last_checked t = [] →
           (t ∉ changed_tables w last_checked tables_to_import)
           ∧ (artifact_path bucket t batch_id ∉ s3_puts (drop (length (trace w)) (trace w')))
           ∧ s3 w' !! artifact_path bucket t batch_id
             = s3 w !! artifact_path bucket t batch_id)).
  unfold lambda_handler.
  eapply after_bind_silent; [solve [eauto with keeps] | reflexivity | intros w1 S1].
  eapply after_bind_silent;
    [solve [eauto with keeps]
    | apply get_last_checked_returns; rewrite (silent_fault _ _ S1); apply Hf
    | intros w2 S2; pose proof (silent_trans _ _ _ S1 S2) as Sx;
      rewrite (silent_ssm _ _ S1); fold last_checked; clear S1 S2 w1].
  eapply after_bind_silent;
    [solve [eauto with keeps]
    | unfold getitem; rewrite lookup_singleton_eq; reflexivity
    | intros w3 S3; pose proof (silent_trans _ _ _ Sx S3) as Sy; clear Sx S3 w2].
  eapply after_bind_silent; [solve [eauto with keeps] | reflexivity
    | intros w4 S4; pose proof (silent_trans _ _ _ Sy S4) as Sx; clear Sy S4 w3].
  eapply after_bind_silent;
    [solve [eauto with keeps]
    | apply (get_db_credentials_returns _ secret_name creds);
        [rewrite (silent_environ _ _ Sx); exact Hsn | exact Hsne
        | rewrite (silent_fault _ _ Sx); apply Hf
        | rewrite (silent_secrets _ _ Sx); exact Hsec]
    | intros w5 S5; pose proof (silent_trans _ _ _ Sx S5) as Sy; clear Sx S5 w4].
  eapply after_bind_silent; [solve [eauto with keeps] | reflexivity
    | intros w6 S6; pose proof (silent_trans _ _ _ Sy S6) as Sx; clear Sy S6 w5].
  eapply after_bind_silent;
    [solve [eauto with keeps]
    | apply create_db_connection_returns;
        [exact Hkeys | rewrite (silent_fault _ _ Sx); apply Hf]
    | intros w7 S7; pose proof (silent_trans _ _ _ Sx S7) as Sy; clear Sx S7 w6].
  eapply after_bind_silent; [solve [eauto with keeps] | reflexivity
    | intros w8 S8; pose proof (silent_trans _ _ _ Sy S8) as Sx; clear Sy S8 w7].
  eapply after_bind_silent;
    [solve [eauto with keeps]
    | apply (get_bucket_name_returns _ bucket);
        [rewrite (silent_environ _ _ Sx); exact Hb | exact Hbne]
    | intros w9 S9; pose proof (silent_trans _ _ _ Sx S9) as Sy; clear Sx S9 w8].
  eapply after_bind_silent; [solve [eauto with keeps] | reflexivity
    | intros w10 S10; pose proof (silent_trans _ _ _ Sy S10) as Sx; clear Sy S10 w9].
  apply after_bind_now. cbv zeta.
  rewrite (silent_clock _ _ Sx), (silent_ticks _ _ Sx). fold batch_id.
  apply after_try_finally_silent;
    [apply silent_close_connection | apply close_connection_returns|].
  assert (Hf' : ∀ c, fault (set_ticks (S (ticks w)) w10) c = None)
    by (intros c; cbn [fault set_ticks]; rewrite (silent_fault _ _ Sx); apply Hf).
  assert (Hwf' : ∀ t, t ∈ tables_to_import →
            let reply := db_select (set_ticks (S (ticks w)) w10) (render (query_for t dt)) in
            forallb (λ r, bool_decide (length r = length reply.1)) reply.2 = true)
    by (intros t Hin; cbn [db_select set_ticks]; rewrite (silent_select _ _ Sx);
        apply Hwf, Hin).
  destruct (extract_loop_ok bucket last_checked batch_id dt tables_to_import []
              (set_ticks (S (ticks w)) w10) Hdt Hf' Hwf')
    as (Hr & Hst & new & Ht & Hp & Hs3 & Hkeep).
  assert (Hch : changed_tables (set_ticks (S (ticks w)) w10) last_checked tables_to_import
                = changed_tables w last_checked tables_to_import).
  { unfold changed_tables, new_rows_of. cbn [db_select set_ticks].
    rewrite (silent_select _ _ Sx). reflexivity. }
  rewrite Hch in Hr, Hs3. clear Hch.
  destruct (for_in tables_to_import _ [] _) as [r1 wl] eqn:El. cbn [fst snd] in *. subst r1.
  eapply after_bind; [exact El|]. cbn [app].
  apply after_bind_now.
  pose proof (update_last_checked_run (clock wl (ticks wl)) (set_ticks (S (ticks wl)) wl))
    as Hu.
  cbn [fault set_ticks ssm_params trace s3] in Hu.
  rewrite (steady_fault _ _ Hst), Hf' in Hu.
  destruct Hu as (wu & Eu & Hssm & Htu & Hs3u).
  eapply after_bind; [exact Eu|].
  eapply after_bind; [reflexivity|].
  apply after_ret. intros wc Sc.
  rewrite (steady_clock _ _ Hst), (steady_ticks _ _ Hst) in Hssm, Htu.
  cbn [clock ticks set_ticks] in Hssm, Htu.
  rewrite (silent_clock _ _ Sx) in Hssm, Htu.
  split; [reflexivity|].
  split.
  { rewrite (silent_ssm _ _ Sc). cbn [ssm_params add_log]. rewrite Hssm.
    rewrite (steady_ssm _ _ Hst). cbn [ssm_params set_ticks].
    rewrite (silent_ssm _ _ Sx). reflexivity. }
  intros t Hin Hzero.
  assert (Hnot : t ∉ changed_tables w last_checked tables_to_import).
  { unfold changed_tables. rewrite list_elem_of_filter. intros [Hne _]. apply Hne, Hzero. }
  split; [exact Hnot|].
  assert (Hpath : artifact_path bucket t batch_id ∉ s3_puts new).
  { rewrite Hs3. intros Hp'. apply list_elem_of_fmap in Hp' as (t' & E & Hin').
    apply artifact_path_inj in E. subst t'. apply Hnot, Hin'. }
  destruct Sx as [_ _ _ S3 _ _ _ _ (n0 & Ht0 & Hp0 & Hs0)].
  destruct Sc as [_ _ _ S3c _ _ _ _ (nc & Htc & Hpc & Hsc)].
  split.
  - rewrite Htc. cbn [trace add_log]. rewrite Htu, Ht. cbn [trace set_ticks]. rewrite Ht0.
    rewrite <- !app_assoc, drop_app_length.
    rewrite !s3_puts_app, Hs0, Hsc. cbn. rewrite app_nil_r. exact Hpath.
  - rewrite S3c. cbn [s3 add_log]. rewrite Hs3u. cbn [s3 set_ticks].
    rewrite (Hkeep _ Hpath). cbn [s3 set_ticks]. rewrite S3. reflexivity.
Qed.

(** *** What a cycle has written when it puts the watermark *)

(** A turn of the loop that returns, by the rows of the reply: without
    rows the object store is as before; with rows the artifact of the table
    was put, the store accepted it and holds the frame of the reply. *)
Lemma extract_table_returns (bucket last_checked batch_id table : string)
    (uploaded up : list string) (w w' : world) :
  extract_table bucket last_checked batch_id table uploaded w = (Return up, w') →
  let path := artifact_path bucket table batch_id in
  ∃ dt new,
    fromisoformat last_checked = Some dt
    ∧ steady w w'
    ∧ trace w' = (trace w ++ new)%list
    ∧ ssm_puts new = []
    ∧ let reply := db_select w (render (query_for table dt)) in
      if decide (reply.2 = []) then s3 w' = s3 w
      else path ∈ s3_puts new
           ∧ fault w (S3Put path) = None
           ∧ s3 w' = <[path:=mk_obj (mk_df reply.1 reply.2) (s3_clock w)]> (s3 w).
Proof.
  intros E. cbv zeta.
  destruct (extract_table_run bucket last_checked batch_id table uploaded w)
    as (Hst & new & Ht & Hp & Hcase).
  cbv zeta in Hcase. rewrite E in Hst, Ht, Hcase. cbn [fst snd] in *.
  destruct (fromisoformat last_checked) as [dt|];
    [|destruct Hcase as [[e0 He] _]; discriminate He].
  exists dt, new. split; [reflexivity|]. split; [exact Hst|]. split; [exact Ht|].
  split; [exact Hp|].
  destruct (fault w (DbRun _ _)); [destruct Hcase as [[e0 He] _]; discriminate He|].
  destruct (decide _) as [Hnil|Hne]; [destruct Hcase as (_ & _ & Hs); exact Hs|].
  destruct (forallb _ _); [|destruct Hcase as [[e0 He] _]; discriminate He].
  destruct Hcase as [Hs Hput].
  destruct (fault w (S3Put _)); [discriminate Hput|].
  destruct Hput as [_ Hs3].
  split; [rewrite Hs; left|]. split; [reflexivity | exact Hs3].
Qed.

(** A loop that returns: every object is as before or is the artifact of a
    table with new rows, and the artifact of every table with new rows was
    put, was accepted and is in the store. *)
Lemma extract_loop_written (bucket last_checked batch_id : string)
    (tables uploaded up : list string) (w w' : world) :
  for_in tables (extract_table bucket last_checked batch_id) uploaded w = (Return up, w') →
  (tables ≠ [] → is_Some (fromisoformat last_checked))
  ∧ (∀ p,
       s3 w' !! p = s3 w !! p
       ∨ ∃ t dt,
           t ∈ tables ∧ fromisoformat last_checked = Some dt
           ∧ p = artifact_path bucket t batch_id
           ∧ body <$> s3 w' !! p
             = Some (mk_df (db_select w (render (query_for t dt))).1
                           (db_select w (render (query_for t dt))).2))
  ∧ ∃ new,
      trace w' = (trace w ++ new)%list
      ∧ ∀ t dt, t ∈ tables → fromisoformat last_checked = Some dt →
          let reply := db_select w (render (query_for t dt)) in
          reply.2 ≠ [] →
          artifact_path bucket t batch_id ∈ s3_puts new
          ∧ fault w (S3Put (artifact_path bucket t batch_id)) = None
          ∧ body <$> s3 w' !! artifact_path bucket t batch_id = Some (mk_df reply.1 reply.2).
Proof.
  revert uploaded w. induction tables as [|t tables IH]; intros uploaded w; cbn [for_in].
  - intros [= <- <-]. split; [intros Hc; contradiction|]. split; [left; reflexivity|].
    exists []. rewrite app_nil_r. split; [reflexivity|]. intros t dt Hin. inversion Hin.
  - intros E. apply bind_inv_Return in E as (up1 & w1 & E1 & E).
    apply extract_table_returns in E1 as (dt & new1 & Hdt & Hst & Ht1 & _ & Hcase).
    cbv zeta in Hcase.
    destruct (IH up1 w1 E) as (_ & Hobj & new2 & Ht2 & Hput). clear IH E.
    rewrite (steady_select _ _ Hst), (steady_fault _ _ Hst) in *.
    (* the objects after the whole loop *)
    assert (Hall : ∀ p,
       s3 w' !! p = s3 w !! p
       ∨ ∃ t0 dt0,
           t0 ∈ t :: tables ∧ fromisoformat last_checked = Some dt0
           ∧ p = artifact_path bucket t0 batch_id
           ∧ body <$> s3 w' !! p
             = Some (mk_df (db_select w (render (query_for t0 dt0))).1
                           (db_select w (render (query_for t0 dt0))).2)).
    { intros p. destruct (Hobj p) as [Hsame | (t0 & dt0 & Hin & Hdt0 & -> & Hb)].
      - destruct (decide _) as [Hnil|Hne].
        + left. rewrite Hsame, Hcase. reflexivity.
        + destruct Hcase as (_ & _ & Hs1).
          destruct (decide (p = artifact_path bucket t batch_id)) as [->|Hp].
          * right. exists t, dt. split; [left|]. split; [exact Hdt|].
            split; [reflexivity|]. rewrite Hsame, Hs1, lookup_insert_eq. reflexivity.
          * left. rewrite Hsame, Hs1. apply lookup_insert_ne. intros Heq. apply Hp.
            symmetry. exact Heq.
      - right. exists t0, dt0. split; [right; exact Hin|]. split; [exact Hdt0|].
        split; [reflexivity | exact Hb]. }
    split; [intros _; rewrite Hdt; eauto|]. split; [exact Hall|].
    exists (new1 ++ new2)%list. split; [rewrite Ht2, Ht1, app_assoc; reflexivity|].
    intros t0 dt0 Hin Hdt0. cbv zeta. intros Hrows.
    rewrite Hdt in Hdt0. injection Hdt0 as <-.
    apply elem_of_cons in Hin as [->|Hin].
    + rewrite decide_False in Hcase by exact Hrows.
      destruct Hcase as (Hin1 & Hf1 & Hs1).
      split; [rewrite s3_puts_app; apply elem_of_app; left; exact Hin1|].
      split; [exact Hf1|].
      destruct (Hobj (artifact_path bucket t batch_id))
        as [Hsame | (t1 & dt1 & _ & Hdt1 & Hpath & Hb)].
      * rewrite Hsame, Hs1, lookup_insert_eq. reflexivity.
      * apply artifact_path_inj in Hpath. subst t1.
        rewrite Hdt in Hdt1. injection Hdt1 as <-. exact Hb.
    + destruct (Hput t0 dt Hin Hdt Hrows) as (Hin2 & Hf2 & Hb).
      split; [rewrite s3_puts_app; apply elem_of_app; right; exact Hin2|].
      split; assumption.
Qed.

(** The watermark read at the start of a cycle does not depend on what the
    run has logged. *)
Lemma get_last_checked_same (w w' : world) :
  ssm_params w' = ssm_params w → fault w' = fault w →
  (get_last_checked w').1 = (get_last_checked w).1.
Proof.
  intros Hs Hf. unfold get_last_checked, ssm_get_parameter. run. rewrite Hs, Hf.
  destruct (fault w _) as [e|]; run.
  - destruct (isinstance e ParameterNotFound); run; [reflexivity|].
    destruct (isinstance e ClientError); run; reflexivity.
  - destruct (ssm_params w !! _); reflexivity.
Qed.

Lemma get_last_checked_singleton (w w' : world) (d : gmap string string) :
  get_last_checked w = (Return d, w') → ∃ v, d = {[ "last_checked" := v ]}.
Proof.
  unfold get_last_checked, ssm_get_parameter. run.
  destruct (fault w _) as [e|]; run.
  - destruct (isinstance e ParameterNotFound); run; [intros [= <- _]; eauto|].
    destruct (isinstance e ClientError); run; intros E; discriminate E.
  - destruct (ssm_params w !! _); run; intros [= <- _]; eauto.
Qed.

Lemma get_bucket_name_inv (w w' : world) (bucket : string) :
  get_bucket_name w = (Return bucket, w') →
  environ w !! "S3_INGESTION_BUCKET" = Some bucket.
Proof.
  unfold get_bucket_name, environ_get. rewrite bind_unfold.
  destruct (environ w !! "S3_INGESTION_BUCKET") as [b|]; cbn [str_truthy];
    [|intros E; discriminate E].
  destruct (negb _); [intros E; discriminate E|].
  intros [= <- _]. reflexivity.
Qed.

Lemma update_last_checked_s3 (v : string) (w : world) :
  s3 (update_last_checked v w).2 = s3 w.
Proof.
  unfold update_last_checked, ssm_put_parameter. run.
  destruct (fault w _) as [e|]; run; [|reflexivity].
  destruct (isinstance e ClientError); run; reflexivity.
Qed.

Lemma after_bind_silent_run {A B} (m : M A) (f : A → M B) (w : world)
    (Q : outcome B → world → Prop) :
  silent_m m →
  (∀ e w1, silent w w1 → Q (Raise e) w1) →
  (∀ a w1, m w = (Return a, w1) → silent w w1 → after (f a) w1 Q) →
  after (m ≫= f) w Q.
Proof.
  intros Hs Hr Hk. unfold after. rewrite bind_unfold. specialize (Hs w).
  destruct (m w) as [[a|e] w1] eqn:E; cbn [fst snd] in *;
    [apply (Hk a w1 eq_refl Hs) | apply Hr, Hs].
Qed.

Lemma silent_puts (w w' : world) :
  silent w w' →
  ssm_puts (drop (length (trace w)) (trace w')) = []
  ∧ s3_puts (drop (length (trace w)) (trace w')) = [].
Proof.
  intros [_ _ _ _ _ _ _ _ (n & Ht & Hp & Hs)]. rewrite Ht, drop_app_length.
  split; assumption.
Qed.

(** The cycle, by its put of the watermark: a run that returns has put the
    reading of the clock taken after the loop; and in a run that puts the
    watermark, accepted or not, the artifact of every table with new rows
    since the watermark read at the start was put before, was accepted
    and is in the object store with the rows of the reply. *)
Lemma extract_handler_written (event : gmap string pyval) (context : unit) (w : world) :
  let r := lambda_handler event context w in
  let batch_id := replace_char ":" "-" (clock w (ticks w)) in
  let new := drop (length (trace w)) (trace r.2) in
  (∀ res, r.1 = Return res →
     ssm_puts new = [("last_checked", clock w (S (ticks w)))]
     ∧ ssm_params r.2 = <["last_checked":=clock w (S (ticks w))]> (ssm_params w))
  ∧ (ssm_puts new ≠ [] →
     ∃ bucket last_checked dt,
       environ w !! "S3_INGESTION_BUCKET" = Some bucket
       ∧ (get_last_checked w).1 = Return {[ "last_checked" := last_checked ]}
       ∧ fromisoformat last_checked = Some dt
       ∧ ∀ t, t ∈ tables_to_import →
           let reply := db_select w (render (query_for t dt)) in
           reply.2 ≠ [] →
           artifact_path bucket t batch_id ∈ s3_puts new
           ∧ fault w (S3Put (artifact_path bucket t batch_id)) = None
           ∧ body <$> s3 r.2 !! artifact_path bucket t batch_id
             = Some (mk_df reply.1 reply.2)).
Proof.
  cbv zeta.
  set (batch_id := replace_char ":" "-" (clock w (ticks w))).
  set (Q := λ (r : outcome (gmap string pyval)) (w' : world),
    (∀ res, r = Return res →
       ssm_puts (drop (length (trace w)) (trace w'))
       = [("last_checked", clock w (S (ticks w)))]
       ∧ ssm_params w' = <["last_checked":=clock w (S (ticks w))]> (ssm_params w))
    ∧ (ssm_puts (drop (length (trace w)) (trace w')) ≠ [] →
       ∃ bucket last_checked dt,
         environ w !! "S3_INGESTION_BUCKET" = Some bucket
         ∧ (get_last_checked w).1 = Return {[ "last_checked" := last_checked ]}
         ∧ fromisoformat last_checked = Some dt
         ∧ ∀ t, t ∈ tables_to_import →
             let reply := db_select w (render (query_for t dt)) in
             reply.2 ≠ [] →
             artifact_path bucket t batch_id
               ∈ s3_puts (drop (length (trace w)) (trace w'))
             ∧ fault w (S3Put (artifact_path bucket t batch_id)) = None
             ∧ body <$> s3 w' !! artifact_path bucket t batch_id
               = Some (mk_df reply.1 reply.2))).
  change (after (lambda_handler event context) w Q).
  assert (Hquiet : ∀ e w1, silent w w1 → Q (Raise e) w1).
  { intros e w1 S1. split; [intros res Hc; discriminate Hc|].
    intros Hc. exfalso. apply Hc. apply (silent_puts _ _ S1). }
  unfold lambda_handler.
  eapply after_bind_silent_run; [solve [eauto with keeps] | exact Hquiet | intros [] w1 _ S1].
  eapply after_bind_silent_run; [solve [eauto with keeps] | |intros d w2 E2 S2].
  { intros e w2 S2. apply Hquiet. eapply silent_trans; eassumption. }
  pose proof (silent_trans _ _ _ S1 S2) as Sx.
  destruct (get_last_checked_singleton _ _ _ E2) as [lc ->].
  assert (Hlc : (get_last_checked w).1 = Return {[ "last_checked" := lc ]}).
  { rewrite <- (get_last_checked_same w w1 (silent_ssm _ _ S1) (silent_fault _ _ S1)), E2.
    reflexivity. }
  clear E2 S1 S2 w1.
  eapply after_bind_silent_run; [solve [eauto with keeps] | |intros last_checked w3 E3 S3].
  { intros e w3 S3. apply Hquiet. eapply silent_trans; eassumption. }
  pose proof (silent_trans _ _ _ Sx S3) as Sy.
  assert (last_checked = lc) as ->.
  { revert E3. unfold getitem. rewrite lookup_singleton_eq. intros [= -> _]. reflexivity. }
  clear E3 Sx S3 w2.
  eapply after_bind_silent_run; [solve [eauto with keeps] | |intros [] w4 _ S4].
  { intros e w4 S4. apply Hquiet. eapply silent_trans; eassumption. }
  pose proof (silent_trans _ _ _ Sy S4) as Sx. clear Sy S4 w3.
  eapply after_bind_silent_run; [solve [eauto with keeps] | |intros creds w5 _ S5].
  { intros e w5 S5. apply Hquiet. eapply silent_trans; eassumption. }
  pose proof (silent_trans _ _ _ Sx S5) as Sy. clear Sx S5 w4.
  eapply after_bind_silent_run; [solve [eauto with keeps] | |intros [] w6 _ S6].
  { intros e w6 S6. apply Hquiet. eapply silent_trans; eassumption. }
  pose proof (silent_trans _ _ _ Sy S6) as Sx. clear Sy S6 w5.
  eapply after_bind_silent_run; [solve [eauto with keeps] | |intros [] w7 _ S7].
  { intros e w7 S7. apply Hquiet. eapply silent_trans; eassumption. }
  pose proof (silent_trans _ _ _ Sx S7) as Sy. clear Sx S7 w6.
  eapply after_bind_silent_run; [solve [eauto with keeps] | |intros [] w8 _ S8].
  { intros e w8 S8. apply Hquiet. eapply silent_trans; eassumption. }
  pose proof (silent_trans _ _ _ Sy S8) as Sx. clear Sy S8 w7.
  eapply after_bind_silent_run; [solve [eauto with keeps] | |intros bucket w9 E9 S9].
  { intros e w9 S9. apply Hquiet. eapply silent_trans; eassumption. }
  pose proof (silent_trans _ _ _ Sx S9) as Sy.
  apply get_bucket_name_inv in E9. rewrite (silent_environ _ _ Sx) in E9.
  clear Sx S9 w8.
  eapply after_bind_silent_run; [solve [eauto with keeps] | |intros [] w10 _ S10].
  { intros e w10 S10. apply Hquiet. eapply silent_trans; eassumption. }
  pose proof (silent_trans _ _ _ Sy S10) as Sx. clear Sy S10 w9.
  apply after_bind_now. cbv zeta.
  rewrite (silent_clock _ _ Sx), (silent_ticks _ _ Sx). fold batch_id.
  apply after_try_finally_silent;
    [apply silent_close_connection | apply close_connection_returns|].
  (* the loop *)
  pose proof (extract_loop_puts bucket lc batch_id tables_to_import []
                (set_ticks (S (ticks w)) w10)) as Hloop.
  cbv zeta in Hloop. destruct Hloop as (Hst & newl & Htl & Hpl & _).
  destruct (for_in tables_to_import _ [] _) as [[up|e] wl] eqn:El; cbn [fst snd] in *;
    (eapply after_bind; [exact El|]).
  2: { (* the loop raised: no put of the watermark *)
    intros wc Sc. split; [intros res Hc; discriminate Hc|].
    intros Hc. exfalso. apply Hc.
    destruct Sx as [_ _ _ _ _ _ _ _ (n0 & Ht0 & Hp0 & _)].
    destruct Sc as [_ _ _ _ _ _ _ _ (nc & Htc & Hpc & _)].
    rewrite Htc, Htl. cbn [trace set_ticks]. rewrite Ht0, <- !app_assoc, drop_app_length.
    rewrite !ssm_puts_app, Hp0, Hpl, Hpc. reflexivity. }
  apply extract_loop_written in El as (Hiso & _ & newl' & Htl' & Hwritten).
  rewrite Htl in Htl'. apply app_inv_head in Htl'. subst newl'.
  destruct Hiso as [dt Hdt]; [discriminate|].
  cbn [db_select fault set_ticks] in Hwritten.
  rewrite (silent_select _ _ Sx), (silent_fault _ _ Sx) in Hwritten.
  apply after_bind_now.
  rewrite (steady_clock _ _ Hst), (steady_ticks _ _ Hst).
  cbn [clock ticks set_ticks]. rewrite (silent_clock _ _ Sx).
  pose proof (update_last_checked_run (clock wl (ticks wl)) (set_ticks (S (ticks wl)) wl))
    as Hu.
  pose proof (update_last_checked_s3 (clock wl (ticks wl)) (set_ticks (S (ticks wl)) wl))
    as Hus3.
  cbn [fault set_ticks ssm_params trace s3] in Hu, Hus3.
  rewrite (steady_clock _ _ Hst), (steady_ticks _ _ Hst) in Hu, Hus3.
  cbn [clock ticks set_ticks] in Hu, Hus3.
  rewrite (silent_clock _ _ Sx) in Hu, Hus3.
  (* what holds once the put was attempted *)
  assert (Hdone : ∀ wu wc,
    trace wu = (trace wl ++ [SsmPut "last_checked" (clock w (S (ticks w)))])%list →
    s3 wu = s3 wl → s3 wc = s3 wu →
    (∃ nc, trace wc = (trace wu ++ nc)%list ∧ ssm_puts nc = [] ∧ s3_puts nc = []) →
    ssm_puts (drop (length (trace w)) (trace wc))
    = [("last_checked", clock w (S (ticks w)))]
    ∧ ∃ bucket0 last_checked dt0,
        environ w !! "S3_INGESTION_BUCKET" = Some bucket0
        ∧ (get_last_checked w).1 = Return {[ "last_checked" := last_checked ]}
        ∧ fromisoformat last_checked = Some dt0
        ∧ ∀ t, t ∈ tables_to_import →
            let reply := db_select w (render (query_for t dt0)) in
            reply.2 ≠ [] →
            artifact_path bucket0 t batch_id
              ∈ s3_puts (drop (length (trace w)) (trace wc))
            ∧ fault w (S3Put (artifact_path bucket0 t batch_id)) = None
            ∧ body <$> s3 wc !! artifact_path bucket0 t batch_id
              = Some (mk_df reply.1 reply.2)).
  { intros wu wc Htu Hsu Hsc (nc & Htc & Hpc & Hsc3).
    destruct Sx as [_ _ _ _ _ _ _ _ (n0 & Ht0 & Hp0 & Hs0)].
    assert (Htr : drop (length (trace w)) (trace wc)
                  = (n0 ++ newl ++ [SsmPut "last_checked" (clock w (S (ticks w)))] ++ nc)%list).
    { rewrite Htc, Htu, Htl. cbn [trace set_ticks]. rewrite Ht0, <- !app_assoc.
      rewrite drop_app_length. reflexivity. }
    rewrite Htr. split.
    { rewrite !ssm_puts_app, Hp0, Hpl, Hpc. reflexivity. }
    exists bucket, lc, dt. split; [exact E9|]. split; [exact Hlc|]. split; [exact Hdt|].
    intros t Hin. cbv zeta. intros Hrows.
    destruct (Hwritten t dt Hin Hdt Hrows) as (Hput & Hf & Hb).
    split; [rewrite !s3_puts_app; apply elem_of_app; right; apply elem_of_app; left;
            exact Hput|].
    split; [exact Hf|]. rewrite Hsc, Hsu. exact Hb. }
  destruct (fault wl _) as [e|].
  - destruct Hu as (wu & Eu & Hssm & Htu).
    eapply after_bind; [exact Eu|]. intros wc Sc.
    split; [intros res Hc; discriminate Hc|]. intros _.
    rewrite Eu in Hus3. cbn [snd] in Hus3.
    apply (Hdone wu wc Htu Hus3 (silent_s3 _ _ Sc)).
    destruct Sc as [_ _ _ _ _ _ _ _ Hc]. exact Hc.
  - destruct Hu as (wu & Eu & Hssm & Htu & Hs3u).
    eapply after_bind; [exact Eu|].
    eapply after_bind; [reflexivity|].
    apply after_ret. intros wc Sc.
    assert (Hd : ∃ nc, trace wc = (trace wu ++ nc)%list ∧ ssm_puts nc = [] ∧ s3_puts nc = []).
    { destruct Sc as [_ _ _ _ _ _ _ _ (nc & Htc & Hpc & Hsc)].
      exists nc. cbn [trace add_log] in Htc. split; [exact Htc|]. split; assumption. }
    pose proof (silent_s3 _ _ Sc) as Hsc. cbn [s3 add_log] in Hsc.
    destruct (Hdone wu wc Htu Hs3u Hsc Hd) as [Hput Hart].
    split.
    + intros res _. split; [exact Hput|].
      rewrite (silent_ssm _ _ Sc). cbn [ssm_params add_log]. rewrite Hssm.
      rewrite (steady_ssm _ _ Hst). cbn [ssm_params set_ticks].
      destruct Sx as [_ Hs _ _ _ _ _ _ _]. rewrite Hs. reflexivity.
    + intros _. exact Hart.
Qed.

(** C3: the watermark is put only after the artifacts of the changed
    tables are written.  The calls of a cycle split in a first part without
    a put of the watermark and a second part without a write to the object
    store; when the object store refuses the write of an artifact, the
    handler raises that exception; whenever the handler raises, the stored
    watermark is the one from before; a cycle that returns has put the
    reading of the clock taken after the loop; and when the watermark is
    put, accepted or not, the artifact of every table with new rows since
    the watermark read at the start was written in the first part: the
    object store accepted it and holds, at the path of the table in the
    batch, the labels and rows of the reply. *)
Theorem watermark_persisted_last (event : gmap string pyval) (context : unit) (w : world) :
  let r := lambda_handler event context w in
  let batch_id := replace_char ":" "-" (clock w (ticks w)) in
  ∃ before after,
    trace r.2 = (trace w ++ before ++ after)%list
    ∧ ssm_puts before = []
    ∧ s3_puts after = []
    ∧ (∀ p e, p ∈ s3_puts before → fault w (S3Put p) = Some e → r.1 = Raise e)
    ∧ (∀ e, r.1 = Raise e → ssm_params r.2 = ssm_params w)
    ∧ (∀ res, r.1 = Return res →
         ssm_puts after = [("last_checked", clock w (S (ticks w)))]
         ∧ ssm_params r.2 = <["last_checked":=clock w (S (ticks w))]> (ssm_params w))
    ∧ (ssm_puts after ≠ [] →
       ∃ bucket last_checked dt,
         environ w !! "S3_INGESTION_BUCKET" = Some bucket
         ∧ (get_last_checked w).1 = Return {[ "last_checked" := last_checked ]}
         ∧ fromisoformat last_checked = Some dt
         ∧ ∀ t, t ∈ tables_to_import →
             let reply := db_select w (render (query_for t dt)) in
             reply.2 ≠ [] →
             artifact_path bucket t batch_id ∈ s3_puts before
             ∧ fault w (S3Put (artifact_path bucket t batch_id)) = None
             ∧ body <$> s3 r.2 !! artifact_path bucket t batch_id
               = Some (mk_df reply.1 reply.2)).
Proof.
  cbv zeta.
  destruct (extract_handler_guarded event context w)
    as (before & after & Ht & Hp & Hs & Hput & Hraise).
  pose proof (extract_handler_written event context w) as Hw. cbv zeta in Hw.
  rewrite Ht, drop_app_length, ssm_puts_app, s3_puts_app, Hp, Hs, app_nil_r in Hw.
  destruct Hw as [Hret Hart].
  exists before, after. split; [exact Ht|]. split; [exact Hp|]. split; [exact Hs|].
  split; [exact Hput|]. split; [exact Hraise|]. split; [exact Hret | exact Hart].
Qed.

End extract_cycle.

(** Witness of C5: the run in which only address has new rows; currency,
    with none, gets no artifact, and the watermark moves to the second
    reading of the clock. *)
Lemma zero_rows_no_artifact_witness :
  let w := Fake.world_one_address in
  let r := Extract.lambda_handler (H:=Fake.pg8000) (H0:=Fake.py_datetime) ∅ () w in
  ∃ res,
    r.1 = Return res
    ∧ ssm_params r.2 !! "last_checked" = Some (clock w (S (ticks w)))
    ∧ s3 r.2 !! artifact_path "ingest" "currency" (replace_char ":" "-" (clock w (ticks w)))
      = None.
Proof.
  cbv zeta.
  pose proof (zero_rows_no_artifact (H:=Fake.pg8000) (H0:=Fake.py_datetime) ∅ ()
                Fake.world_one_address "totesys" "ingest" Fake.creds
                (mk_datetime (mk_date 2025 1 1) 0 (Some 0))) as HH.
  cbv zeta in HH.
  assert (H1 : ∀ c, fault Fake.world_one_address c = None) by (intros c; reflexivity).
  specialize (HH H1).
  assert (H2 : environ Fake.world_one_address !! "DB_SECRET_NAME" = Some "totesys")
    by (vm_compute; reflexivity).
  specialize (HH H2).
  assert (H3 : "totesys" ≠ "") by discriminate.
  specialize (HH H3).
  assert (H4 : sm_secrets Fake.world_one_address !! "totesys" = Some (Some Fake.creds))
    by (vm_compute; reflexivity).
  specialize (HH H4).
  assert (H5 : ∀ k, k ∈ ["user"; "password"; "database"; "host"; "port"] →
                    is_Some (Fake.creds !! k)).
  { intros k Hk. repeat (apply elem_of_cons in Hk as [->|Hk]); try (vm_compute; eauto).
    inversion Hk. }
  specialize (HH H5).
  assert (H6 : environ Fake.world_one_address !! "S3_INGESTION_BUCKET" = Some "ingest")
    by (vm_compute; reflexivity).
  specialize (HH H6).
  assert (H7 : "ingest" ≠ "") by discriminate.
  specialize (HH H7).
  assert (H8 : fromisoformat (PyDatetime:=Fake.py_datetime)
                 (default Extract.DEFAULT_LAST_CHECKED
                    (ssm_params Fake.world_one_address !! "last_checked"))
               = Some (mk_datetime (mk_date 2025 1 1) 0 (Some 0)))
    by (vm_compute; reflexivity).
  specialize (HH H8).
  assert (H9 : ∀ t, t ∈ Extract.tables_to_import →
            let reply :=
              db_select Fake.world_one_address
                (render (H:=Fake.pg8000)
                   (Extract.query_for t (mk_datetime (mk_date 2025 1 1) 0 (Some 0)))) in
            forallb (λ r, bool_decide (length r = length reply.1)) reply.2 = true).
  { intros t Ht. repeat (apply elem_of_cons in Ht as [->|Ht]); try (vm_compute; reflexivity).
    inversion Ht. }
  specialize (HH H9).
  destruct HH as (Hr & Hssm & Hz).
  assert (Hin : "currency" ∈ Extract.tables_to_import)
    by (apply (bool_decide_unpack _); vm_compute; exact I).
  assert (Hzero : new_rows_of (H:=Fake.pg8000) (H0:=Fake.py_datetime) Fake.world_one_address
                    (default Extract.DEFAULT_LAST_CHECKED
                       (ssm_params Fake.world_one_address !! "last_checked")) "currency" = [])
    by (vm_compute; reflexivity).
  destruct (Hz "currency" Hin Hzero) as (_ & _ & Hs).
  eexists. split; [exact Hr|]. split.
  - rewrite Hssm. apply lookup_insert_eq.
  - rewrite Hs. vm_compute. reflexivity.
Defined.

(** Witness of C3: the run in which only address has new rows: the cycle
    returns, the watermark is put, and the artifact of address is in the
    object store with the row of the reply. *)
Lemma watermark_persisted_last_witness :
  let w := Fake.world_one_address in
  let r := Extract.lambda_handler (H:=Fake.pg8000) (H0:=Fake.py_datetime) ∅ () w in
  ssm_params r.2 !! "last_checked" = Some "2025-06-01T12:00:05+00:00"
  ∧ body <$> s3 r.2 !! artifact_path "ingest" "address" "2025-06-01T12-00-00+00-00"
    = Some (mk_df ["address_id"; "city"] [[VInt 1; VStr "Leeds"]]).
Proof.
  cbv zeta.
  pose proof (watermark_persisted_last (H:=Fake.pg8000) (H0:=Fake.py_datetime) ∅ ()
                Fake.world_one_address) as HH.
  cbv zeta in HH. destruct HH as (before & after & _ & _ & _ & _ & _ & Hret & Hart).
  assert (Hr : (Extract.lambda_handler (H:=Fake.pg8000) (H0:=Fake.py_datetime) ∅ ()
                  Fake.world_one_address).1 = Return Fake.handoff)
    by (vm_compute; reflexivity).
  destruct (Hret _ Hr) as [Hput Hssm].
  split; [rewrite Hssm; apply lookup_insert_eq|].
  destruct Hart as (bucket & lc & dt & Hb & Hlc & Hdt & Hall);
    [rewrite Hput; discriminate|].
  assert (Hb' : environ Fake.world_one_address !! "S3_INGESTION_BUCKET" = Some "ingest")
    by (vm_compute; reflexivity).
  rewrite Hb' in Hb. injection Hb as <-.
  assert (Hlc' : (Extract.get_last_checked Fake.world_one_address).1
                 = Return {[ "last_checked" := Fake.watermark ]})
    by (vm_compute; reflexivity).
  pose (stored := λ r : outcome (gmap string string),
          match r with Return m => m !! "last_checked" | Raise _ => None end).
  assert (Hk : stored (Return {[ "last_checked" := Fake.watermark ]})
               = stored (Return {[ "last_checked" := lc ]}))
    by (rewrite <- Hlc, Hlc'; reflexivity).
  unfold stored in Hk. rewrite !lookup_singleton_eq in Hk. injection Hk as <-.
  clear stored Hlc Hlc'.
  assert (Hdt' : fromisoformat (PyDatetime:=Fake.py_datetime) Fake.watermark
                 = Some (mk_datetime (mk_date 2025 1 1) 0 (Some 0)))
    by (vm_compute; reflexivity).
  rewrite Hdt' in Hdt. injection Hdt as <-.
  assert (Hin : "address" ∈ Extract.tables_to_import)
    by (apply (bool_decide_unpack _); vm_compute; exact I).
  destruct (Hall "address" Hin) as (_ & _ & Hbody); [vm_compute; discriminate|].
  assert (Hp : artifact_path "ingest" "address" "2025-06-01T12-00-00+00-00"
               = artifact_path "ingest" "address"
                   (replace_char ":" "-"
                      (clock Fake.world_one_address (ticks Fake.world_one_address))))
    by (vm_compute; reflexivity).
  rewrite Hp, Hbody. vm_compute. reflexivity.
Defined.

(** ** The builders of the transformer *)

Section builders.
Context `{Pandas}.
Import Transform.

(** An object that is not there: the existence check answers [False]. *)
Lemma check_file_exists_absent (bucket key : string) (w : world) :
  fault w (S3Head bucket key) = None →
  s3 w !! s3_url bucket key = None →
  check_file_exists bucket key w = (Return false, add_trace (S3Head bucket key) w).
Proof.
  intros Hf Hs. unfold check_file_exists, s3_head_object. run.
  rewrite Hf, Hs. reflexivity.
Qed.

(** When the artifact of its own table is absent, a builder logs and
    returns; its only call to the object store is the existence check. *)
Lemma fact_sales_order_absent (ts ingestion processed : string) (w : world) :
  fault w (S3Head ingestion ("sales_order/" +:+ ts +:+ ".csv")) = None →
  s3 w !! s3_url ingestion ("sales_order/" +:+ ts +:+ ".csv") = None →
  fact_sales_order ts ingestion processed w
  = (Return (), add_log (INFO, "No sales_order file found")
                  (add_trace (S3Head ingestion ("sales_order/" +:+ ts +:+ ".csv")) w)).
Proof.
  intros Hf Hs. unfold fact_sales_order. cbv zeta.
  rewrite bind_unfold, (check_file_exists_absent _ _ _ Hf Hs). reflexivity.
Qed.

Lemma dim_currency_absent (ts ingestion processed : string) (w : world) :
  fault w (S3Head ingestion ("currency/" +:+ ts +:+ ".csv")) = None →
  s3 w !! s3_url ingestion ("currency/" +:+ ts +:+ ".csv") = None →
  dim_currency ts ingestion processed w
  = (Return (), add_log (INFO, "No currency file found")
                  (add_trace (S3Head ingestion ("currency/" +:+ ts +:+ ".csv")) w)).
Proof.
  intros Hf Hs. unfold dim_currency. cbv zeta.
  rewrite bind_unfold, (check_file_exists_absent _ _ _ Hf Hs). reflexivity.
Qed.

Lemma dim_location_absent (ts ingestion processed : string) (w : world) :
  fault w (S3Head ingestion ("address/" +:+ ts +:+ ".csv")) = None →
  s3 w !! s3_url ingestion ("address/" +:+ ts +:+ ".csv") = None →
  dim_location ts ingestion processed w
  = (Return (), add_log (INFO, "No address file found")
                  (add_trace (S3Head ingestion ("address/" +:+ ts +:+ ".csv")) w)).
Proof.
  intros Hf Hs. unfold dim_location. cbv zeta.
  rewrite bind_unfold, (check_file_exists_absent _ _ _ Hf Hs). reflexivity.
Qed.

Lemma dim_design_absent (ts ingestion processed : string) (w : world) :
  fault w (S3Head ingestion ("design/" +:+ ts +:+ ".csv")) = None →
  s3 w !! s3_url ingestion ("design/" +:+ ts +:+ ".csv") = None →
  dim_design ts ingestion processed w
  = (Return (), add_log (INFO, "No design file found")
                  (add_trace (S3Head ingestion ("design/" +:+ ts +:+ ".csv")) w)).
Proof.
  intros Hf Hs. unfold dim_design. cbv zeta.
  rewrite bind_unfold, (check_file_exists_absent _ _ _ Hf Hs). reflexivity.
Qed.

Lemma dim_staff_absent (ts ingestion processed : string) (w : world) :
  fault w (S3Head ingestion ("staff/" +:+ ts +:+ ".csv")) = None →
  s3 w !! s3_url ingestion ("staff/" +:+ ts +:+ ".csv") = None →
  dim_staff ts ingestion processed w
  = (Return (), add_log (INFO, "No staff file found")
                  (add_trace (S3Head ingestion ("staff/" +:+ ts +:+ ".csv")) w)).
Proof.
  intros Hf Hs. unfold dim_staff. cbv zeta.
  rewrite bind_unfold, (check_file_exists_absent _ _ _ Hf Hs). reflexivity.
Qed.

Lemma dim_counterparty_absent (ts ingestion processed : string) (w : world) :
  fault w (S3Head ingestion ("counterparty/" +:+ ts +:+ ".csv")) = None →
  s3 w !! s3_url ingestion ("counterparty/" +:+ ts +:+ ".csv") = None →
  dim_counterparty ts ingestion processed w
  = (Return (), add_log (INFO, "No counterparty file found")
                  (add_trace (S3Head ingestion ("counterparty/" +:+ ts +:+ ".csv")) w)).
Proof.
  intros Hf Hs. unfold dim_counterparty. cbv zeta.
  rewrite bind_unfold, (check_file_exists_absent _ _ _ Hf Hs). reflexivity.
Qed.

(** *** The date dimension *)





Lemma calendar_length :
  length (rows (calendar calendar_start calendar_end)) = 4018%nat.
Proof. vm_compute. reflexivity. Qed.





End builders.



(** ** The loader *)

Section loader.
Context `{Pg8000, PandasWhere}.
Import Load.

Lemma silent_load_table (bucket ts : string) (entry : string * string) (loaded : list string) :
  silent_m (load_table bucket ts entry loaded).
Proof.
  destruct entry as [prefix target].
  unfold load_table, s3_object_exists, truncate_table, insert_dataframe. solve_keeps.
Qed.

Lemma silent_load_dim_date (bucket : string) (loaded : list string) :
  silent_m (load_dim_date bucket loaded).
Proof.
  unfold load_dim_date, s3_object_exists, truncate_table, insert_dataframe. solve_keeps.
Qed.

Lemma silent_load_credentials : silent_m Load.get_db_credentials.
Proof. unfold Load.get_db_credentials. solve_keeps. Qed.

Lemma silent_load_connection (creds : gmap string pyval) :
  silent_m (Load.create_db_connection creds).
Proof. unfold Load.create_db_connection, py_int. solve_keeps. Qed.

Lemma silent_load_close : silent_m Load.close_connection.
Proof. unfold Load.close_connection. solve_keeps. Qed.

Lemma load_close_returns (w : world) : (Load.close_connection w).1 = Return ().
Proof.
  unfold Load.close_connection, conn_close. run.
  destruct (fault w DbClose) as [e|]; run; [|reflexivity].
  rewrite isinstance_Exception. reflexivity.
Qed.

(** *** Beside a table *)

Lemma beside_truncate_table (table other : string) :
  other ≠ table → keeps (beside table) (truncate_table other).
Proof.
  intros Hne. unfold truncate_table.
  assert (keeps (beside table) (conn_run (SqlTruncate other))).
  { apply beside_conn_run. cbn. rewrite bool_decide_eq_false_2 by exact Hne. reflexivity. }
  solve_keeps.
Qed.

Lemma beside_insert_dataframe (table other : string) (df : option DataFrame) :
  other ≠ table → keeps (beside table) (insert_dataframe other df).
Proof.
  intros Hne. unfold insert_dataframe.
  assert (∀ cols row, keeps (beside table) (conn_run (SqlInsert other cols row))).
  { intros cols row. apply beside_conn_run. cbn.
    rewrite bool_decide_eq_false_2 by exact Hne. reflexivity. }
  solve_keeps.
Qed.

Lemma beside_load_table (table bucket ts prefix other : string) (loaded : list string) :
  other ≠ table → keeps (beside table) (load_table bucket ts (prefix, other) loaded).
Proof.
  intros Hne. unfold load_table, s3_object_exists.
  pose proof (beside_truncate_table table other Hne).
  pose proof (λ df, beside_insert_dataframe table other df Hne) as Hi.
  solve_keeps.
Qed.

Lemma beside_load_dim_date (table bucket : string) (loaded : list string) :
  table ≠ "dim_date" → keeps (beside table) (load_dim_date bucket loaded).
Proof.
  intros Hne. unfold load_dim_date, s3_object_exists.
  assert (Hne' : "dim_date" ≠ table) by (intros E; apply Hne; symmetry; exact E).
  pose proof (beside_truncate_table table "dim_date" Hne').
  pose proof (λ df, beside_insert_dataframe table "dim_date" df Hne') as Hi.
  solve_keeps.
Qed.

Lemma beside_load_credentials (table : string) : keeps (beside table) Load.get_db_credentials.
Proof. unfold Load.get_db_credentials. solve_keeps. Qed.

Lemma beside_load_connection (table : string) (creds : gmap string pyval) :
  keeps (beside table) (Load.create_db_connection creds).
Proof. unfold Load.create_db_connection, py_int. solve_keeps. Qed.

Lemma beside_load_close (table : string) : keeps (beside table) Load.close_connection.
Proof. unfold Load.close_connection. solve_keeps. Qed.

(** *** The load of one table *)

(** An absent object is never reported as found. *)
Lemma s3_object_exists_absent (bucket key : string) (found : bool) (w w' : world) :
  s3 w !! s3_url bucket key = None →
  s3_object_exists bucket key w = (Return found, w') → found = false.
Proof.
  intros Hs. unfold s3_object_exists, s3_head_object. run. rewrite Hs.
  destruct (fault w _) as [e|]; run.
  - destruct (isinstance e ClientError); run; [|intros E; discriminate E].
    case_bool_decide; intros E; [injection E as <- _; reflexivity | discriminate E].
  - intros E. injection E as <- _. reflexivity.
Qed.

Lemma s3_object_exists_present (bucket key : string) (o : s3_object) (w : world) :
  fault w (S3Head bucket key) = None →
  s3 w !! s3_url bucket key = Some o →
  s3_object_exists bucket key w = (Return true, add_trace (S3Head bucket key) w).
Proof.
  intros Hf Hs. unfold s3_object_exists, s3_head_object. run. rewrite Hf, Hs. reflexivity.
Qed.

Lemma beside_s3_object_exists (table bucket key : string) :
  keeps (beside table) (s3_object_exists bucket key).
Proof. unfold s3_object_exists. solve_keeps. Qed.

(** A read that returns gives the stored frame. *)
Lemma s3_read_returns (path : string) (df : DataFrame) (w w' : world) :
  s3_read path w = (Return df, w') →
  w' = add_trace (S3Get path) w ∧ body <$> s3 w !! path = Some df.
Proof.
  unfold s3_read. destruct (startswith path "s3://"); [|intros E; discriminate E].
  run. destruct (fault w _); [intros E; discriminate E|].
  destruct (s3 w !! path) as [o|]; intros E; [|discriminate E].
  injection E as <- <-. split; reflexivity.
Qed.

(** A truncation that returns has emptied the table. *)
Lemma truncate_table_returns (table : string) (w w' : world) :
  truncate_table table w = (Return (), w') →
  db_tables w' !! table = Some []
  ∧ trace w' = (trace w ++ [DbRun (SqlTruncate table) (render (SqlTruncate table))])%list.
Proof.
  unfold truncate_table, conn_run. run.
  destruct (fault w _) as [e|]; run.
  - destruct (isinstance e DatabaseError); run; intros E; discriminate E.
  - destruct (db_tables w !! table); run; intros E; [|discriminate E].
    injection E as <-. cbn. rewrite lookup_insert_eq. split; reflexivity.
Qed.

(** The row-by-row insertion: when it returns, every row was sent, in
    order, and appended to the table. *)
Lemma insert_rows_returns (table : string) (cols : list string) (rs : list (list value))
    (n n' : nat) (w w' : world) (old : list (list string * list value)) :
  for_in rs (λ row row_count,
               conn_run (SqlInsert table cols row);; mret (row_count + 1)%nat) n w
  = (Return n', w') →
  db_tables w !! table = Some old →
  db_tables w' !! table = Some (old ++ ((λ row, (cols, row)) <$> rs))%list
  ∧ trace w'
    = (trace w ++ ((λ row, DbRun (SqlInsert table cols row)
                             (render (SqlInsert table cols row))) <$> rs))%list.
Proof.
  revert n w old. induction rs as [|row rs IH]; intros n w old; cbn [for_in].
  - intros [= <- <-] Ho. cbn. rewrite !app_nil_r. split; [exact Ho | reflexivity].
  - intros E Ho. apply bind_inv_Return in E as (n1 & w1 & E1 & E).
    revert E1. unfold conn_run. run.
    destruct (fault w _); [intros E1; discriminate E1|].
    rewrite Ho. run. intros [= <- <-].
    eapply IH in E; [|cbn; apply lookup_insert_eq].
    destruct E as [Hd Ht]. split.
    + rewrite Hd, <- app_assoc. reflexivity.
    + rewrite Ht. cbn. rewrite <- app_assoc. reflexivity.
Qed.

Lemma statements_on_inserts (table : string) (cols : list string) (rs : list (list value)) :
  statements_on table
    ((λ row, DbRun (SqlInsert table cols row) (render (SqlInsert table cols row))) <$> rs)
  = (λ row, SqlInsert table cols row) <$> rs.
Proof.
  induction rs as [|row rs IH]; [reflexivity|].
  cbn. rewrite bool_decide_eq_true_2 by reflexivity. f_equal. exact IH.
Qed.

(** An insertion of a frame that returns: nothing for an empty frame,
    else every row of the frame [where] gives. *)
Lemma insert_dataframe_returns (table : string) (df : DataFrame) (w w' : world)
    (old : list (list string * list value)) :
  insert_dataframe table (Some df) w = (Return (), w') →
  db_tables w !! table = Some old →
  db_tables w' !! table
  = Some (old ++ (if df_empty df then [] else inserted_rows df))%list
  ∧ ∃ new,
      trace w' = (trace w ++ new)%list
      ∧ statements_on table new = if df_empty df then [] else insert_statements table df.
Proof.
  unfold insert_dataframe. destruct (df_empty df).
  - intros [= <-] Ho. cbn. rewrite app_nil_r. split; [exact Ho|].
    exists []. rewrite app_nil_r. split; reflexivity.
  - unfold try_except. intros E Ho.
    match type of E with
    | match ?x with _ => _ end = _ => destruct x as [[[]|e] w1] eqn:E1
    end.
    + injection E as <-.
      apply bind_inv_Return in E1 as (n' & w2 & Eloop & Elog).
      injection Elog as <-.
      apply (insert_rows_returns _ _ _ _ _ _ _ old) in Eloop as [Hd Ht]; [|exact Ho].
      split.
      * cbn [db_tables add_log]. rewrite Hd. reflexivity.
      * eexists. split; [cbn [trace add_log]; exact Ht|].
        rewrite statements_on_inserts. reflexivity.
    + exfalso. revert E. cbn [dispatch].
      destruct (isinstance e DatabaseError); run; [intros E; discriminate E|].
      rewrite isinstance_Exception. run. intros E; discriminate E.
Qed.

Lemma replaced_then_beside (table : string) (df : DataFrame) (w1 w2 w3 : world) :
  replaced table df w1 w2 → beside table w2 w3 → replaced table df w1 w3.
Proof.
  intros (n1 & T1 & S1 & D1) [D2 (n2 & T2 & S2)].
  exists (n1 ++ n2)%list. split; [rewrite T2, T1, <- app_assoc; reflexivity|].
  split; [rewrite statements_on_app, S1, S2, app_nil_r; reflexivity|].
  rewrite D2. exact D1.
Qed.

Lemma beside_then_replaced (table : string) (df : DataFrame) (w1 w2 w3 : world) :
  beside table w1 w2 → replaced table df w2 w3 → replaced table df w1 w3.
Proof.
  intros [D1 (n1 & T1 & S1)] (n2 & T2 & S2 & D2).
  exists (n1 ++ n2)%list. split; [rewrite T2, T1, <- app_assoc; reflexivity|].
  split; [rewrite statements_on_app, S1, S2; reflexivity | exact D2].
Qed.

(** A turn of the loop that returns either skipped its table or added it
    to the loaded ones. *)
Lemma load_table_loaded (bucket ts prefix target : string) (loaded loaded' : list string)
    (w w' : world) :
  load_table bucket ts (prefix, target) loaded w = (Return loaded', w') →
  loaded' = loaded ∨ loaded' = (loaded ++ [target])%list.
Proof.
  unfold load_table. intros E.
  apply bind_inv_Return in E as (found & w1 & _ & E). destruct found; cbn [negb] in E.
  - apply bind_inv_Return in E as (df & w2 & _ & E).
    apply bind_inv_Return in E as ([] & w3 & _ & E).
    apply bind_inv_Return in E as ([] & w4 & _ & E).
    apply bind_inv_Return in E as ([] & w5 & _ & E).
    injection E as <- _. right. reflexivity.
  - apply bind_inv_Return in E as ([] & w2 & _ & E). injection E as <- _. left. reflexivity.
Qed.

(** A turn of the loop that returns, by the artifact of its table: absent,
    the table is skipped; present, the table is replaced by its rows. *)
Lemma load_table_returns (bucket ts prefix target : string) (loaded loaded' : list string)
    (w w' : world) :
  load_table bucket ts (prefix, target) loaded w = (Return loaded', w') →
  match s3 w !! parquet_path bucket prefix ts with
  | None => loaded' = loaded ∧ beside target w w'
  | Some o =>
      fault w (S3Head bucket (parquet_key prefix ts)) = None →
      loaded' = (loaded ++ [target])%list ∧ replaced target (body o) w w'
  end.
Proof.
  unfold load_table. fold (parquet_key prefix ts).
  change ("s3://" +:+ bucket +:+ "/" +:+ parquet_key prefix ts)
    with (parquet_path bucket prefix ts).
  intros E. apply bind_inv_Return in E as (found & w1 & Ef & E).
  destruct (s3 w !! parquet_path bucket prefix ts) as [o|] eqn:Hs.
  - intros Hf. rewrite (s3_object_exists_present _ _ o w Hf Hs) in Ef.
    injection Ef as <- <-. cbn [negb] in E.
    apply bind_inv_Return in E as (df & w2 & Er & E).
    apply s3_read_returns in Er as [-> Hb]. cbn [s3 add_trace] in Hb.
    rewrite Hs in Hb. injection Hb as <-.
    apply bind_inv_Return in E as ([] & w3 & El & E). injection El as <-.
    apply bind_inv_Return in E as ([] & w4 & Et & E).
    apply truncate_table_returns in Et as [Hd4 Ht4].
    apply bind_inv_Return in E as ([] & w5 & Ei & E).
    apply (insert_dataframe_returns _ _ _ _ []) in Ei as [Hd5 (n5 & Ht5 & Hs5)]; [|exact Hd4].
    injection E as <- <-. split; [reflexivity|].
    eexists. split; [rewrite Ht5, Ht4; cbn [trace add_log add_trace];
                     rewrite <- !app_assoc; reflexivity|].
    split; [|exact Hd5].
    rewrite !statements_on_app, Hs5. cbn.
    rewrite bool_decide_eq_true_2 by reflexivity. reflexivity.
  - pose proof (s3_object_exists_absent _ _ _ _ _ Hs Ef) as ->. cbn [negb] in E.
    pose proof (beside_s3_object_exists target bucket (parquet_key prefix ts) w) as Hb.
    rewrite Ef in Hb. cbn [snd] in Hb.
    apply bind_inv_Return in E as ([] & w2 & El & E). injection El as <-.
    injection E as <- <-. split; [reflexivity|].
    eapply frame_trans; [exact Hb | apply frame_log].
Qed.

(** The loop only adds to the loaded tables, and leaves alone a table that
    is not a target of the configuration. *)
Lemma load_loop_other (bucket ts target : string) (config : list (string * string))
    (loaded loaded' : list string) (w w' : world) :
  target ∉ config.*2 →
  for_in config (load_table bucket ts) loaded w = (Return loaded', w') →
  beside target w w'
  ∧ (∀ t, t ∈ loaded → t ∈ loaded')
  ∧ (target ∈ loaded' → target ∈ loaded).
Proof.
  revert loaded w. induction config as [|[p1 t1] config IH]; intros loaded w Hn; cbn [for_in].
  - intros [= <- <-]. split; [apply frame_refl|]. split; auto.
  - intros E. apply bind_inv_Return in E as (loaded1 & w1 & E1 & E).
    rewrite fmap_cons, not_elem_of_cons in Hn. destruct Hn as [Hne Hn]. cbn in Hne.
    pose proof (beside_load_table target bucket ts p1 t1 loaded
                  (λ Heq, Hne (eq_sym Heq)) w) as Hb.
    rewrite E1 in Hb. cbn [snd] in Hb.
    apply load_table_loaded in E1.
    destruct (IH loaded1 w1 Hn E) as (Hb' & Hmono & Hback).
    split; [eapply frame_trans; eassumption|]. split.
    + intros t Ht. apply Hmono. destruct E1 as [-> | ->]; [exact Ht|].
      apply elem_of_app. left. exact Ht.
    + intros Ht. specialize (Hback Ht). destruct E1 as [-> | ->]; [exact Hback|].
      apply elem_of_app in Hback as [Hin|Hin]; [exact Hin|].
      apply list_elem_of_singleton in Hin. contradiction.
Qed.

(** The loop over a configuration with distinct targets, for one of its
    entries. *)
Lemma load_loop_returns (bucket ts prefix target : string) (config : list (string * string))
    (loaded loaded' : list string) (w w' : world) :
  NoDup config.*2 →
  (prefix, target) ∈ config →
  target ∉ loaded →
  for_in config (load_table bucket ts) loaded w = (Return loaded', w') →
  match s3 w !! parquet_path bucket prefix ts with
  | None => (target ∉ loaded') ∧ beside target w w'
  | Some o =>
      fault w (S3Head bucket (parquet_key prefix ts)) = None →
      target ∈ loaded' ∧ replaced target (body o) w w'
  end.
Proof.
  revert loaded w. induction config as [|[p1 t1] config IH]; intros loaded w Hnd Hin Hnl;
    [inversion Hin|].
  cbn [for_in]. intros E. apply bind_inv_Return in E as (loaded1 & w1 & E1 & E).
  rewrite fmap_cons in Hnd. apply NoDup_cons in Hnd as [Hnot Hnd]. cbn in Hnot.
  pose proof (silent_load_table bucket ts (p1, t1) loaded w) as Hsil.
  rewrite E1 in Hsil. cbn [snd] in Hsil.
  apply elem_of_cons in Hin as [Heq|Hin].
  - injection Heq as <- <-.
    destruct (load_loop_other bucket ts target config loaded1 loaded' w1 w' Hnot E)
      as (Hb & Hmono & Hback).
    apply load_table_returns in E1.
    destruct (s3 w !! parquet_path bucket prefix ts) as [o|].
    + intros Hf. destruct (E1 Hf) as [-> Hrep]. split.
      * apply Hmono, elem_of_app. right. left.
      * eapply replaced_then_beside; eassumption.
    + destruct E1 as [-> Hb1]. split.
      * intros Ht. apply Hnl, Hback, Ht.
      * eapply frame_trans; eassumption.
  - assert (Hne : t1 ≠ target).
    { intros ->. apply Hnot. apply list_elem_of_fmap. exists (prefix, target).
      split; [reflexivity | exact Hin]. }
    pose proof (beside_load_table target bucket ts p1 t1 loaded Hne w) as Hb.
    rewrite E1 in Hb. cbn [snd] in Hb.
    apply load_table_loaded in E1.
    assert (Hnl1 : target ∉ loaded1).
    { destruct E1 as [-> | ->]; [exact Hnl|]. intros Ht.
      apply elem_of_app in Ht as [Ht|Ht]; [apply Hnl, Ht|].
      apply list_elem_of_singleton in Ht. apply Hne. symmetry. exact Ht. }
    specialize (IH loaded1 w1 Hnd Hin Hnl1 E).
    rewrite (silent_s3 _ _ Hsil), (silent_fault _ _ Hsil) in IH.
    destruct (s3 w !! parquet_path bucket prefix ts) as [o|].
    + intros Hf. destruct (IH Hf) as [Ht Hrep]. split; [exact Ht|].
      eapply beside_then_replaced; eassumption.
    + destruct IH as [Ht Hb']. split; [exact Ht|]. eapply frame_trans; eassumption.
Qed.

Lemma try_finally_inv_Return {A} (m : M A) (fin : M unit) (w w' : world) (a : A) :
  try_finally m fin w = (Return a, w') →
  ∃ w1, m w = (Return a, w1) ∧ fin w1 = (Return (), w').
Proof.
  unfold try_finally. destruct (m w) as [r w1].
  destruct (fin w1) as [[[]|e] w2] eqn:Ef; intros E; [|discriminate E].
  injection E as -> <-. exists w1. split; [reflexivity | exact Ef].
Qed.

Lemma load_dim_date_loaded (bucket : string) (loaded loaded' : list string) (w w' : world) :
  load_dim_date bucket loaded w = (Return loaded', w') →
  loaded' = loaded ∨ loaded' = (loaded ++ ["dim_date"])%list.
Proof.
  unfold load_dim_date. intros E.
  apply bind_inv_Return in E as (found & w1 & _ & E). destruct found.
  - apply bind_inv_Return in E as (df & w2 & _ & E).
    apply bind_inv_Return in E as ([] & w3 & _ & E).
    apply bind_inv_Return in E as ([] & w4 & _ & E).
    apply bind_inv_Return in E as ([] & w5 & _ & E).
    injection E as <- _. right. reflexivity.
  - apply bind_inv_Return in E as ([] & w2 & _ & E). injection E as <- _. left. reflexivity.
Qed.

Lemma TABLE_CONFIG_targets : NoDup TABLE_CONFIG.*2 ∧ "dim_date" ∉ TABLE_CONFIG.*2.
Proof. split; apply (bool_decide_unpack _); vm_compute; exact I. Qed.

(** A run of the loader that returns, for one entry of the configuration:
    with the artifact of the batch absent the table is left alone and not
    reported; with it present the table is replaced and reported. *)
Lemma load_handler_table (event : gmap string pyval) (context : unit) (w : world)
    (res : gmap string pyval) (prefix target : string) :
  (lambda_handler event context w).1 = Return res →
  (prefix, target) ∈ TABLE_CONFIG →
  ∃ bucket loaded,
    environ w !! "S3_PROCESSED_BUCKET" = Some bucket
    ∧ res !! "tables_loaded" = Some (PStrList loaded)
    ∧ match s3 w !! parquet_path bucket prefix (load_key event) with
      | None => (target ∉ loaded) ∧ beside target w (lambda_handler event context w).2
      | Some o =>
          fault w (S3Head bucket (parquet_key prefix (load_key event))) = None →
          target ∈ loaded ∧ replaced target (body o) w (lambda_handler event context w).2
      end.
Proof.
  intros Hret Hin. revert Hret. unfold lambda_handler, environ_get.
  rewrite bind_unfold.
  destruct (environ w !! "S3_PROCESSED_BUCKET") as [bucket|];
    [|intros E; discriminate E].
  destruct (negb (str_truthy (Some bucket))); [intros E; discriminate E|].
  cbn [default from_option id]. fold (load_key event).
  destruct (negb (truthy _)); [intros E; discriminate E|].
  intros E.
  match type of E with (?x).1 = _ => destruct x as [r w'] eqn:Erun end.
  cbn [fst snd] in *. subst r.
  apply bind_inv_Return in Erun as (creds & w1 & Ec & Erun).
  apply bind_inv_Return in Erun as ([] & w2 & En & Erun).
  apply try_finally_inv_Return in Erun as (w3 & Ebody & Eclose).
  apply bind_inv_Return in Ebody as (loaded1 & w4 & Eloop & Ebody).
  apply bind_inv_Return in Ebody as (loaded2 & w5 & Edate & Ebody).
  injection Ebody as <- <-.
  destruct TABLE_CONFIG_targets as [Hnd Hdd].
  assert (Hne : target ≠ "dim_date").
  { intros ->. apply Hdd, list_elem_of_fmap. exists (prefix, "dim_date").
    split; [reflexivity | exact Hin]. }
  (* the frames around the loop *)
  pose proof (silent_load_credentials w) as S1. rewrite Ec in S1. cbn [snd] in S1.
  pose proof (silent_load_connection creds w1) as S2. rewrite En in S2. cbn [snd] in S2.
  pose proof (silent_trans _ _ _ S1 S2) as S12.
  pose proof (beside_load_credentials target w) as B1. rewrite Ec in B1. cbn [snd] in B1.
  pose proof (beside_load_connection target creds w1) as B2. rewrite En in B2.
  cbn [snd] in B2.
  pose proof (beside_load_dim_date target bucket loaded1 Hne w4) as B4.
  rewrite Edate in B4. cbn [snd] in B4.
  pose proof (beside_load_close target w5) as B5. rewrite Eclose in B5. cbn [snd] in B5.
  pose proof (frame_trans _ _ _ B1 B2) as B12.
  pose proof (frame_trans _ _ _ B4 B5) as B45.
  apply load_dim_date_loaded in Edate.
  assert (Hmem : target ∈ loaded2 ↔ target ∈ loaded1).
  { destruct Edate as [-> | ->]; [reflexivity|]. rewrite elem_of_app, list_elem_of_singleton.
    split; [intros [Ht|Ht]; [exact Ht | contradiction] | intros Ht; left; exact Ht]. }
  pose proof (load_loop_returns bucket (load_key event) prefix target TABLE_CONFIG []
                loaded1 w2 w4 Hnd Hin (not_elem_of_nil _) Eloop) as Hloop.
  rewrite (silent_s3 _ _ S12), (silent_fault _ _ S12) in Hloop.
  exists bucket, loaded2. split; [reflexivity|].
  split.
  { rewrite !lookup_insert_ne by discriminate. apply lookup_singleton_eq. }
  destruct (s3 w !! parquet_path bucket prefix (load_key event)) as [o|].
  - intros Hf. destruct (Hloop Hf) as [Ht Hrep]. split; [apply Hmem, Ht|].
    eapply beside_then_replaced; [exact B12|].
    eapply replaced_then_beside; [exact Hrep | exact B45].
  - destruct Hloop as [Ht Hb]. split; [intros Ht'; apply Ht, Hmem, Ht'|].
    eapply frame_trans; [exact B12|]. eapply frame_trans; [exact Hb | exact B45].
Qed.

(** X14: for every entry of the loader's configuration, in a run that
    returns: when the artifact of the batch is absent, the warehouse table
    is as it was, no statement about it was sent and it is not in
    [tables_loaded]; when the artifact is present, the table is in
    [tables_loaded], the statements sent about it are one truncation
    followed by one insertion per row of the frame that
    [df.where(pd.notnull(df), None)] gives, and the table holds exactly
    these rows: as many as the artifact has, under its labels, every cell
    that is not null being the one of the artifact (what stands for a null
    cell depends on the dtype of its column and is left open). *)
Theorem load_replaces_table (event : gmap string pyval) (context : unit) (w : world)
    (res : gmap string pyval) (prefix target : string) :
  let w' := (lambda_handler event context w).2 in
  (lambda_handler event context w).1 = Return res →
  (prefix, target) ∈ TABLE_CONFIG →
  ∃ bucket loaded new,
    environ w !! "S3_PROCESSED_BUCKET" = Some bucket
    ∧ res !! "tables_loaded" = Some (PStrList loaded)
    ∧ trace w' = (trace w ++ new)%list
    ∧ match s3 w !! parquet_path bucket prefix (load_key event) with
      | None =>
          db_tables w' !! target = db_tables w !! target
          ∧ statements_on target new = []
          ∧ (target ∉ loaded)
      | Some o =>
          fault w (S3Head bucket (parquet_key prefix (load_key event))) = None →
          (columns (body o) = [] → rows (body o) = []) →
          target ∈ loaded
          ∧ statements_on target new
            = SqlTruncate target :: insert_statements target (body o)
          ∧ db_tables w' !! target = Some (inserted_rows (body o))
          ∧ length (inserted_rows (body o)) = length (rows (body o))
          ∧ Forall2 (λ row ins,
                       ins.1 = columns (body o)
                       ∧ Forall2 (λ v v' : value, notnull v = true → v' = v) row ins.2)
                    (rows (body o)) (inserted_rows (body o))
      end.
Proof.
  cbv zeta. intros Hret Hin.
  destruct (load_handler_table event context w res prefix target Hret Hin)
    as (bucket & loaded & Hb & Hres & Hcase).
  destruct (s3 w !! parquet_path bucket prefix (load_key event)) as [o|] eqn:Hs.
  - assert (Hempty : (columns (body o) = [] → rows (body o) = []) →
                     (if df_empty (body o) then [] else insert_statements target (body o))
                     = insert_statements target (body o)
                     ∧ (if df_empty (body o) then [] else inserted_rows (body o))
                       = inserted_rows (body o)).
    { intros Hwf. unfold df_empty, insert_statements, inserted_rows.
      destruct (decide (rows (body o) = [])) as [Hr|Hr].
      - pose proof (where_notnull_cells (body o)) as Hc. rewrite Hr in Hc.
        apply Forall2_nil_inv_l in Hc. rewrite Hc. cbn.
        repeat case_match; split; reflexivity.
      - rewrite bool_decide_eq_false_2 by exact Hr.
        rewrite bool_decide_eq_false_2 by (intros Hc; apply Hr, Hwf, Hc).
        split; reflexivity. }
    destruct (fault w (S3Head bucket (parquet_key prefix (load_key event))))
      as [e|] eqn:Hf.
    2: { destruct (Hcase eq_refl) as [Ht (new & Htr & Hst & Hd)].
      exists bucket, loaded, new. rewrite Hs.
      split; [exact Hb|]. split; [exact Hres|]. split; [exact Htr|].
      intros _ Hwf. destruct (Hempty Hwf) as [E1 E2]. rewrite E1 in Hst. rewrite E2 in Hd.
      split; [exact Ht|]. split; [exact Hst|]. split; [exact Hd|].
      pose proof (where_notnull_cells (body o)) as Hcells.
      split; [unfold inserted_rows; rewrite length_fmap;
              symmetry; apply (Forall2_length _ _ _ Hcells)|].
      unfold inserted_rows. apply Forall2_fmap_r.
      eapply Forall2_impl; [exact Hcells|]. intros row row' Hrow. cbn.
      split; [apply where_notnull_columns | exact Hrow]. }
    + assert (Htr : ∃ new, trace (lambda_handler event context w).2 = (trace w ++ new)%list).
      { assert (Hk : keeps silent (lambda_handler event context)).
        { unfold lambda_handler.
          pose proof silent_load_credentials. pose proof silent_load_connection.
          pose proof silent_load_close. pose proof silent_load_table.
          pose proof silent_load_dim_date. solve_keeps. }
        destruct (silent_trace _ _ (Hk w)) as (new & Hn & _). exists new. exact Hn. }
      destruct Htr as (new & Htr). exists bucket, loaded, new. rewrite Hs.
      split; [exact Hb|]. split; [exact Hres|]. split; [exact Htr|].
      intros Hf'. rewrite Hf in Hf'. discriminate Hf'.
  - destruct Hcase as [Ht [Hd (new & Htr & Hst)]].
    exists bucket, loaded, new. rewrite Hs.
    split; [exact Hb|]. split; [exact Hres|]. split; [exact Htr|].
    split; [exact Hd|]. split; [exact Hst | exact Ht].
Qed.

(** X15: when the artifact of a configured table is present for the batch
    with no rows, a run of the loader that returns has truncated the table
    and inserted nothing: the only statement sent about the table is the
    truncation, the table is empty, and it is in [tables_loaded]. *)
Theorem load_empty_artifact (event : gmap string pyval) (context : unit) (w : world)
    (res : gmap string pyval) (prefix target bucket : string) (o : s3_object) :
  let w' := (lambda_handler event context w).2 in
  (lambda_handler event context w).1 = Return res →
  (prefix, target) ∈ TABLE_CONFIG →
  environ w !! "S3_PROCESSED_BUCKET" = Some bucket →
  s3 w !! parquet_path bucket prefix (load_key event) = Some o →
  fault w (S3Head bucket (parquet_key prefix (load_key event))) = None →
  rows (body o) = [] →
  insert_dataframe target (Some (body o)) w
    = (Return (), add_log (INFO, "No rows to insert for table=" +:+ target) w)
  ∧ ∃ loaded new,
      res !! "tables_loaded" = Some (PStrList loaded)
      ∧ target ∈ loaded
      ∧ trace w' = (trace w ++ new)%list
      ∧ statements_on target new = [SqlTruncate target]
      ∧ db_tables w' !! target = Some [].
Proof.
  cbv zeta. intros Hret Hin Hb Hs Hf Hrows.
  assert (Hempty : df_empty (body o) = true)
    by (unfold df_empty; rewrite Hrows; reflexivity).
  split; [unfold insert_dataframe; rewrite Hempty; reflexivity|].
  destruct (load_handler_table event context w res prefix target Hret Hin)
    as (bucket' & loaded & Hb' & Hres & Hcase).
  rewrite Hb in Hb'. injection Hb' as <-. rewrite Hs in Hcase.
  destruct (Hcase Hf) as [Ht (new & Htr & Hst & Hd)].
  rewrite Hempty in Hst, Hd.
  exists loaded, new. repeat split; assumption.
Qed.

End loader.

(** Witness of X14: a load with the currency artifact present and the
    location artifact absent. *)
Lemma load_replaces_table_witness :
  let w := Fake.world_load in
  let r := Load.lambda_handler (H:=Fake.pg8000) (H0:=Fake.pandas_where)
             Fake.load_event () w in
  db_tables r.2 !! "dim_currency"
    = Some [(["currency_id"; "currency_code"; "currency_name"],
             [VInt 1; VStr "GBP"; VStr "GBP_Name"]);
            (["currency_id"; "currency_code"; "currency_name"],
             [VInt 2; VStr "USD"; VStr "USD_Name"])]
  ∧ db_tables r.2 !! "dim_location" = db_tables w !! "dim_location".
Proof.
  cbv zeta.
  assert (Hret : (Load.lambda_handler (H:=Fake.pg8000) (H0:=Fake.pandas_where)
                    Fake.load_event () Fake.world_load).1 = Return Fake.load_result)
    by (vm_compute; reflexivity).
  assert (Hin1 : ("dim_currency", "dim_currency") ∈ Load.TABLE_CONFIG)
    by (apply (bool_decide_unpack _); vm_compute; exact I).
  assert (Hin2 : ("dim_location", "dim_location") ∈ Load.TABLE_CONFIG)
    by (apply (bool_decide_unpack _); vm_compute; exact I).
  pose proof (load_replaces_table (H:=Fake.pg8000) (H0:=Fake.pandas_where)
                Fake.load_event () Fake.world_load Fake.load_result "dim_currency" "dim_currency" Hret Hin1) as H1.
  pose proof (load_replaces_table (H:=Fake.pg8000) (H0:=Fake.pandas_where)
                Fake.load_event () Fake.world_load Fake.load_result "dim_location" "dim_location" Hret Hin2) as H2.
  cbv zeta in H1, H2.
  destruct H1 as (b1 & l1 & n1 & Hb1 & _ & _ & Hc1).
  destruct H2 as (b2 & l2 & n2 & Hb2 & _ & _ & Hc2).
  assert (Hb : environ Fake.world_load !! "S3_PROCESSED_BUCKET" = Some "processed")
    by (vm_compute; reflexivity).
  rewrite Hb in Hb1, Hb2. injection Hb1 as <-. injection Hb2 as <-.
  assert (Hs1 : s3 Fake.world_load
                  !! parquet_path "processed" "dim_currency" (load_key Fake.load_event)
                = Some (mk_obj Fake.currency_frame 0)) by (vm_compute; reflexivity).
  assert (Hs2 : s3 Fake.world_load
                  !! parquet_path "processed" "dim_location" (load_key Fake.load_event)
                = None) by (vm_compute; reflexivity).
  rewrite Hs1 in Hc1. rewrite Hs2 in Hc2.
  split.
  - destruct Hc1 as (_ & _ & Hd & _); [reflexivity | intros Hc; discriminate Hc|].
    rewrite Hd. reflexivity.
  - destruct Hc2 as (Hd & _). exact Hd.
Defined.

(** Witness of X15: the same load, for the design artifact, which has no
    rows, while the warehouse had a design row. *)
Lemma load_empty_artifact_witness :
  let w := Fake.world_load in
  let r := Load.lambda_handler (H:=Fake.pg8000) (H0:=Fake.pandas_where)
             Fake.load_event () w in
  db_tables w !! "dim_design" = Some [(["design_id"], [VInt 7])]
  ∧ ∃ loaded new,
      Fake.load_result !! "tables_loaded" = Some (PStrList loaded)
      ∧ "dim_design" ∈ loaded
      ∧ trace r.2 = (trace w ++ new)%list
      ∧ statements_on "dim_design" new = [SqlTruncate "dim_design"]
      ∧ db_tables r.2 !! "dim_design" = Some [].
Proof.
  cbv zeta. split; [vm_compute; reflexivity|].
  assert (Hret : (Load.lambda_handler (H:=Fake.pg8000) (H0:=Fake.pandas_where)
                    Fake.load_event () Fake.world_load).1 = Return Fake.load_result)
    by (vm_compute; reflexivity).
  assert (Hin : ("dim_design", "dim_design") ∈ Load.TABLE_CONFIG)
    by (apply (bool_decide_unpack _); vm_compute; exact I).
  assert (Hb : environ Fake.world_load !! "S3_PROCESSED_BUCKET" = Some "processed")
    by (vm_compute; reflexivity).
  assert (Hs : s3 Fake.world_load
                 !! parquet_path "processed" "dim_design" (load_key Fake.load_event)
               = Some (mk_obj Fake.design_frame 1)) by (vm_compute; reflexivity).
  assert (Hf : fault Fake.world_load
                 (S3Head "processed" (parquet_key "dim_design" (load_key Fake.load_event)))
               = None) by reflexivity.
  assert (Hr : rows (body (mk_obj Fake.design_frame 1)) = []) by reflexivity.
  pose proof (load_empty_artifact (H:=Fake.pg8000) (H0:=Fake.pandas_where)
                Fake.load_event () Fake.world_load Fake.load_result "dim_design" "dim_design" "processed"
                (mk_obj Fake.design_frame 1) Hret Hin Hb Hs Hf Hr) as HH.
  cbv zeta in HH. destruct HH as [_ HH]. exact HH.
Defined.

Lemma traced_refl (P : call → Prop) (w : world) : traced P w w.
Proof.
  split; [reflexivity..|]. exists []. rewrite app_nil_r. split; [reflexivity | constructor].
Qed.

Lemma traced_trans (P : call → Prop) (w1 w2 w3 : world) :
  traced P w1 w2 → traced P w2 w3 → traced P w1 w3.
Proof.
  intros [E1 O1 (n1 & T1 & F1)] [E2 O2 (n2 & T2 & F2)]. split; [congruence..|].
  exists (n1 ++ n2)%list. rewrite T2, T1, <- app_assoc. split; [reflexivity|].
  apply Forall_app. split; assumption.
Qed.

(** A step that leaves the environment, the fault oracle and the trace
    alone. *)
Lemma traced_quiet (P : call → Prop) (w w' : world) :
  environ w' = environ w → fault w' = fault w → trace w' = trace w → traced P w w'.
Proof.
  intros E O T. split; [exact E | exact O|]. exists []. rewrite app_nil_r.
  split; [exact T | constructor].
Qed.

Global Instance traced_frame (P : call → Prop) : Frame (traced P) P.
Proof.
  split.
  - apply traced_refl.
  - apply traced_trans.
  - intros r w. apply traced_quiet; reflexivity.
  - intros b w. apply traced_quiet; reflexivity.
  - intros c w Hc. split; [reflexivity..|]. exists [c]. split; [reflexivity|].
    constructor; [exact Hc | constructor].
Qed.

#[global] Hint Resolve traced_frame : keeps.

Section traced.
Context (P : call → Prop).

Lemma traced_service {A} (c : call) (act : M A) :
  P c →
  (∀ w, environ (act w).2 = environ w ∧ fault (act w).2 = fault w
        ∧ trace (act w).2 = trace w) →
  keeps (traced P) (service c act).
Proof.
  intros Hc Ha. apply keeps_service; [exact Hc|]. intros w.
  destruct (Ha w) as (E & O & T). apply traced_quiet; assumption.
Qed.

Lemma traced_conn_run `{Pg8000} (s : sql) :
  P (DbRun s (render s)) → keeps (traced P) (conn_run s).
Proof.
  intros Hc. apply traced_service; [exact Hc|]. intros w.
  destruct s as [t since|t|t cols vals]; [repeat split|..];
    destruct (db_tables w !! t); repeat split.
Qed.

Lemma traced_s3_write (df : DataFrame) (path : string) :
  P (S3Put path) → keeps (traced P) (s3_write df path).
Proof.
  intros Hc. unfold s3_write. destruct (startswith path "s3://"); [|apply keeps_raise].
  apply traced_service; [exact Hc|]. intros w. repeat split.
Qed.

Lemma traced_ssm_put_parameter (name value : string) :
  P (SsmPut name value) → keeps (traced P) (ssm_put_parameter name value).
Proof. intros Hc. apply traced_service; [exact Hc|]. intros w. repeat split. Qed.

Lemma traced_s3_list_objects_v2 (bucket prefix : string) :
  P (S3List bucket prefix) → keeps (traced P) (s3_list_objects_v2 bucket prefix).
Proof. intros Hc. apply traced_service; [exact Hc|]. intros w. repeat split. Qed.

Lemma traced_now_isoformat : keeps (traced P) now_isoformat.
Proof. intros w. apply traced_quiet; reflexivity. Qed.

End traced.

(** A loop whose turns keep a frame for the elements of its list. *)
Lemma keeps_for_in_elem {R : world → world → Prop} {ok : call → Prop} `{!Frame R ok}
    {A S} (l : list A) (body : A → S → M S) (s : S) :
  (∀ x s, x ∈ l → keeps R (body x s)) → keeps R (for_in l body s).
Proof.
  revert s. induction l as [|x l IH]; intros s Hb; cbn [for_in].
  - apply keeps_ret.
  - apply keeps_bind; [apply Hb; left | intros s'; apply IH].
    intros y s0 Hy. apply Hb. right. exact Hy.
Qed.

Lemma replace_char_absent (old new : ascii) (s : string) :
  old ≠ new → has_char old (replace_char old new s) = false.
Proof.
  intros Hne. induction s as [|a s IH]; [reflexivity|]. cbn. rewrite IH, orb_false_r.
  apply bool_decide_eq_false_2. case_bool_decide as Ha.
  - intros E. apply Hne. symmetry. exact E.
  - exact Ha.
Qed.

(** *** Runs in a given environment *)

Section runs_in.
Context (env : gmap string string) (P : call → Prop).

Lemma runs_keeps {A} (m : M A) : keeps (traced P) m → runs env P m.
Proof. intros Hm w _. apply Hm. Qed.

Lemma runs_bind {A B} (m : M A) (f : A → M B) :
  runs env P m → (∀ a, runs env P (f a)) → runs env P (m ≫= f).
Proof.
  intros Hm Hf w E. rewrite bind_unfold. specialize (Hm w E).
  destruct (m w) as [[a|e] w1]; cbn [snd] in *; [|exact Hm].
  eapply traced_trans; [exact Hm|]. apply Hf. rewrite (traced_environ _ _ _ Hm). exact E.
Qed.

(** Reading the environment gives what it holds. *)
Lemma runs_environ_get {B} (name : string) (f : option string → M B) :
  runs env P (f (env !! name)) → runs env P (environ_get name ≫= f).
Proof. intros Hf w E. rewrite bind_unfold. unfold environ_get. rewrite E. apply Hf, E. Qed.

Lemma runs_try_finally {A} (m : M A) (fin : M unit) :
  runs env P m → runs env P fin → runs env P (try_finally m fin).
Proof.
  intros Hm Hf w E. unfold try_finally. specialize (Hm w E).
  destruct (m w) as [r w1]. cbn [snd] in Hm.
  specialize (Hf w1 (eq_trans (traced_environ _ _ _ Hm) E)).
  destruct (fin w1) as [[[]|e] w2]; cbn [snd] in *; eapply traced_trans; eassumption.
Qed.

End runs_in.

(** *** The footprint of the extractor *)

Section extract_footprint.
Context `{Pg8000, PyDatetime}.
Import Extract.

Lemma traced_extract_table (P : call → Prop) (bucket last_checked batch_id table : string)
    (uploaded : list string) :
  (∀ since text, P (DbRun (SqlSelect table since) text)) →
  P (S3Put (artifact_path bucket table batch_id)) →
  keeps (traced P) (extract_table bucket last_checked batch_id table uploaded).
Proof.
  intros Hq Hp.
  assert (Hrun : ∀ dt, keeps (traced P) (conn_run (query_for table dt))).
  { intros dt. apply traced_conn_run. unfold query_for. case_bool_decide; apply Hq. }
  assert (Hw : ∀ df, keeps (traced P)
                       (s3_write df ("s3://" +:+ bucket +:+ "/" +:+ table +:+ "/"
                                       +:+ batch_id +:+ ".csv"))).
  { intros df. apply traced_s3_write. exact Hp. }
  unfold extract_table, extract_new_rows, convert_new_rows_to_df_and_upload_to_s3_as_csv.
  solve_keeps.
Qed.

Lemma runs_extract_credentials (env : gmap string string) :
  runs env (extract_call env) get_db_credentials.
Proof.
  unfold get_db_credentials. apply runs_environ_get.
  destruct (env !! "DB_SECRET_NAME") as [s|] eqn:E; cbn [str_truthy negb default from_option id].
  - apply runs_keeps.
    assert (keeps (traced (extract_call env)) (sm_get_secret_json s))
      by (apply keeps_sm_get_secret_json; exact E).
    solve_keeps.
  - apply runs_keeps, keeps_raise.
Qed.

Lemma runs_get_bucket_name {B} (env : gmap string string) (P : call → Prop)
    (f : string → M B) :
  (∀ bucket, env !! "S3_INGESTION_BUCKET" = Some bucket → runs env P (f bucket)) →
  runs env P (get_bucket_name ≫= f).
Proof.
  intros Hf w E. rewrite bind_unfold. unfold get_bucket_name, environ_get.
  rewrite bind_unfold, E.
  destruct (env !! "S3_INGESTION_BUCKET") as [bucket|] eqn:Eb;
    cbn [str_truthy negb default from_option id]; [|apply traced_refl].
  destruct (negb (negb (bool_decide (bucket = "")))); [apply traced_refl|].
  apply (Hf bucket eq_refl), E.
Qed.

Lemma runs_extract_handler (env : gmap string string) (event : gmap string pyval)
    (context : unit) :
  runs env (extract_call env) (lambda_handler event context).
Proof.
  unfold lambda_handler.
  apply runs_bind; [apply runs_keeps, keeps_logger_info|intros _].
  apply runs_bind.
  { apply runs_keeps. unfold get_last_checked.
    assert (keeps (traced (extract_call env)) (ssm_get_parameter "last_checked"))
      by (apply keeps_ssm_get_parameter; reflexivity).
    solve_keeps. }
  intros d. apply runs_bind; [apply runs_keeps, keeps_getitem|intros last_checked].
  apply runs_bind; [apply runs_keeps, keeps_logger_info|intros _].
  apply runs_bind; [apply runs_extract_credentials|intros creds].
  apply runs_bind; [apply runs_keeps, keeps_logger_info|intros _].
  apply runs_bind.
  { apply runs_keeps. unfold create_db_connection.
    assert (keeps (traced (extract_call env)) pg_connect)
      by (apply keeps_pg_connect; exact I).
    solve_keeps. }
  intros _. apply runs_bind; [apply runs_keeps, keeps_logger_info|intros _].
  apply runs_get_bucket_name. intros bucket Hb.
  apply runs_bind; [apply runs_keeps, keeps_logger_info|intros _].
  apply runs_bind; [apply runs_keeps, traced_now_isoformat|intros now]. cbv zeta.
  apply runs_keeps, keeps_try_finally.
  - apply keeps_bind.
    + apply keeps_for_in_elem. intros table uploaded Hin. apply traced_extract_table.
      * intros since text. exact Hin.
      * exists bucket, table, (replace_char ":" "-" now).
        split; [exact Hb|]. split; [exact Hin|].
        split; [apply replace_char_absent; discriminate | reflexivity].
    + intros uploaded.
      apply keeps_bind; [apply traced_now_isoformat|intros new_last_checked].
      unfold update_last_checked.
      assert (keeps (traced (extract_call env))
                (ssm_put_parameter "last_checked" new_last_checked))
        by (apply traced_ssm_put_parameter; reflexivity).
      solve_keeps.
  - unfold close_connection.
    assert (keeps (traced (extract_call env)) conn_close)
      by (apply keeps_conn_close; exact I).
    solve_keeps.
Qed.

(** X: whatever happens, the extractor only reads and puts the parameter
    [last_checked], reads the secret named in its environment, opens and
    closes one connection, sends SELECT statements on the tables of its
    list, and writes artifacts of these tables, under a batch id without a
    colon, to the ingestion bucket of its environment.  It never checks,
    reads or lists an object and never sends another statement. *)
(** X1: whatever happens in a run, the extractor only reads and puts the
    parameter [last_checked], reads the secret named by [DB_SECRET_NAME],
    opens and closes a connection, sends SELECT statements on the tables
    of its list, and writes artifacts of these tables, under a batch id
    without a colon, to the bucket named by [S3_INGESTION_BUCKET].  It
    never checks, reads or lists an object, and never sends another kind of
    statement. *)
Theorem extract_footprint (event : gmap string pyval) (context : unit) (w : world) :
  ∃ new,
    trace (lambda_handler event context w).2 = (trace w ++ new)%list
    ∧ Forall (extract_call (environ w)) new.
Proof.
  destruct (runs_extract_handler (environ w) event context w eq_refl) as [_ _ Hnew].
  exact Hnew.
Qed.

End extract_footprint.

(** *** The footprint of the transformer *)

Ltac in_list := apply (bool_decide_unpack _); vm_compute; exact I.

Section keeps_frames.
Context {R : world → world → Prop} {ok : call → Prop} `{!Frame R ok}.

Lemma keeps_df_col (name : string) (df : DataFrame) : keeps R (df_col name df).
Proof. unfold df_col. destruct (col_index name df); [apply keeps_ret | apply keeps_raise]. Qed.

Lemma keeps_df_project (names : list string) (df : DataFrame) : keeps R (df_project names df).
Proof. unfold df_project. destruct (mapM _ names); [apply keeps_ret | apply keeps_raise]. Qed.

Lemma keeps_str_add (cells : list value) (suffix : string) : keeps R (str_add cells suffix).
Proof. unfold str_add. destruct (mapM _ cells); [apply keeps_ret | apply keeps_raise]. Qed.

Lemma keeps_date_range (start end_ : string) : keeps R (date_range start end_).
Proof.
  unfold date_range. destruct (parse_date start); [|apply keeps_raise].
  destruct (parse_date end_); [apply keeps_ret | apply keeps_raise].
Qed.

End keeps_frames.

#[global] Hint Resolve keeps_df_col keeps_df_project keeps_str_add keeps_date_range : keeps.

Section transform_footprint.
Context `{Pandas}.
Import Transform.

Section builder_calls.
Context (P : call → Prop) (ts ib pb : string).
Hypothesis Hhead : ∀ table, table ∈ raw_tables → P (S3Head ib (table +:+ "/" +:+ ts +:+ ".csv")).
Hypothesis Hlist : P (S3List ib "address/").
Hypothesis Hget : ∀ key, P (S3Get (s3_url ib key)).
Hypothesis Hput :
  ∀ prefix target, (prefix, target) ∈ Load.TABLE_CONFIG → P (S3Put (parquet_path pb prefix ts)).
Hypothesis Hdate : P (S3Put (s3_url pb Load.DIM_DATE_KEY)).

Lemma traced_check_file_exists (table : string) :
  table ∈ raw_tables →
  keeps (traced P) (check_file_exists ib (table +:+ "/" +:+ ts +:+ ".csv")).
Proof.
  intros Hin. unfold check_file_exists.
  assert (keeps (traced P) (s3_head_object ib (table +:+ "/" +:+ ts +:+ ".csv")))
    by (apply keeps_s3_head_object, Hhead, Hin).
  solve_keeps.
Qed.

Lemma traced_raw_read (key : string) :
  keeps (traced P) (s3_read ("s3://" +:+ ib +:+ "/" +:+ key)).
Proof. apply keeps_s3_read, Hget. Qed.

Lemma traced_dimension_write (df : DataFrame) (prefix target : string) :
  (prefix, target) ∈ Load.TABLE_CONFIG →
  keeps (traced P) (s3_write df (parquet_path pb prefix ts)).
Proof. intros Hin. apply traced_s3_write. apply (Hput prefix target Hin). Qed.

Lemma traced_fact_sales_order : keeps (traced P) (fact_sales_order ts ib pb).
Proof.
  assert (Hc : keeps (traced P) (check_file_exists ib ("sales_order/" +:+ ts +:+ ".csv")))
    by (apply (traced_check_file_exists "sales_order"); in_list).
  pose proof traced_raw_read as Hr.
  assert (Hw : ∀ df, keeps (traced P)
                       (s3_write df ("s3://" +:+ pb +:+ "/fact_sales_order/" +:+ ts
                                       +:+ ".parquet")))
    by (intros df; apply (traced_dimension_write df "fact_sales_order" "fact_sales_order");
        in_list).
  unfold fact_sales_order. solve_keeps.
Qed.

Lemma traced_dim_currency : keeps (traced P) (dim_currency ts ib pb).
Proof.
  assert (Hc : keeps (traced P) (check_file_exists ib ("currency/" +:+ ts +:+ ".csv")))
    by (apply (traced_check_file_exists "currency"); in_list).
  pose proof traced_raw_read as Hr.
  assert (Hw : ∀ df, keeps (traced P)
                       (s3_write df ("s3://" +:+ pb +:+ "/dim_currency/" +:+ ts
                                       +:+ ".parquet")))
    by (intros df; apply (traced_dimension_write df "dim_currency" "dim_currency"); in_list).
  unfold dim_currency. solve_keeps.
Qed.

Lemma traced_dim_location : keeps (traced P) (dim_location ts ib pb).
Proof.
  assert (Hc : keeps (traced P) (check_file_exists ib ("address/" +:+ ts +:+ ".csv")))
    by (apply (traced_check_file_exists "address"); in_list).
  pose proof traced_raw_read as Hr.
  assert (Hw : ∀ df, keeps (traced P)
                       (s3_write df ("s3://" +:+ pb +:+ "/dim_location/" +:+ ts
                                       +:+ ".parquet")))
    by (intros df; apply (traced_dimension_write df "dim_location" "dim_location"); in_list).
  unfold dim_location. solve_keeps.
Qed.

Lemma traced_dim_design : keeps (traced P) (dim_design ts ib pb).
Proof.
  assert (Hc : keeps (traced P) (check_file_exists ib ("design/" +:+ ts +:+ ".csv")))
    by (apply (traced_check_file_exists "design"); in_list).
  pose proof traced_raw_read as Hr.
  assert (Hw : ∀ df, keeps (traced P)
                       (s3_write df ("s3://" +:+ pb +:+ "/dim_design/" +:+ ts
                                       +:+ ".parquet")))
    by (intros df; apply (traced_dimension_write df "dim_design" "dim_design"); in_list).
  unfold dim_design. solve_keeps.
Qed.

Lemma traced_dim_staff : keeps (traced P) (dim_staff ts ib pb).
Proof.
  assert (Hc : keeps (traced P) (check_file_exists ib ("staff/" +:+ ts +:+ ".csv")))
    by (apply (traced_check_file_exists "staff"); in_list).
  assert (Hd : keeps (traced P) (check_file_exists ib ("department/" +:+ ts +:+ ".csv")))
    by (apply (traced_check_file_exists "department"); in_list).
  pose proof traced_raw_read as Hr.
  assert (Hw : ∀ df, keeps (traced P)
                       (s3_write df ("s3://" +:+ pb +:+ "/dim_staff/" +:+ ts
                                       +:+ ".parquet")))
    by (intros df; apply (traced_dimension_write df "dim_staff" "dim_staff"); in_list).
  unfold dim_staff. solve_keeps.
Qed.

Lemma traced_dim_counterparty : keeps (traced P) (dim_counterparty ts ib pb).
Proof.
  assert (Hc : keeps (traced P) (check_file_exists ib ("counterparty/" +:+ ts +:+ ".csv")))
    by (apply (traced_check_file_exists "counterparty"); in_list).
  pose proof traced_raw_read as Hr.
  assert (Hl : keeps (traced P) (s3_list_objects_v2 ib "address/"))
    by (apply traced_s3_list_objects_v2, Hlist).
  assert (Hw : ∀ df, keeps (traced P)
                       (s3_write df ("s3://" +:+ pb +:+ "/dim_counterparty/" +:+ ts
                                       +:+ ".parquet")))
    by (intros df; apply (traced_dimension_write df "dim_counterparty" "dim_counterparty");
        in_list).
  unfold dim_counterparty. solve_keeps.
Qed.

Lemma traced_dim_date (start end_ : string) : keeps (traced P) (dim_date pb start end_).
Proof.
  assert (Hw : ∀ df, keeps (traced P)
                       (s3_write df ("s3://" +:+ pb +:+ "/dim_date/dim_date.parquet")))
    by (intros df; apply traced_s3_write, Hdate).
  unfold dim_date, dim_date_frame. solve_keeps.
Qed.

End builder_calls.

Lemma runs_transform_handler (env : gmap string string) (event : gmap string pyval)
    (context : unit) :
  runs env
    (transform_call (py_str (default PNone (event !! "timestamp_to_transform"))) env)
    (lambda_handler event context).
Proof.
  unfold lambda_handler.
  destruct (negb (truthy (event !! "timestamp_to_transform")));
    [apply runs_keeps, keeps_raise|].
  cbv zeta. apply runs_environ_get, runs_environ_get.
  destruct (env !! "S3_INGESTION_BUCKET") as [ib|] eqn:Eib;
    [|apply runs_keeps, keeps_raise].
  destruct (env !! "S3_PROCESSED_BUCKET") as [pb|] eqn:Epb;
    [|cbn [str_truthy negb orb]; rewrite orb_true_r; apply runs_keeps, keeps_raise].
  destruct (negb (str_truthy (Some ib)) || negb (str_truthy (Some pb)));
    [apply runs_keeps, keeps_raise|].
  cbn [default from_option id].
  set (ts := py_str (default PNone (event !! "timestamp_to_transform"))).
  set (P := transform_call ts env).
  assert (Hhead : ∀ table, table ∈ raw_tables →
            P (S3Head ib (table +:+ "/" +:+ ts +:+ ".csv")))
    by (intros table Hin; split; [exact Eib|]; exists table; split; [exact Hin | reflexivity]).
  assert (Hlist : P (S3List ib "address/")) by (split; [exact Eib | reflexivity]).
  assert (Hget : ∀ key, P (S3Get (s3_url ib key)))
    by (intros key; exists ib, key; split; [exact Eib | reflexivity]).
  assert (Hput : ∀ prefix target, (prefix, target) ∈ Load.TABLE_CONFIG →
            P (S3Put (parquet_path pb prefix ts))).
  { intros prefix target Hin. exists pb. split; [exact Epb|]. right.
    exists prefix, target. split; [exact Hin | reflexivity]. }
  assert (Hdate : P (S3Put (s3_url pb Load.DIM_DATE_KEY)))
    by (exists pb; split; [exact Epb | left; reflexivity]).
  apply runs_keeps.
  apply keeps_bind; [apply traced_fact_sales_order; assumption|intros _].
  apply keeps_bind; [apply traced_dim_currency; assumption|intros _].
  apply keeps_bind; [apply traced_dim_location; assumption|intros _].
  apply keeps_bind; [apply traced_dim_design; assumption|intros _].
  apply keeps_bind; [apply traced_dim_staff; assumption|intros _].
  apply keeps_bind; [apply traced_dim_counterparty; assumption|intros _].
  apply keeps_bind; [apply traced_dim_date; assumption|intros _].
  apply keeps_ret.
Qed.

(** X8: whatever happens in a run, the transformer only calls the object
    store: it checks the artifacts of its seven raw tables for the batch
    key and lists the address prefix in the ingestion bucket, reads from
    the ingestion bucket, and writes to the processed bucket, either the
    date dimension at its fixed key or the columnar artifact of a
    configured dimension for the batch key.  It never touches a database,
    the parameter store or the secrets. *)
Theorem transform_footprint (event : gmap string pyval) (context : unit) (w : world) :
  ∃ new,
    trace (lambda_handler event context w).2 = (trace w ++ new)%list
    ∧ Forall (transform_call (py_str (default PNone (event !! "timestamp_to_transform")))
                (environ w)) new.
Proof.
  destruct (runs_transform_handler (environ w) event context w eq_refl) as [_ _ Hnew].
  exact Hnew.
Qed.

End transform_footprint.

(** *** The footprint of the loader *)

Section load_footprint.
Context `{Pg8000, PandasWhere}.
Import Load.

Lemma traced_replace_table (P : call → Prop) (bucket key path target : string) :
  P (S3Head bucket key) → P (S3Get path) →
  (∀ text, P (DbRun (SqlTruncate target) text)) →
  (∀ cols vals text, P (DbRun (SqlInsert target cols vals) text)) →
  keeps (traced P) (s3_object_exists bucket key)
  ∧ keeps (traced P) (s3_read path)
  ∧ keeps (traced P) (truncate_table target)
  ∧ ∀ df, keeps (traced P) (insert_dataframe target df).
Proof.
  intros Hh Hg Ht Hi.
  assert (keeps (traced P) (s3_head_object bucket key)) by (apply keeps_s3_head_object, Hh).
  assert (keeps (traced P) (conn_run (SqlTruncate target))) by (apply traced_conn_run, Ht).
  assert (∀ cols row, keeps (traced P) (conn_run (SqlInsert target cols row)))
    by (intros cols row; apply traced_conn_run, Hi).
  split; [unfold s3_object_exists; solve_keeps|].
  split; [apply keeps_s3_read, Hg|].
  split; [unfold truncate_table; solve_keeps|].
  intros df. unfold insert_dataframe. solve_keeps.
Qed.

Lemma traced_load_table (P : call → Prop) (bucket ts prefix target : string)
    (loaded : list string) :
  P (S3Head bucket (parquet_key prefix ts)) → P (S3Get (parquet_path bucket prefix ts)) →
  (∀ text, P (DbRun (SqlTruncate target) text)) →
  (∀ cols vals text, P (DbRun (SqlInsert target cols vals) text)) →
  keeps (traced P) (load_table bucket ts (prefix, target) loaded).
Proof.
  intros Hh Hg Ht Hi.
  destruct (traced_replace_table P bucket (parquet_key prefix ts)
              (parquet_path bucket prefix ts) target Hh Hg Ht Hi)
    as (He & Hr & Htr & Hin).
  unfold parquet_key in He. unfold parquet_path, parquet_key, s3_url in Hr.
  unfold load_table. solve_keeps.
Qed.

Lemma traced_load_dim_date (P : call → Prop) (bucket : string) (loaded : list string) :
  P (S3Head bucket DIM_DATE_KEY) → P (S3Get (s3_url bucket DIM_DATE_KEY)) →
  (∀ text, P (DbRun (SqlTruncate "dim_date") text)) →
  (∀ cols vals text, P (DbRun (SqlInsert "dim_date" cols vals) text)) →
  keeps (traced P) (load_dim_date bucket loaded).
Proof.
  intros Hh Hg Ht Hi.
  destruct (traced_replace_table P bucket DIM_DATE_KEY (s3_url bucket DIM_DATE_KEY)
              "dim_date" Hh Hg Ht Hi) as (He & Hr & Htr & Hin).
  unfold s3_url in Hr.
  unfold load_dim_date. solve_keeps.
Qed.

Lemma runs_load_credentials (ts : string) (env : gmap string string) :
  runs env (load_call ts env) Load.get_db_credentials.
Proof.
  unfold Load.get_db_credentials. apply runs_environ_get.
  destruct (env !! "DB_SECRET_NAME") as [s|] eqn:E; cbn [str_truthy negb default from_option id].
  - apply runs_keeps.
    assert (keeps (traced (load_call ts env)) (sm_get_secret_json s))
      by (apply keeps_sm_get_secret_json; exact E).
    cbv zeta. solve_keeps.
  - apply runs_keeps, keeps_raise.
Qed.

Lemma runs_load_handler (env : gmap string string) (event : gmap string pyval)
    (context : unit) :
  runs env (load_call (load_key event) env) (Load.lambda_handler event context).
Proof.
  unfold Load.lambda_handler. apply runs_environ_get.
  destruct (env !! "S3_PROCESSED_BUCKET") as [pb|] eqn:Epb;
    [|apply runs_keeps, keeps_raise].
  destruct (negb (str_truthy (Some pb))); [apply runs_keeps, keeps_raise|].
  cbv zeta. fold (load_key event).
  destruct (negb (truthy _)); [apply runs_keeps, keeps_raise|].
  cbn [default from_option id].
  set (ts := load_key event). set (P := load_call ts env).
  apply runs_bind; [apply runs_load_credentials|intros creds].
  apply runs_bind.
  { apply runs_keeps. unfold Load.create_db_connection, py_int.
    assert (keeps (traced P) pg_connect) by (apply keeps_pg_connect; exact I).
    solve_keeps. }
  intros _. apply runs_keeps, keeps_try_finally.
  - apply keeps_bind.
    + apply keeps_for_in_elem. intros [prefix target] loaded Hin. apply traced_load_table.
      * split; [exact Epb|]. right. exists prefix, target. split; [exact Hin | reflexivity].
      * exists pb. split; [exact Epb|]. right. exists prefix, target.
        split; [exact Hin | reflexivity].
      * intros text. right. exists prefix. exact Hin.
      * intros cols vals text. right. exists prefix. exact Hin.
    + intros loaded. apply keeps_bind; [|intros ?; apply keeps_ret].
      apply traced_load_dim_date.
      * split; [exact Epb | left; reflexivity].
      * exists pb. split; [exact Epb | left; reflexivity].
      * intros text. left. reflexivity.
      * intros cols vals text. left. reflexivity.
  - unfold Load.close_connection.
    assert (keeps (traced P) conn_close) by (apply keeps_conn_close; exact I).
    solve_keeps.
Qed.

(** X11: whatever happens in a run, the loader only reads the secret named
    by [DB_SECRET_NAME], opens and closes a connection, checks and reads,
    in the processed bucket, the date dimension and the artifacts of its
    configuration for the batch key, and sends TRUNCATE and INSERT
    statements on the tables of its configuration and on [dim_date].  It
    never writes an object or a parameter and never sends a SELECT. *)
Theorem load_footprint (event : gmap string pyval) (context : unit) (w : world) :
  ∃ new,
    trace (Load.lambda_handler event context w).2 = (trace w ++ new)%list
    ∧ Forall (load_call (load_key event) (environ w)) new.
Proof.
  destruct (runs_load_handler (environ w) event context w eq_refl) as [_ _ Hnew].
  exact Hnew.
Qed.

End load_footprint.

(** *** From the transformer to the loader *)

Lemma s3_puts_elem (p : string) (t : list call) : p ∈ s3_puts t → S3Put p ∈ t.
Proof.
  unfold s3_puts. rewrite list_elem_of_omap. intros (c & Hc & E).
  destruct c; try discriminate E. injection E as ->. exact Hc.
Qed.

Section handoff.
Context `{Pandas}.

(** What a run of the transformer returns. *)
Lemma transform_result (event : gmap string pyval) (context : unit) (w : world)
    (res : gmap string pyval) :
  (Transform.lambda_handler event context w).1 = Return res →
  truthy (event !! "timestamp_to_transform") = true
  ∧ res = {[ "message" := PStr "transform_success";
             "timestamp" := default PNone (event !! "timestamp_to_transform") ]}.
Proof.
  unfold Transform.lambda_handler.
  destruct (truthy (event !! "timestamp_to_transform")); [|intros E; discriminate E].
  cbn [negb]. unfold environ_get. rewrite !bind_unfold.
  destruct (negb (str_truthy (environ w !! "S3_INGESTION_BUCKET"))
            || negb (str_truthy (environ w !! "S3_PROCESSED_BUCKET")));
    [intros E; discriminate E|].
  intros E.
  match type of E with (?x).1 = _ => destruct x as [r w'] eqn:Erun end.
  cbn [fst snd] in *. subst r.
  apply bind_inv_Return in Erun as ([] & w1 & _ & Erun).
  apply bind_inv_Return in Erun as ([] & w2 & _ & Erun).
  apply bind_inv_Return in Erun as ([] & w3 & _ & Erun).
  apply bind_inv_Return in Erun as ([] & w4 & _ & Erun).
  apply bind_inv_Return in Erun as ([] & w5 & _ & Erun).
  apply bind_inv_Return in Erun as ([] & w6 & _ & Erun).
  apply bind_inv_Return in Erun as ([] & w7 & _ & Erun).
  injection Erun as <- _. split; reflexivity.
Qed.

(** X9: the key the transformer writes under is the key the loader looks
    up: the batch key the loader takes from the result of a run of the
    transformer is the transformer's own, and every object that run wrote
    is, in the processed bucket, the date dimension or the artifact of an
    entry of the loader's configuration for that key. *)
Theorem transform_load_handoff (event : gmap string pyval) (context : unit) (w : world)
    (res : gmap string pyval) :
  (Transform.lambda_handler event context w).1 = Return res →
  load_key res = py_str (default PNone (event !! "timestamp_to_transform"))
  ∧ ∃ new,
      trace (Transform.lambda_handler event context w).2 = (trace w ++ new)%list
      ∧ ∀ path, path ∈ s3_puts new →
          ∃ bucket,
            environ w !! "S3_PROCESSED_BUCKET" = Some bucket
            ∧ (path = s3_url bucket Load.DIM_DATE_KEY
               ∨ ∃ prefix target,
                   (prefix, target) ∈ Load.TABLE_CONFIG
                   ∧ path = parquet_path bucket prefix (load_key res)).
Proof.
  intros Hret. destruct (transform_result event context w res Hret) as [Ht ->].
  assert (Hkey : load_key {[ "message" := PStr "transform_success";
                             "timestamp" := default PNone (event !! "timestamp_to_transform") ]}
                 = py_str (default PNone (event !! "timestamp_to_transform"))).
  { unfold load_key. rewrite lookup_insert_ne by discriminate.
    rewrite lookup_singleton_eq. unfold py_or.
    destruct (event !! "timestamp_to_transform") as [v|]; [|discriminate Ht].
    cbn [default from_option id]. cbn [default from_option id] in Ht. rewrite Ht.
    reflexivity. }
  split; [exact Hkey|].
  destruct (runs_transform_handler (environ w) event context w eq_refl)
    as [_ _ (new & Htr & Hall)].
  exists new. split; [exact Htr|]. intros path Hin. rewrite Hkey.
  apply s3_puts_elem in Hin. rewrite Forall_forall in Hall. apply (Hall _ Hin).
Qed.

End handoff.

(** ** The two existence checks *)

(** X10: the existence check of the transformer and the one of the loader
    agree, and answer whether the object is there when the call does not
    fail, except on a client error with the code [NoSuchKey] or
    [NotFound]: the loader then answers [False] and the transformer
    raises the error. *)
Theorem existence_checks_compared (bucket key : string) (w : world) :
  match fault w (S3Head bucket key) with
  | None =>
      Load.s3_object_exists bucket key w = Transform.check_file_exists bucket key w
      ∧ (Load.s3_object_exists bucket key w).1
        = Return (bool_decide (is_Some (s3 w !! s3_url bucket key)))
  | Some e =>
      if isinstance e ClientError && bool_decide (exn_code e ∈ ["NoSuchKey"; "NotFound"])
      then (Load.s3_object_exists bucket key w).1 = Return false
           ∧ (Transform.check_file_exists bucket key w).1 = Raise e
      else Load.s3_object_exists bucket key w = Transform.check_file_exists bucket key w
  end.
Proof.
  unfold Load.s3_object_exists, Transform.check_file_exists, s3_head_object. run.
  destruct (fault w (S3Head bucket key)) as [e|]; run.
  - destruct (isinstance e ClientError); cbn [andb]; run; [|reflexivity].
    case_bool_decide as Hc.
    + rewrite bool_decide_eq_true_2 by (right; exact Hc).
      rewrite bool_decide_eq_false_2; [split; reflexivity|].
      intros E. rewrite E in Hc.
      repeat (apply elem_of_cons in Hc as [Hc|Hc]; [discriminate Hc|]). inversion Hc.
    + case_bool_decide as H3; case_bool_decide as H4; try reflexivity.
      * apply elem_of_cons in H3 as [H3|H3]; contradiction.
      * exfalso. apply H3. rewrite H4. left.
  - destruct (s3 w !! s3_url bucket key); run.
    + rewrite (bool_decide_eq_true_2 (is_Some (Some _))) by eauto. split; reflexivity.
    + rewrite (bool_decide_eq_false_2 (is_Some None)) by (apply is_Some_None).
      split; reflexivity.
Qed.

(** ** The watermark store *)

Section watermark.
Import Extract.

(** X5: what [update_last_checked] stores is what [get_last_checked] reads
    back: after a put of [v] that the parameter store accepts, the read
    returns [v]; the put leaves the object store alone. *)
Theorem watermark_round_trip (v : string) (w : world) :
  fault w (SsmPut "last_checked" v) = None →
  fault w (SsmGet "last_checked") = None →
  (update_last_checked v w).1 = Return v
  ∧ (get_last_checked (update_last_checked v w).2).1 = Return {[ "last_checked" := v ]}
  ∧ s3 (update_last_checked v w).2 = s3 w.
Proof.
  intros Hp Hg. unfold update_last_checked, get_last_checked, ssm_put_parameter,
    ssm_get_parameter. run. rewrite Hp. run. rewrite Hg. run.
  rewrite lookup_insert_eq. repeat split.
Qed.

End watermark.

(** ** The connection to the source database *)

Section connection.
Import Extract.

(** X7: [create_db_connection] of the extractor raises a [KeyError],
    without attempting a connection, when one of the five keys is missing
    from the credentials; with all five it attempts exactly one
    connection, returns when the driver connects, and raises what the
    driver raised otherwise (as a new [KeyError] when that is one). *)
Theorem connection_needs_every_key (creds : gmap string pyval) (w : world) :
  (∀ k, k ∈ ["user"; "password"; "database"; "host"; "port"] → creds !! k = None →
        ∃ e, create_db_connection creds w = (Raise e, w) ∧ exn_cls e = KeyError)
  ∧ ((∀ k, k ∈ ["user"; "password"; "database"; "host"; "port"] → is_Some (creds !! k)) →
     trace (create_db_connection creds w).2 = (trace w ++ [DbConnect])%list
     ∧ match fault w DbConnect with
       | None => (create_db_connection creds w).1 = Return ()
       | Some e =>
           if isinstance e KeyError
           then ∃ msg, (create_db_connection creds w).1 = Raise (mk_exn KeyError "" msg)
           else (create_db_connection creds w).1 = Raise e
       end).
Proof.
  split.
  - intros k Hk Hnone. unfold create_db_connection, getitem.
    destruct (creds !! "user") eqn:E1; [|run; eexists; split; reflexivity].
    destruct (creds !! "password") eqn:E2; [|run; eexists; split; reflexivity].
    destruct (creds !! "database") eqn:E3; [|run; eexists; split; reflexivity].
    destruct (creds !! "host") eqn:E4; [|run; eexists; split; reflexivity].
    destruct (creds !! "port") eqn:E5; [|run; eexists; split; reflexivity].
    exfalso. repeat (apply elem_of_cons in Hk as [->|Hk]; [congruence|]). inversion Hk.
  - intros Hall. unfold create_db_connection, getitem, pg_connect.
    destruct (Hall "user") as [? ->]; [repeat constructor|].
    destruct (Hall "password") as [? ->]; [repeat constructor|].
    destruct (Hall "database") as [? ->]; [repeat constructor|].
    destruct (Hall "host") as [? ->]; [repeat constructor|].
    destruct (Hall "port") as [? ->]; [repeat constructor|].
    run. destruct (fault w DbConnect) as [e|]; run; [|split; reflexivity].
    destruct (isinstance e KeyError) eqn:Hk; run.
    + split; [reflexivity|]. eexists. reflexivity.
    + destruct (isinstance e InterfaceError); run; [split; reflexivity|].
      rewrite isinstance_Exception. run. split; reflexivity.
Qed.

End connection.

(** ** A failed query, in general *)

Section failed_query_general.
Context `{Pg8000, PyDatetime}.
Import Extract.

(** The loop does not get past a table whose query fails. *)
Lemma extract_loop_aborts (bucket last_checked batch_id t : string)
    (tables uploaded : list string) (w : world) :
  t ∈ tables →
  (∀ since text, is_Some (fault w (DbRun (SqlSelect t since) text))) →
  ∃ e, (for_in tables (extract_table bucket last_checked batch_id) uploaded w).1 = Raise e.
Proof.
  revert uploaded w. induction tables as [|t' tables IH]; intros uploaded w Hin Hf;
    [inversion Hin|].
  cbn [for_in]. rewrite bind_unfold.
  destruct (extract_table_run bucket last_checked batch_id t' uploaded w)
    as (Hst & new & _ & _ & Hcase). cbv zeta in Hcase.
  destruct (extract_table bucket last_checked batch_id t' uploaded w) as [[up|e] w1] eqn:E;
    cbn [fst snd] in *; [|eexists; reflexivity].
  apply elem_of_cons in Hin as [<-|Hin].
  - exfalso. destruct (fromisoformat last_checked) as [dt|].
    + assert (Hq : is_Some (fault w (DbRun (query_for t dt) (render (query_for t dt)))))
        by (unfold query_for; case_bool_decide; apply Hf).
      destruct Hq as [e Hq]. rewrite Hq in Hcase.
      destruct Hcase as [[e' He'] _]. discriminate He'.
    + destruct Hcase as [[e' He'] _]. discriminate He'.
  - apply IH; [exact Hin|]. intros since text. rewrite (steady_fault _ _ Hst). apply Hf.
Qed.

Lemma after_bind_silent_any {A B} (m : M A) (f : A → M B) (w : world)
    (Q : outcome B → world → Prop) :
  silent_m m →
  (∀ e w1, silent w w1 → Q (Raise e) w1) →
  (∀ a w1, silent w w1 → after (f a) w1 Q) →
  after (m ≫= f) w Q.
Proof.
  intros Hs Hr Hk. unfold after. rewrite bind_unfold. specialize (Hs w).
  destruct (m w) as [[a|e] w1]; cbn [fst snd] in *; [apply Hk, Hs | apply Hr, Hs].
Qed.

(** X3: when the queries on one table of the list fail, whatever the
    exception, the handler does not return: the cycle ends with an
    exception and the stored watermark is the one from before. *)
Theorem failed_query_aborts_cycle (event : gmap string pyval) (context : unit) (w : world)
    (t : string) :
  let r := lambda_handler event context w in
  t ∈ tables_to_import →
  (∀ since text, is_Some (fault w (DbRun (SqlSelect t since) text))) →
  (∃ e, r.1 = Raise e) ∧ ssm_params r.2 = ssm_params w.
Proof.
  cbv zeta. intros Hin Hf.
  assert (Hraise : ∃ e, (lambda_handler event context w).1 = Raise e).
  { change (after (lambda_handler event context) w (λ r _, ∃ e, r = Raise e)).
    pose proof silent_get_last_checked. pose proof silent_get_db_credentials.
    pose proof silent_create_db_connection. pose proof silent_get_bucket_name.
    unfold lambda_handler.
    eapply after_bind_silent_any; [solve [eauto with keeps] | eauto | intros ? w1 S1].
    eapply after_bind_silent_any; [solve [eauto with keeps] | eauto | intros ? w2 S2].
    pose proof (silent_trans _ _ _ S1 S2) as Sx. clear S1 S2 w1.
    eapply after_bind_silent_any; [solve [eauto with keeps] | eauto | intros ? w3 S3].
    pose proof (silent_trans _ _ _ Sx S3) as Sy. clear Sx S3 w2.
    eapply after_bind_silent_any; [solve [eauto with keeps] | eauto | intros ? w4 S4].
    pose proof (silent_trans _ _ _ Sy S4) as Sx. clear Sy S4 w3.
    eapply after_bind_silent_any; [solve [eauto with keeps] | eauto | intros ? w5 S5].
    pose proof (silent_trans _ _ _ Sx S5) as Sy. clear Sx S5 w4.
    eapply after_bind_silent_any; [solve [eauto with keeps] | eauto | intros ? w6 S6].
    pose proof (silent_trans _ _ _ Sy S6) as Sx. clear Sy S6 w5.
    eapply after_bind_silent_any; [solve [eauto with keeps] | eauto | intros ? w7 S7].
    pose proof (silent_trans _ _ _ Sx S7) as Sy. clear Sx S7 w6.
    eapply after_bind_silent_any; [solve [eauto with keeps] | eauto | intros ? w8 S8].
    pose proof (silent_trans _ _ _ Sy S8) as Sx. clear Sy S8 w7.
    eapply after_bind_silent_any; [solve [eauto with keeps] | eauto | intros ? w9 S9].
    pose proof (silent_trans _ _ _ Sx S9) as Sy. clear Sx S9 w8.
    eapply after_bind_silent_any; [solve [eauto with keeps] | eauto | intros ? w10 S10].
    pose proof (silent_trans _ _ _ Sy S10) as Sx. clear Sy S10 w9.
    apply after_bind_now. cbv zeta.
    apply after_try_finally_silent;
      [apply silent_close_connection | apply close_connection_returns|].
    unfold after. rewrite bind_unfold.
    match goal with
    | |- context [for_in tables_to_import (extract_table ?b ?lc ?bid) [] ?w0] =>
        destruct (extract_loop_aborts b lc bid t tables_to_import [] w0 Hin) as [e He]
    end.
    { intros since text. cbn [fault set_ticks]. rewrite (silent_fault _ _ Sx). apply Hf. }
    match type of He with (?x).1 = _ => destruct x as [r1 w11] end.
    cbn [fst snd] in *. subst r1. intros w12 _. eexists. reflexivity. }
  split; [exact Hraise|].
  destruct (extract_handler_guarded event context w)
    as (before & after & Ht & Hp & _ & _ & Hssm).
  destruct Hraise as [e He]. apply (Hssm e He).
Qed.

End failed_query_general.

(** ** An insertion that fails midway *)

Section partial_insert.
Context `{Pg8000, PandasWhere}.
Import Load.





End partial_insert.

(** ** The life of the database connection *)

Ltac connection_raised := run; left; repeat split; eexists; reflexivity.

Ltac connection_opened creds w :=
  destruct (creds !! "database"); [|connection_raised];
  destruct (creds !! "user"); [|connection_raised];
  destruct (creds !! "password"); [|connection_raised];
  run; right; destruct (fault w DbConnect) as [e|]; run; [|repeat split];
  destruct (isinstance e KeyError); run; [repeat split; eexists; reflexivity|];
  destruct (isinstance e InterfaceError); run; [repeat split; eexists; reflexivity|];
  rewrite isinstance_Exception; run; repeat split; eexists; reflexivity.

Lemma load_connection_run `{Pg8000} (creds : gmap string pyval) (w : world) :
  let r := Load.create_db_connection creds w in
  (trace r.2 = trace w ∧ fault r.2 = fault w ∧ ∃ e, r.1 = Raise e)
  ∨ (trace r.2 = (trace w ++ [DbConnect])%list ∧ fault r.2 = fault w
     ∧ match fault w DbConnect with
       | Some _ => ∃ e, r.1 = Raise e
       | None => r.1 = Return ()
       end).
Proof.
  cbv zeta. unfold Load.create_db_connection, getitem, Load.py_int, pg_connect.
  destruct (creds !! "host"); [|connection_raised].
  destruct (creds !! "port") as [port|]; [|connection_raised].
  destruct port as [|b|z|s|l]; run.
  - connection_raised.
  - connection_opened creds w.
  - connection_opened creds w.
  - destruct (digits_to_Z 0 s) as [z|]; [|connection_raised].
    destruct (bool_decide (s = "")); [connection_raised|]. connection_opened creds w.
  - connection_raised.
Qed.

Section load_connection.
Context `{Pg8000, PandasWhere}.

Lemma load_close_trace (w : world) :
  trace (Load.close_connection w).2 = (trace w ++ [DbClose])%list.
Proof.
  unfold Load.close_connection, conn_close. run.
  destruct (fault w DbClose) as [e|]; run; [|reflexivity].
  rewrite isinstance_Exception. reflexivity.
Qed.

Lemma traced_load_credentials_off : keeps (traced off_connection) Load.get_db_credentials.
Proof.
  unfold Load.get_db_credentials.
  assert (∀ s, keeps (traced off_connection) (sm_get_secret_json s))
    by (intros s; apply keeps_sm_get_secret_json; exact I).
  cbv zeta. solve_keeps.
Qed.

Lemma traced_load_body (bucket ts : string) (last_checked_val : pyval) :
  keeps (traced on_connection)
    (loaded ← for_in Load.TABLE_CONFIG (Load.load_table bucket ts) [];
     loaded ← Load.load_dim_date bucket loaded;
     mret ({[ "message" := PStr "load_success";
              "timestamp_loaded" := last_checked_val;
              "tables_loaded" := PStrList loaded ]} : gmap string pyval)).
Proof.
  apply keeps_bind.
  - apply keeps_for_in. intros [prefix target] loaded.
    apply traced_load_table; intros; exact I.
  - intros loaded. apply keeps_bind; [|intros ?; apply keeps_ret].
    apply traced_load_dim_date; intros; exact I.
Qed.

(** X12: the loader closes every connection it opens: in a run, either no
    connection is attempted, or the attempt fails and is the last call, or
    the connection opens and the closing of it is the last call of the
    run, with every statement sent in between, whether the load returned
    or raised. *)
Theorem load_connection_bracket (event : gmap string pyval) (context : unit) (w : world) :
  let r := Load.lambda_handler event context w in
  ∃ pre,
    Forall off_connection pre
    ∧ ((trace r.2 = (trace w ++ pre)%list ∧ ∃ e, r.1 = Raise e)
       ∨ (trace r.2 = (trace w ++ pre ++ [DbConnect])%list
          ∧ is_Some (fault w DbConnect) ∧ ∃ e, r.1 = Raise e)
       ∨ (∃ mid,
            Forall on_connection mid
            ∧ trace r.2 = (trace w ++ pre ++ DbConnect :: mid ++ [DbClose])%list
            ∧ fault w DbConnect = None)).
Proof.
  cbv zeta. unfold Load.lambda_handler, environ_get. rewrite bind_unfold.
  destruct (negb (str_truthy (environ w !! "S3_PROCESSED_BUCKET")));
    [exists []; split; [constructor|]; left; rewrite app_nil_r; split;
       [reflexivity | eexists; reflexivity]|].
  cbv zeta.
  destruct (negb (truthy _));
    [exists []; split; [constructor|]; left; rewrite app_nil_r; split;
       [reflexivity | eexists; reflexivity]|].
  rewrite bind_unfold.
  pose proof (traced_load_credentials_off w) as Hc.
  destruct (Load.get_db_credentials w) as [[creds|e] w1]; cbn [snd] in Hc;
    destruct Hc as [_ Hf (pre & Ht & Hpre)]; exists pre; (split; [exact Hpre|]);
    [|left; split; [exact Ht | eexists; reflexivity]].
  rewrite bind_unfold.
  pose proof (load_connection_run creds w1) as Hr. cbv zeta in Hr.
  destruct (Load.create_db_connection creds w1) as [r2 w2]. cbn [fst snd] in Hr.
  rewrite Hf in Hr.
  destruct Hr as [(Ht2 & Hf2 & e & ->) | (Ht2 & Hf2 & Hm)].
  - cbn [fst snd]. left. split; [rewrite Ht2; exact Ht | eexists; reflexivity].
  - destruct (fault w DbConnect) as [e0|] eqn:Hfc.
    + destruct Hm as [e ->]. cbn [fst snd]. right. left.
      split; [rewrite Ht2, Ht, <- app_assoc; reflexivity|]. split; eexists; reflexivity.
    + subst r2. cbv beta iota. right. right. unfold try_finally.
      match goal with
      | |- context [let '(_, _) := ?m w2 in _] =>
          pose proof (traced_load_body _ _ _ w2 : traced on_connection w2 (m w2).2) as Hb;
          destruct (m w2) as [rb w3]
      end.
      cbn [snd] in Hb. destruct Hb as [_ _ (mid & Ht3 & Hmid)].
      pose proof (load_close_trace w3) as Ht4.
      exists mid. split; [exact Hmid|]. split; [|reflexivity].
      destruct (Load.close_connection w3) as [[[]|e] w4]; cbn [snd] in *;
        rewrite Ht4, Ht3, Ht2, Ht, <- !app_assoc; reflexivity.
Qed.

End load_connection.

Section extract_connection.
Context `{Pg8000, PyDatetime}.
Import Extract.

(** X4: [get_bucket_name] is called after the connection is opened and
    outside the [try]: when the configuration is complete but for
    [S3_INGESTION_BUCKET], the handler raises the [ValueError] of the
    missing variable after it has connected, and the connection is never
    closed. *)
Theorem extract_connection_left_open (event : gmap string pyval) (context : unit)
    (w : world) (secret_name : string) (creds : gmap string pyval) :
  let r := lambda_handler event context w in
  fault w (SsmGet "last_checked") = None →
  environ w !! "DB_SECRET_NAME" = Some secret_name → secret_name ≠ "" →
  fault w (SmGet secret_name) = None →
  sm_secrets w !! secret_name = Some (Some creds) →
  (∀ k, k ∈ ["user"; "password"; "database"; "host"; "port"] → is_Some (creds !! k)) →
  fault w DbConnect = None →
  str_truthy (environ w !! "S3_INGESTION_BUCKET") = false →
  r.1 = Raise (mk_exn ValueError "" "Missing environment variable S3_INGESTION_BUCKET")
  ∧ trace r.2 = (trace w ++ [SsmGet "last_checked"; SmGet secret_name; DbConnect])%list
  ∧ db_closed r.2 = false.
Proof.
  cbv zeta. intros Hg Hsn Hne Hsm Hsec Hkeys Hcon Hb.
  unfold lambda_handler, get_last_checked, ssm_get_parameter, get_db_credentials,
    environ_get, sm_get_secret_json, create_db_connection, pg_connect, get_bucket_name,
    getitem.
  destruct (Hkeys "user") as [v1 H1]; [in_list|].
  destruct (Hkeys "password") as [v2 H2]; [in_list|].
  destruct (Hkeys "database") as [v3 H3]; [in_list|].
  destruct (Hkeys "host") as [v4 H4]; [in_list|].
  destruct (Hkeys "port") as [v5 H5]; [in_list|].
  run. rewrite Hg.
  destruct (ssm_params w !! "last_checked") as [v|]; run;
    [|change (isinstance (mk_exn ParameterNotFound "ParameterNotFound" "Parameter not found")
                ParameterNotFound) with true; run];
    rewrite lookup_singleton_eq; run; rewrite Hsn;
    change (str_truthy (Some secret_name)) with (negb (bool_decide (secret_name = "")));
    rewrite (bool_decide_eq_false_2 _ Hne); cbn [negb]; run;
    cbn [default from_option]; change (id secret_name) with secret_name;
    rewrite Hsm, Hsec; run;
    rewrite H1, H2, H3, H4, H5; run; rewrite Hcon; run;
    unfold environ_get; run;
    rewrite Hb; cbn [negb]; run; rewrite <- !app_assoc; repeat split.
Qed.

End extract_connection.

(** ** The order of the queries *)

Lemma queried_tables_app (t1 t2 : list call) :
  queried_tables (t1 ++ t2) = (queried_tables t1 ++ queried_tables t2)%list.
Proof. apply omap_app. Qed.

Lemma queried_tables_none (new : list call) : Forall no_query new → queried_tables new = [].
Proof.
  induction 1 as [|c new Hc _ IH]; [reflexivity|].
  change (c :: new) with ([c] ++ new)%list. rewrite queried_tables_app, Hc, IH. reflexivity.
Qed.

Section in_order.
Context (tables : list string).

Lemma in_order_bind_pre {A B} (m : M A) (f : A → M B) :
  keeps (traced no_query) m → (∀ a, in_order tables (f a)) → in_order tables (m ≫= f).
Proof.
  intros Hm Hf w. rewrite bind_unfold. specialize (Hm w).
  destruct (m w) as [[a|e] w1]; cbn [snd] in Hm; destruct Hm as [_ _ (n1 & T1 & F1)].
  - destruct (Hf a w1) as (n2 & T2 & P2 & R2). exists (n1 ++ n2)%list.
    rewrite T2, T1, <- app_assoc, queried_tables_app, (queried_tables_none _ F1).
    split; [reflexivity|]. split; [exact P2 | exact R2].
  - exists n1. rewrite (queried_tables_none _ F1). split; [exact T1|].
    split; [apply prefix_nil|]. intros a E. discriminate E.
Qed.

Lemma in_order_bind_post {A B} (m : M A) (f : A → M B) :
  in_order tables m → (∀ a, keeps (traced no_query) (f a)) → in_order tables (m ≫= f).
Proof.
  intros Hm Hf w. rewrite bind_unfold. destruct (Hm w) as (n1 & T1 & P1 & R1).
  destruct (m w) as [[a|e] w1]; cbn [fst snd] in *.
  - destruct (Hf a w1) as [_ _ (n2 & T2 & F2)]. exists (n1 ++ n2)%list.
    rewrite T2, T1, <- app_assoc, queried_tables_app, (queried_tables_none _ F2), app_nil_r.
    split; [reflexivity|]. split; [exact P1|]. intros b _. apply (R1 a eq_refl).
  - exists n1. split; [exact T1|]. split; [exact P1|]. intros b E. discriminate E.
Qed.

Lemma in_order_try_finally {A} (m : M A) (fin : M unit) :
  in_order tables m → keeps (traced no_query) fin → in_order tables (try_finally m fin).
Proof.
  intros Hm Hf w. unfold try_finally. destruct (Hm w) as (n1 & T1 & P1 & R1).
  destruct (m w) as [r w1]. cbn [fst snd] in *.
  destruct (Hf w1) as [_ _ (n2 & T2 & F2)].
  exists (n1 ++ n2)%list.
  rewrite queried_tables_app, (queried_tables_none _ F2), app_nil_r.
  destruct (fin w1) as [[[]|e] w2]; cbn [fst snd] in *;
    (split; [rewrite T2, T1, <- app_assoc; reflexivity|]); (split; [exact P1|]).
  - exact R1.
  - intros a E. discriminate E.
Qed.

End in_order.

Section query_order.
Context `{Pg8000, PyDatetime}.
Import Extract.

Lemma no_query_rest (bucket table batch_id : string) (uploaded : list string)
    (r : option (list string * list (list value))) :
  keeps (traced no_query)
    ('(column_names, new_rows) ← unpack r;
     if negb (bool_decide (new_rows = []))
     then
       convert_new_rows_to_df_and_upload_to_s3_as_csv
         bucket table column_names new_rows batch_id;;
       mret (uploaded ++ [table])%list
     else
       logger_info ("No new rows for table=" +:+ table);;
       mret uploaded).
Proof.
  assert (∀ df path, keeps (traced no_query) (s3_write df path))
    by (intros df path; apply traced_s3_write; reflexivity).
  unfold convert_new_rows_to_df_and_upload_to_s3_as_csv. solve_keeps.
Qed.

(** One turn of the loop queries its table, unless the watermark cannot be
    parsed. *)
Lemma extract_table_queries (bucket last_checked batch_id table : string)
    (uploaded : list string) : in_order [table] (extract_table bucket last_checked batch_id table uploaded).
Proof.
  intros w. unfold extract_table. rewrite bind_unfold.
  pose proof (extract_new_rows_run table last_checked w) as Hq.
  pose proof (no_query_rest bucket table batch_id uploaded) as Hrest.
  assert (Hsel : ∀ dt, queried_tables [DbRun (query_for table dt) (render (query_for table dt))]
                       = [table])
    by (intros dt; unfold query_for; case_bool_decide; reflexivity).
  destruct (fromisoformat last_checked) as [dt|].
  - cbv zeta in Hq. specialize (Hsel dt).
    set (c := DbRun (query_for table dt) (render (query_for table dt))) in *.
    destruct (fault w c) as [e|].
    + destruct Hq as [msg ->]. cbv beta iota.
      destruct (Hrest None (add_log (ERROR, msg) (add_trace c w))) as [_ _ (n2 & T2 & F2)].
      exists ([c] ++ n2)%list. split.
      * etransitivity; [exact T2|]. cbn [trace add_log add_trace].
        rewrite <- app_assoc. reflexivity.
      * rewrite queried_tables_app, Hsel, (queried_tables_none _ F2).
        split; [reflexivity|]. intros a _. reflexivity.
    + rewrite Hq. cbv beta iota.
      destruct (Hrest (Some (db_select w (render (query_for table dt)))) (add_trace c w))
        as [_ _ (n2 & T2 & F2)].
      exists ([c] ++ n2)%list. split.
      * etransitivity; [exact T2|]. cbn [trace add_trace].
        rewrite <- app_assoc. reflexivity.
      * rewrite queried_tables_app, Hsel, (queried_tables_none _ F2).
        split; [reflexivity|]. intros a _. reflexivity.
  - destruct Hq as [e ->]. exists []. rewrite app_nil_r. split; [reflexivity|].
    split; [apply prefix_nil|]. intros a E. discriminate E.
Qed.

Lemma extract_loop_queries (bucket last_checked batch_id : string)
    (tables uploaded : list string) :
  in_order tables (for_in tables (extract_table bucket last_checked batch_id) uploaded).
Proof.
  revert uploaded. induction tables as [|t tables IH]; intros uploaded w; cbn [for_in].
  - exists []. rewrite app_nil_r. split; [reflexivity|]. split; reflexivity.
  - rewrite bind_unfold.
    destruct (extract_table_queries bucket last_checked batch_id t uploaded w)
      as (n1 & T1 & P1 & R1).
    destruct (extract_table bucket last_checked batch_id t uploaded w) as [[up|e] w1];
      cbn [fst snd] in *.
    + destruct (IH up w1) as (n2 & T2 & P2 & R2). exists (n1 ++ n2)%list.
      rewrite T2, T1, <- app_assoc, queried_tables_app, (R1 up eq_refl).
      split; [reflexivity|]. split.
      * apply prefix_cons, P2.
      * intros a E. cbn. f_equal. apply (R2 a E).
    + exists n1. split; [exact T1|]. split.
      * destruct P1 as [k Hk]. destruct (queried_tables n1) as [|x l].
        -- apply prefix_nil.
        -- injection Hk as <- Hl. destruct l; [|discriminate Hl].
           apply prefix_cons, prefix_nil.
      * intros a E. discriminate E.
Qed.

(** X2: the extractor queries the tables in the order of its list, each at
    most once: the tables queried in a run are a prefix of the list, and
    the whole list when the run returns. *)
Theorem extract_query_order (event : gmap string pyval) (context : unit) (w : world) :
  ∃ new,
    trace (lambda_handler event context w).2 = (trace w ++ new)%list
    ∧ queried_tables new `prefix_of` tables_to_import
    ∧ ∀ res, (lambda_handler event context w).1 = Return res →
             queried_tables new = tables_to_import.
Proof.
  revert w. change (in_order tables_to_import (lambda_handler event context)).
  assert (Hg : keeps (traced no_query) get_last_checked).
  { unfold get_last_checked.
    assert (keeps (traced no_query) (ssm_get_parameter "last_checked"))
      by (apply keeps_ssm_get_parameter; reflexivity).
    solve_keeps. }
  assert (Hc : keeps (traced no_query) get_db_credentials).
  { unfold get_db_credentials.
    assert (∀ s, keeps (traced no_query) (sm_get_secret_json s))
      by (intros s; apply keeps_sm_get_secret_json; reflexivity).
    solve_keeps. }
  assert (Hn : ∀ creds, keeps (traced no_query) (create_db_connection creds)).
  { intros creds. unfold create_db_connection.
    assert (keeps (traced no_query) pg_connect) by (apply keeps_pg_connect; reflexivity).
    solve_keeps. }
  assert (Hb : keeps (traced no_query) get_bucket_name)
    by (unfold get_bucket_name; solve_keeps).
  assert (Hclose : keeps (traced no_query) close_connection).
  { unfold close_connection.
    assert (keeps (traced no_query) conn_close) by (apply keeps_conn_close; reflexivity).
    solve_keeps. }
  unfold lambda_handler.
  do 10 (apply in_order_bind_pre; [solve [eauto with keeps]|intros ?]).
  apply in_order_bind_pre; [apply traced_now_isoformat|intros now]. cbv zeta.
  apply in_order_try_finally; [|exact Hclose].
  apply in_order_bind_post; [apply extract_loop_queries|intros uploaded].
  apply keeps_bind; [apply traced_now_isoformat|intros new_last_checked].
  unfold update_last_checked.
  assert (keeps (traced no_query) (ssm_put_parameter "last_checked" new_last_checked))
    by (apply traced_ssm_put_parameter; reflexivity).
  solve_keeps.
Qed.

End query_order.

Lemma watermark_round_trip_witness :
  (Extract.get_last_checked (Extract.update_last_checked Fake.watermark Fake.world0).2).1
  = Return {[ "last_checked" := Fake.watermark ]}.
Proof.
  apply (watermark_round_trip Fake.watermark Fake.world0); reflexivity.
Defined.

Lemma connection_needs_every_key_witness :
  (∃ e, Extract.create_db_connection {[ "user" := PStr "u" ]} Fake.world0 = (Raise e, Fake.world0)
        ∧ exn_cls e = KeyError)
  ∧ trace (Extract.create_db_connection Fake.creds Fake.world0).2 = [DbConnect].
Proof.
  split.
  - apply (proj1 (connection_needs_every_key {[ "user" := PStr "u" ]} Fake.world0) "password").
    + in_list.
    + vm_compute. reflexivity.
  - apply (proj2 (connection_needs_every_key Fake.creds Fake.world0)).
    intros k Hk. repeat (apply elem_of_cons in Hk as [->|Hk]); try (vm_compute; eauto).
    inversion Hk.
Defined.

Lemma failed_query_aborts_cycle_witness :
  let r := Extract.lambda_handler (H:=Fake.pg8000) (H0:=Fake.py_datetime) ∅ ()
             Fake.world_currency_down in
  (∃ e, r.1 = Raise e) ∧ ssm_params r.2 = ssm_params Fake.world_currency_down.
Proof.
  cbv zeta.
  apply (failed_query_aborts_cycle (H:=Fake.pg8000) (H0:=Fake.py_datetime) ∅ ()
           Fake.world_currency_down "currency").
  - in_list.
  - intros since text. eexists. reflexivity.
Defined.


Lemma transform_load_handoff_witness :
  let res : gmap string pyval :=
    {[ "message" := PStr "transform_success"; "timestamp" := PStr Fake.watermark ]} in
  load_key res = Fake.watermark.
Proof.
  cbv zeta.
  assert (Hret : (Transform.lambda_handler (H:=Fake.pandas) Fake.transform_event ()
                    Fake.world_ready).1
                 = Return {[ "message" := PStr "transform_success";
                             "timestamp" := PStr Fake.watermark ]})
    by (vm_compute; reflexivity).
  pose proof (transform_load_handoff (H:=Fake.pandas) Fake.transform_event ()
                Fake.world_ready _ Hret) as [Hkey _].
  rewrite Hkey. reflexivity.
Defined.

Lemma extract_connection_left_open_witness :
  let r := Extract.lambda_handler (H:=Fake.pg8000) (H0:=Fake.py_datetime) ∅ ()
             Fake.world_no_bucket in
  r.1 = Raise (mk_exn ValueError "" "Missing environment variable S3_INGESTION_BUCKET")
  ∧ trace r.2 = [SsmGet "last_checked"; SmGet "totesys"; DbConnect]
  ∧ db_closed r.2 = false.
Proof.
  cbv zeta.
  apply (extract_connection_left_open (H:=Fake.pg8000) (H0:=Fake.py_datetime) ∅ ()
           Fake.world_no_bucket "totesys" Fake.creds).
  - reflexivity.
  - vm_compute. reflexivity.
  - discriminate.
  - reflexivity.
  - vm_compute. reflexivity.
  - intros k Hk. repeat (apply elem_of_cons in Hk as [->|Hk]); try (vm_compute; eauto).
    inversion Hk.
  - reflexivity.
  - vm_compute. reflexivity.
Defined.
